(** * spacedebbie: conjunction screening, trajectory sampling and risk tiers

    A shallow embedding of

      - [processors/conjunction_detector.py]
          ([calculate_distance], [find_conjunctions], [assess_collision_risk]),
      - [processors/orbit_propagator.py]
          ([propagate_satellite], [get_current_position]),

    together with the properties the design document states about them.

    Modelling conventions.

    - Kilometre quantities are Python floats in the program.  They are
      idealised here as exact rationals ([Q]); the classifier, which the
      design document also discusses on non-finite inputs, takes the
      rationals extended with the IEEE specials ([float]).
    - [duration_hours] and [step_minutes] are Python ints at every call site
      of the repository (slider values and the literals 10 and 15) and are
      modelled as [Z].
    - A [datetime] is a count of microseconds, the resolution of Python's
      [datetime], and a [timedelta] a difference of two; the bounds of the
      calendar are left out.  [datetime.utcnow()] is an explicit argument.
    - The SGP4 library ([Satrec.twoline2rv], [jday], [Satrec.sgp4]) and
      [numpy.sqrt] are not part of the repository: they are the fields of the
      class [Externals].
    - A Python call either returns or raises: [outcome]. *)

From Stdlib Require Import ZArith QArith Qround Qreduction Qpower.
From Stdlib Require Import List String Bool.
From Stdlib Require Import Lia Lqa Sorted Permutation.
Import ListNotations.

Open Scope Z_scope.

(** ** Outcomes of Python calls *)

Inductive exn : Type :=
| ZeroDivisionError
| ValueError.

Inductive outcome (A : Type) : Type :=
| Returns (a : A)
| Raises (e : exn).

Arguments Returns {A} a.
Arguments Raises {A} e.

Definition bind {A B : Type} (m : outcome A) (k : A -> outcome B) : outcome B :=
  match m with
  | Returns a => k a
  | Raises e => Raises e
  end.

Notation "x <- m ;; k" := (bind m (fun x => k))
  (at level 61, m at next level, right associativity).

(** ** Numbers *)

(** [x < y] on finite floats. *)
Definition Qltb (x y : Q) : bool := negb (Qle_bool y x).

(** A float as the classifier can receive it. *)
Inductive float : Type :=
| Finite (q : Q)
| PosInf
| NegInf
| NaN.

(** [x < c] for a float [x] and a finite literal [c], as IEEE 754 orders
    them: every comparison with NaN is false. *)
Definition float_ltb (x : float) (c : Q) : bool :=
  match x with
  | Finite q => Qltb q c
  | NegInf => true
  | PosInf => false
  | NaN => false
  end.

(** [x <= y] between two floats. *)
Definition float_leb (x y : float) : bool :=
  match x, y with
  | NaN, _ | _, NaN => false
  | NegInf, _ => true
  | _, PosInf => true
  | Finite p, Finite q => Qle_bool p q
  | _, _ => false
  end.

Fixpoint pow10 (n : nat) : positive :=
  match n with
  | O => 1%positive
  | S n' => (10 * pow10 n')%positive
  end.

(** Round to the nearest integer, halves to the even neighbour. *)
Definition rint (x : Q) : Z :=
  let f := Qfloor x in
  match (x - inject_Z f ?= 1 # 2)%Q with
  | Lt => f
  | Gt => f + 1
  | Eq => if Z.even f then f else f + 1
  end.

(** [round(x, ndigits)]: scale by [10^ndigits], round, scale back. *)
Definition py_round (x : Q) (ndigits : nat) : Q :=
  Qred (rint (x * inject_Z (Zpos (pow10 ndigits))) # pow10 ndigits).

(** ** Data *)

Definition datetime : Type := Z.
Definition timedelta : Type := Z.

(** [timedelta(minutes=m)]. *)
Definition minutes (m : Z) : timedelta := m * 60000000.

(** The dictionaries built by [tle_fetcher]: ["catalog"] is read with
    [.get('catalog', 'unknown')], the other keys by subscript. *)
Record Satellite : Type := mkSatellite {
  name : string;
  line1 : string;
  line2 : string;
  catalog : option string
}.

Definition get_catalog (sat : Satellite) : string :=
  match catalog sat with
  | Some c => c
  | None => "unknown"%string
  end.

(** The dictionary returned by [get_current_position]. *)
Record PosData : Type := mkPosData {
  pd_position : list Q;
  pd_velocity : list Q;
  pd_altitude_km : Q;
  pd_time : datetime
}.

(** One element of the list [positions] of [find_conjunctions]. *)
Record PosEntry : Type := mkPosEntry {
  pe_name : string;
  pe_catalog : string;
  pe_position : list Q;
  pe_altitude_km : Q;
  pe_time : datetime
}.

(** One element of the list returned by [find_conjunctions]. *)
Record Event : Type := mkEvent {
  object1 : string;
  object2 : string;
  distance_km : Q;
  time : datetime;
  time_from_now : timedelta;
  altitude1_km : Q;
  altitude2_km : Q
}.

(** The dictionary returned by [propagate_satellite]. *)
Record Trajectory : Type := mkTrajectory {
  tr_name : string;
  tr_catalog : string;
  tr_positions : list (list Q);
  tr_times : list datetime
}.

Definition EARTH_RADIUS_KM : Q := 6371.

(** ** External libraries *)

Class Externals : Type := {
  (** the parsed element set of the SGP4 library *)
  Satrec : Type;
  (** [Satrec.twoline2rv(line1, line2)], which raises on lines it cannot
      parse *)
  twoline2rv : string -> string -> outcome Satrec;
  (** [satellite.sgp4(jd, fr)] at the [jday] of a [datetime]: error code,
      position and velocity *)
  sgp4_at : Satrec -> datetime -> Z * list Q * list Q;
  (** [numpy.sqrt] *)
  np_sqrt : Q -> Q
}.

(** ** The risk classifier *)

Definition assess_collision_risk (distance_km : float) : string * Z * string :=
  if float_ltb distance_km 1 then
    ("CRITICAL", 95, "Immediate collision risk")%string
  else if float_ltb distance_km 5 then
    ("HIGH", 80, "Very close approach - high risk")%string
  else if float_ltb distance_km 10 then
    ("ELEVATED", 60, "Close approach - monitor closely")%string
  else if float_ltb distance_km 25 then
    ("MODERATE", 40, "Notable approach")%string
  else if float_ltb distance_km 50 then
    ("LOW", 20, "Distant approach")%string
  else
    ("MINIMAL", 5, "Safe distance")%string.

Definition risk_level (r : string * Z * string) : string := fst (fst r).
Definition risk_score (r : string * Z * string) : Z := snd (fst r).
Definition risk_description (r : string * Z * string) : string := snd r.

(** ** Generic list operations of the program *)

(** [range(n)]. *)
Definition range (n : Z) : list Z := map Z.of_nat (seq 0 (Z.to_nat n)).

(** [sum(...)] starts from the integer 0 and adds from the left. *)
Definition py_sum (l : list Q) : Q := fold_left Qplus l 0%Q.

(** [list.sort(key=...)] is a stable ascending sort that compares keys with
    [<] only.  On keys that [<] orders totally the result of a stable sort is
    unique ([stable_sort_unique] below), so the insertion sort stands for
    it. *)
Fixpoint insert_by {A : Type} (key : A -> Q) (x : A) (l : list A) : list A :=
  match l with
  | [] => [x]
  | y :: l' =>
      if Qltb (key y) (key x) then y :: insert_by key x l' else x :: l
  end.

Definition sort_by {A : Type} (key : A -> Q) (l : list A) : list A :=
  fold_right (insert_by key) [] l.

(** Keep the elements on which [f] is defined. *)
Fixpoint filter_map {A B : Type} (f : A -> option B) (l : list A) : list B :=
  match l with
  | [] => []
  | x :: l' =>
      match f x with
      | Some y => y :: filter_map f l'
      | None => filter_map f l'
      end
  end.

Section Program.

Context {ext : Externals}.

(** ** [conjunction_detector.calculate_distance] *)

Definition calculate_distance (pos1 pos2 : list Q) : Q :=
  np_sqrt
    (py_sum (map (fun ab => ((fst ab - snd ab) ^ 2)%Q) (combine pos1 pos2))).

(** ** [orbit_propagator.get_current_position] *)

(** [now] is the value [datetime.utcnow()] would return; it is read only
    when no [at_time] is given. *)
Definition get_current_position (now : datetime) (tle_data : Satellite)
    (at_time : option datetime) : outcome (option PosData) :=
  let at_time := match at_time with Some t => t | None => now end in
  satellite <- twoline2rv (line1 tle_data) (line2 tle_data) ;;
  let '(error, position, velocity) := sgp4_at satellite at_time in
  if error =? 0 then
    let altitude :=
      (np_sqrt (py_sum (map (fun p => p ^ 2) position)) - EARTH_RADIUS_KM)%Q in
    Returns (Some {| pd_position := position;
                     pd_velocity := velocity;
                     pd_altitude_km := altitude;
                     pd_time := at_time |})
  else Returns None.

(** ** [orbit_propagator.propagate_satellite] *)

(** The number of steps, [int((duration_hours * 60) / step_minutes)]: a
    division by zero raises, and [int] truncates towards zero.  The quotient
    is a float in the program; on integers below 2^53 its truncation is the
    truncation of the exact quotient. *)
Definition step_count (duration_hours step_minutes : Z) : outcome Z :=
  if step_minutes =? 0 then Raises ZeroDivisionError
  else Returns (Z.quot (duration_hours * 60) step_minutes).

(** [now] is the value [datetime.utcnow()] would return. *)
Definition propagate_satellite (now : datetime) (tle_data : Satellite)
    (start_time : option datetime) (duration_hours step_minutes : Z)
  : outcome Trajectory :=
  satellite <- twoline2rv (line1 tle_data) (line2 tle_data) ;;
  let start_time := match start_time with Some t => t | None => now end in
  steps <- step_count duration_hours step_minutes ;;
  let samples :=
    filter_map
      (fun i =>
         let current_time := start_time + minutes (i * step_minutes) in
         let '(error, position, velocity) := sgp4_at satellite current_time in
         if error =? 0 then Some (position, current_time) else None)
      (range steps) in
  Returns {| tr_name := name tle_data;
             tr_catalog := get_catalog tle_data;
             tr_positions := map fst samples;
             tr_times := map snd samples |}.

(** ** [conjunction_detector.find_conjunctions] *)

(** The body of the loop over [satellites]: a call that raises, or that
    returns [None], appends nothing.  The call passes [current_time], so the
    clock is not read. *)
Definition position_entry (sat : Satellite) (current_time : datetime)
  : option PosEntry :=
  match get_current_position current_time sat (Some current_time) with
  | Raises _ => None
  | Returns None => None
  | Returns (Some pos_data) =>
      Some {| pe_name := name sat;
              pe_catalog := get_catalog sat;
              pe_position := pd_position pos_data;
              pe_altitude_km := pd_altitude_km pos_data;
              pe_time := current_time |}
  end.

Definition positions_at (satellites : list Satellite) (current_time : datetime)
  : list PosEntry :=
  filter_map (fun sat => position_entry sat current_time) satellites.

(** The body of the two nested loops over [i] and [j]. *)
Definition pair_event (threshold_km : Q) (start_time current_time : datetime)
    (pi pj : PosEntry) : list Event :=
  let dist := calculate_distance (pe_position pi) (pe_position pj) in
  if Qltb dist threshold_km then
    [ {| object1 := pe_name pi;
         object2 := pe_name pj;
         distance_km := py_round dist 2;
         time := current_time;
         time_from_now := current_time - start_time;
         altitude1_km := py_round (pe_altitude_km pi) 1;
         altitude2_km := py_round (pe_altitude_km pj) 1 |} ]
  else [].

(** [for i in range(len(positions)): for j in range(i + 1, len(positions))]. *)
Definition pair_events (threshold_km : Q) (start_time current_time : datetime)
    (positions : list PosEntry) : list Event :=
  let n := List.length positions in
  flat_map
    (fun i =>
       flat_map
         (fun j =>
            match nth_error positions i, nth_error positions j with
            | Some pi, Some pj =>
                pair_event threshold_km start_time current_time pi pj
            | _, _ => []
            end)
         (seq (S i) (n - S i)))
    (seq 0 n).

(** The events of one pass of the loop over [step]. *)
Definition step_events (satellites : list Satellite) (threshold_km : Q)
    (start_time : datetime) (step_minutes step : Z) : list Event :=
  let current_time := start_time + minutes (step * step_minutes) in
  pair_events threshold_km start_time current_time
    (positions_at satellites current_time).

(** [start_time] is the value [datetime.utcnow()] returns on entry. *)
Definition find_conjunctions (start_time : datetime)
    (satellites : list Satellite) (threshold_km : Q)
    (duration_hours step_minutes : Z) : outcome (list Event) :=
  steps <- step_count duration_hours step_minutes ;;
  let conjunctions :=
    flat_map (step_events satellites threshold_km start_time step_minutes)
      (range steps) in
  Returns (sort_by distance_km conjunctions).

End Program.


From Stdlib Require Import Qabs.

Open Scope Z_scope.

(** ** Dictionaries with string keys *)

(** [d.get(k, default)] on a dictionary given by its items. *)
Definition dict_get {V : Type} (d : list (string * V)) (k : string)
    (default : V) : V :=
  match find (fun kv => String.eqb (fst kv) k) d with
  | Some kv => snd kv
  | None => default
  end.

(** ** [conjunction_detector.get_risk_color] *)

Definition get_risk_color (risk_level : string) : string :=
  let colors :=
    [ ("CRITICAL", "#FF0000");
      ("HIGH", "#FF4500");
      ("ELEVATED", "#FFA500");
      ("MODERATE", "#FFD700");
      ("LOW", "#90EE90");
      ("MINIMAL", "#00FF00") ]%string in
  dict_get colors risk_level "#FFFFFF"%string.

Section Callers.

Context {ext : Externals}.

(** ** [orbit_propagator.propagate_multiple] *)

(** The loop over [satellites], from the [i]-th call on.  [now i] is the
    value [datetime.utcnow()] would return during the [i]-th call of
    [propagate_satellite]; the second component lists what the handler
    prints, the name of the object and the exception, in order.
    [except Exception] catches both exceptions of the model. *)
Fixpoint propagate_multiple_from (i : nat) (now : nat -> datetime)
    (satellites : list Satellite) (start_time : option datetime)
    (duration_hours step_minutes : Z)
  : list Trajectory * list (string * exn) :=
  match satellites with
  | [] => ([], [])
  | sat :: rest =>
      let '(results, printed) :=
        propagate_multiple_from (S i) now rest start_time duration_hours
          step_minutes in
      match propagate_satellite (now i) sat start_time duration_hours
              step_minutes with
      | Returns result =>
          match tr_positions result with
          | [] => (results, printed)
          | _ :: _ => (result :: results, printed)
          end
      | Raises e => (results, (name sat, e) :: printed)
      end
  end.

Definition propagate_multiple (now : nat -> datetime)
    (satellites : list Satellite) (start_time : option datetime)
    (duration_hours step_minutes : Z)
  : list Trajectory * list (string * exn) :=
  propagate_multiple_from 0 now satellites start_time duration_hours
    step_minutes.

End Callers.

(** ** [debris_density]

    The tables are dictionaries with string keys whose values are strings or
    numbers; a subscript on a missing key raises [KeyError], and a string
    where the arithmetic needs a number raises [TypeError]. *)

Module DebrisDensity.

#[local] Open Scope Q_scope.
#[local] Open Scope string_scope.

Inductive value : Type :=
| Str (s : string)
| Num (q : Q).

Definition dict : Type := list (string * value).

Inductive error : Type :=
| KeyError (key : string)
| TypeError.

Inductive result (A : Type) : Type :=
| Ok (a : A)
| Err (e : error).

Arguments Ok {A} a.
Arguments Err {A} e.

Definition and_then {A B : Type} (m : result A) (k : A -> result B)
  : result B :=
  match m with
  | Ok a => k a
  | Err e => Err e
  end.

Notation "x <~ m ;; k" := (and_then m (fun x => k))
  (at level 61, m at next level, right associativity).

(** [d[key]]. *)
Definition subscript (d : dict) (key : string) : result value :=
  match find (fun kv => String.eqb (fst kv) key) d with
  | Some kv => Ok (snd kv)
  | None => Err (KeyError key)
  end.

Definition number (v : value) : result Q :=
  match v with
  | Num q => Ok q
  | Str _ => Err TypeError
  end.

Definition DEBRIS_ZONES : list (string * dict) :=
  [ ("LEO_LOW",
     [ ("name", Str "Low LEO (200-600 km)");
       ("alt_min", Num 200);
       ("alt_max", Num 600);
       ("density_factor", Num 0.6);
       ("small_debris_flux", Num 0.00003);
       ("description", Str "Moderate debris density, atmospheric drag clears smaller pieces") ]);
    ("LEO_CRITICAL",
     [ ("name", Str "Critical LEO (700-1000 km)");
       ("alt_min", Num 700);
       ("alt_max", Num 1000);
       ("density_factor", Num 1.0);
       ("small_debris_flux", Num 0.00012);
       ("description", Str "Highest debris concentration - Cosmos/Iridium collision zone") ]);
    ("LEO_HIGH",
     [ ("name", Str "High LEO (1000-2000 km)");
       ("alt_min", Num 1000);
       ("alt_max", Num 2000);
       ("density_factor", Num 0.7);
       ("small_debris_flux", Num 0.00008);
       ("description", Str "Significant debris, includes sun-synchronous orbits") ]);
    ("MEO",
     [ ("name", Str "MEO (2000-35786 km)");
       ("alt_min", Num 2000);
       ("alt_max", Num 35786);
       ("density_factor", Num 0.1);
       ("small_debris_flux", Num 0.000005);
       ("description", Str "Low debris density, GPS constellation zone") ]);
    ("GEO",
     [ ("name", Str "GEO (35786+ km)");
       ("alt_min", Num 35786);
       ("alt_max", Num 50000);
       ("density_factor", Num 0.05);
       ("small_debris_flux", Num 0.000001);
       ("description", Str "Very low debris, but congested with active satellites") ]) ].

Definition KNOWN_DEBRIS_CLUSTERS : list dict :=
  [ [ ("name", Str "Cosmos 2251 / Iridium 33 Collision");
      ("year", Num 2009);
      ("altitude_km", Num 790);
      ("inclination_deg", Num 74);
      ("tracked_fragments", Num 2296);
      ("estimated_small_fragments", Num 100000);
      ("description", Str "First accidental hypervelocity collision between satellites") ];
    [ ("name", Str "Fengyun-1C ASAT Test");
      ("year", Num 2007);
      ("altitude_km", Num 865);
      ("inclination_deg", Num 98.7);
      ("tracked_fragments", Num 3527);
      ("estimated_small_fragments", Num 150000);
      ("description", Str "Chinese anti-satellite weapon test") ];
    [ ("name", Str "Kosmos 1408 ASAT Test");
      ("year", Num 2021);
      ("altitude_km", Num 480);
      ("inclination_deg", Num 82.6);
      ("tracked_fragments", Num 1500);
      ("estimated_small_fragments", Num 50000);
      ("description", Str "Russian anti-satellite weapon test") ];
    [ ("name", Str "Upper Stage Explosions (Various)");
      ("year", Num 2000);
      ("altitude_km", Num 850);
      ("inclination_deg", Num 70);
      ("tracked_fragments", Num 5000);
      ("estimated_small_fragments", Num 200000);
      ("description", Str "Accumulated debris from rocket body breakups") ] ].

(** The loop over [DEBRIS_ZONES.items()], in the order of the table; the
    chained comparison reads ["alt_max"] only when the first half holds. *)
Fixpoint zone_scan (items : list (string * dict)) (altitude_km : Q)
  : result (string * dict) :=
  match items with
  | [] =>
      Ok ("UNKNOWN",
          [ ("name", Str "Unknown");
            ("density_factor", Num 0.1);
            ("small_debris_flux", Num 0.00001) ])
  | (zone_key, zone) :: rest =>
      alt_min <~ and_then (subscript zone "alt_min") number ;;
      if Qle_bool alt_min altitude_km then
        alt_max <~ and_then (subscript zone "alt_max") number ;;
        if Qltb altitude_km alt_max then Ok (zone_key, zone)
        else zone_scan rest altitude_km
      else zone_scan rest altitude_km
  end.

Definition get_altitude_zone (altitude_km : Q) : result (string * dict) :=
  zone_scan DEBRIS_ZONES altitude_km.

(** The loop over the clusters that accumulates [proximity_boost]. *)
Fixpoint boost_loop (clusters : list dict) (altitude_km proximity_boost : Q)
  : result Q :=
  match clusters with
  | [] => Ok proximity_boost
  | cluster :: rest =>
      cluster_alt <~ and_then (subscript cluster "altitude_km") number ;;
      let alt_diff := Qabs (altitude_km - cluster_alt) in
      boost_loop rest altitude_km
        (if Qltb alt_diff 100
         then proximity_boost + (100 - alt_diff) / 100 * 0.5
         else proximity_boost)
  end.

(** [[c["name"] for c in clusters if abs(altitude_km - c["altitude_km"]) <
    150]]: the condition is evaluated before the element. *)
Fixpoint nearby_loop (clusters : list dict) (altitude_km : Q)
  : result (list value) :=
  match clusters with
  | [] => Ok []
  | c :: rest =>
      cluster_alt <~ and_then (subscript c "altitude_km") number ;;
      if Qltb (Qabs (altitude_km - cluster_alt)) 150 then
        n <~ subscript c "name" ;;
        names <~ nearby_loop rest altitude_km ;;
        Ok (n :: names)
      else nearby_loop rest altitude_km
  end.

(** The dictionary returned by [calculate_small_debris_risk]. *)
Record RiskData : Type := mkRiskData {
  rd_altitude_km : Q;
  rd_zone : value;
  rd_zone_key : string;
  rd_zone_description : value;
  rd_collision_probability : Q;
  rd_risk_level : string;
  rd_risk_score : Z;
  rd_density_factor : value;
  rd_nearby_clusters : list value
}.

(** Numbers are exact here.  The program multiplies floats from left to
    right, so that its probability can differ from this one in the last
    digit and depends on the order of the factors; at a tier boundary the
    level can then differ.  What is proved of this function keeps a margin
    from the boundaries or does not depend on the products. *)
Definition calculate_small_debris_risk (altitude_km cross_section_m2
    exposure_years : Q) : result RiskData :=
  zk <~ get_altitude_zone altitude_km ;;
  let '(zone_key, zone) := zk in
  base_flux <~ and_then (subscript zone "small_debris_flux") number ;;
  proximity_boost <~ boost_loop KNOWN_DEBRIS_CLUSTERS altitude_km 1.0 ;;
  let collision_probability :=
    base_flux * cross_section_m2 * exposure_years * proximity_boost in
  let '(risk_level, risk_score) :=
    if Qltb 0.01 collision_probability then ("CRITICAL", 90%Z)
    else if Qltb 0.001 collision_probability then ("HIGH", 70%Z)
    else if Qltb 0.0001 collision_probability then ("ELEVATED", 50%Z)
    else if Qltb 0.00001 collision_probability then ("MODERATE", 30%Z)
    else ("LOW", 10%Z) in
  zone_name <~ subscript zone "name" ;;
  let zone_description :=
    match subscript zone "description" with
    | Ok v => v
    | Err _ => Str ""
    end in
  density_factor <~ subscript zone "density_factor" ;;
  nearby <~ nearby_loop KNOWN_DEBRIS_CLUSTERS altitude_km ;;
  Ok {| rd_altitude_km := altitude_km;
        rd_zone := zone_name;
        rd_zone_key := zone_key;
        rd_zone_description := zone_description;
        rd_collision_probability := collision_probability;
        rd_risk_level := risk_level;
        rd_risk_score := risk_score;
        rd_density_factor := density_factor;
        rd_nearby_clusters := nearby |}.

(** [debris_density.get_risk_color]. *)
Definition get_risk_color (risk_level : string) : string :=
  let colors :=
    [ ("CRITICAL", "#FF0000");
      ("HIGH", "#FF4500");
      ("ELEVATED", "#FFA500");
      ("MODERATE", "#FFD700");
      ("LOW", "#00FF00") ] in
  dict_get colors risk_level "#FFFFFF".

End DebrisDensity.

(** ** [tle_fetcher]

    The module keeps three globals, [_using_fallback], [_last_error] and
    [_data_source]: they are the fields of [State], passed in and out.  What
    the functions print is returned as a list of messages. *)

From Stdlib Require Import DecimalString.

Open Scope Z_scope.

Module TleFetcher.

#[local] Open Scope string_scope.

Definition CATALOG_MAPPINGS : list (string * (string * Z)) :=
  [ ("stations", ("ISS", 10));
    ("starlink", ("STARLINK", 30));
    ("debris", ("DEB", 20)) ].

Definition FALLBACK_TLE_DATA : list (string * list Satellite) :=
  [ ("stations",
     [ {| name := "ISS (ZARYA)";
          line1 :=
            "1 25544U 98067A   24001.50000000  .00016717  00000-0  10270-3 0  9993";
          line2 :=
            "2 25544  51.6400 208.9163 0006703 296.7361  63.3006 15.49560922431058";
          catalog := Some "stations" |};
       {| name := "TIANGONG";
          line1 :=
            "1 48274U 21035A   24001.50000000  .00017234  00000-0  20343-3 0  9992";
          line2 :=
            "2 48274  41.4700 290.5642 0006428 322.0843  37.9697 15.62039567147556";
          catalog := Some "stations" |} ]);
    ("starlink",
     [ {| name := "STARLINK-1007";
          line1 :=
            "1 44713U 19074A   24001.50000000  .00001234  00000-0  12345-4 0  9991";
          line2 :=
            "2 44713  53.0540 120.6789 0001234  90.1234 270.0000 15.06391234  5678";
          catalog := Some "starlink" |};
       {| name := "STARLINK-1008";
          line1 :=
            "1 44714U 19074B   24001.50000000  .00001234  00000-0  12345-4 0  9990";
          line2 :=
            "2 44714  53.0540 125.6789 0001234  95.1234 265.0000 15.06391234  5679";
          catalog := Some "starlink" |};
       {| name := "STARLINK-1009";
          line1 :=
            "1 44715U 19074C   24001.50000000  .00001234  00000-0  12345-4 0  9999";
          line2 :=
            "2 44715  53.0540 130.6789 0001234 100.1234 260.0000 15.06391234  5670";
          catalog := Some "starlink" |};
       {| name := "STARLINK-1010";
          line1 :=
            "1 44716U 19074D   24001.50000000  .00001234  00000-0  12345-4 0  9998";
          line2 :=
            "2 44716  53.0540 135.6789 0001234 105.1234 255.0000 15.06391234  5671";
          catalog := Some "starlink" |};
       {| name := "STARLINK-1011";
          line1 :=
            "1 44717U 19074E   24001.50000000  .00001234  00000-0  12345-4 0  9997";
          line2 :=
            "2 44717  53.0540 140.6789 0001234 110.1234 250.0000 15.06391234  5672";
          catalog := Some "starlink" |};
       {| name := "STARLINK-1012";
          line1 :=
            "1 44718U 19074F   24001.50000000  .00001234  00000-0  12345-4 0  9996";
          line2 :=
            "2 44718  53.0540 145.6789 0001234 115.1234 245.0000 15.06391234  5673";
          catalog := Some "starlink" |};
       {| name := "STARLINK-1013";
          line1 :=
            "1 44719U 19074G   24001.50000000  .00001234  00000-0  12345-4 0  9995";
          line2 :=
            "2 44719  53.0540 150.6789 0001234 120.1234 240.0000 15.06391234  5674";
          catalog := Some "starlink" |};
       {| name := "STARLINK-1014";
          line1 :=
            "1 44720U 19074H   24001.50000000  .00001234  00000-0  12345-4 0  9994";
          line2 :=
            "2 44720  53.0540 155.6789 0001234 125.1234 235.0000 15.06391234  5675";
          catalog := Some "starlink" |} ]);
    ("debris",
     [ {| name := "COSMOS 2251 DEB";
          line1 :=
            "1 33442U 93036SX  24001.50000000  .00000234  00000-0  23456-4 0  9991";
          line2 :=
            "2 33442  74.0366 200.1234 0012345 234.5678 125.4321 14.12345678  1234";
          catalog := Some "debris" |};
       {| name := "COSMOS 2251 DEB [2]";
          line1 :=
            "1 33443U 93036SY  24001.50000000  .00000234  00000-0  23456-4 0  9990";
          line2 :=
            "2 33443  74.0366 205.1234 0012345 239.5678 120.4321 14.12345678  1235";
          catalog := Some "debris" |};
       {| name := "IRIDIUM 33 DEB";
          line1 :=
            "1 33444U 97051SX  24001.50000000  .00000234  00000-0  23456-4 0  9999";
          line2 :=
            "2 33444  86.4000 180.1234 0012345 244.5678 115.4321 14.34567890  1236";
          catalog := Some "debris" |};
       {| name := "IRIDIUM 33 DEB [2]";
          line1 :=
            "1 33445U 97051SY  24001.50000000  .00000234  00000-0  23456-4 0  9998";
          line2 :=
            "2 33445  86.4000 185.1234 0012345 249.5678 110.4321 14.34567890  1237";
          catalog := Some "debris" |};
       {| name := "FENGYUN 1C DEB";
          line1 :=
            "1 29479U 99025DKB 24001.50000000  .00000234  00000-0  23456-4 0  9997";
          line2 :=
            "2 29479  98.7000 250.1234 0012345 254.5678 105.4321 14.56789012  1238";
          catalog := Some "debris" |};
       {| name := "FENGYUN 1C DEB [2]";
          line1 :=
            "1 29480U 99025DKC 24001.50000000  .00000234  00000-0  23456-4 0  9996";
          line2 :=
            "2 29480  98.7000 255.1234 0012345 259.5678 100.4321 14.56789012  1239";
          catalog := Some "debris" |} ]) ].

Record State : Type := mkState {
  using_fallback : bool;
  last_error : option string;
  data_source : option string
}.

(** The module as imported: [False], [None], [None]. *)
Definition initial_state : State :=
  {| using_fallback := false; last_error := None; data_source := None |}.

(** One object of the ["member"] array of the answer. *)
Definition Item : Type := list (string * string).

(** The decoded answer of the service, as far as the program reads it: the
    value of ["member"], when the key is there. *)
Record ApiData : Type := mkApiData {
  member : option (list Item)
}.

(** [requests.get(url, timeout=15)], [raise_for_status()] and
    [response.json()] in one: the text of the exception when one of them
    raises, the decoded answer otherwise.  An answer of another shape, whose
    ["member"] is no array of objects with string fields, makes the loop of
    [fetch_from_tle_api] raise; it counts as an exception here, which is
    what the caller sees of it. *)
Class Network : Type := {
  requests_get_json : string -> string + ApiData
}.

Inductive message : Type :=
| Fetched (count : nat) (catalog_name : string)
| Unavailable (catalog_name : string) (reason : string).

(** [str(n)] for an integer. *)
Definition str_of_int (n : Z) : string :=
  NilZero.string_of_int (Z.to_int n).

(** [l[:limit]]: a negative limit counts from the end. *)
Definition slice_to {A : Type} (l : list A) (limit : Z) : list A :=
  if (limit <? 0)%Z
  then firstn (Z.to_nat (Z.of_nat (List.length l) + limit)%Z) l
  else firstn (Z.to_nat limit) l.

Definition get_fallback_data (catalog_name : string) (limit : Z)
  : list Satellite :=
  let catalog_map :=
    [ ("stations", "stations");
      ("starlink", "starlink");
      ("cosmos-2251-debris", "debris");
      ("iridium-33-debris", "debris");
      ("fengyun-1c-debris", "debris");
      ("debris", "debris") ] in
  let fallback_key := dict_get catalog_map catalog_name "stations" in
  let fallback_sats := dict_get FALLBACK_TLE_DATA fallback_key [] in
  map
    (fun sat =>
       {| name := name sat;
          line1 := line1 sat;
          line2 := line2 sat;
          catalog := Some catalog_name |})
    (slice_to fallback_sats limit).

Section Fetch.

Context {net : Network}.

(** The exception of the request, if any, passes through. *)
Definition fetch_from_tle_api (catalog_name : string) (limit : Z)
  : string + list Satellite :=
  let mapping := dict_get CATALOG_MAPPINGS catalog_name (catalog_name, limit) in
  let search_term := fst mapping in
  let url :=
    "https://tle.ivanstanojevic.me/api/tle?search=" ++ search_term
    ++ "&page_size=" ++ str_of_int limit in
  match requests_get_json url with
  | inl e => inl e
  | inr data =>
      inr (map
             (fun item =>
                {| name := dict_get item "name" "UNKNOWN";
                   line1 := dict_get item "line1" "";
                   line2 := dict_get item "line2" "";
                   catalog := Some catalog_name |})
             (match member data with Some items => items | None => [] end))
  end.

Definition fall_back (st : State) (printed : list message)
    (catalog_name : string) (limit : Z)
  : list Satellite * State * list message :=
  (get_fallback_data catalog_name limit,
   {| using_fallback := true;
      last_error := last_error st;
      data_source := Some "Cached demo data" |},
   printed).

Definition fetch_tle_data (st : State) (catalog_name : string) (limit : Z)
  : list Satellite * State * list message :=
  match fetch_from_tle_api catalog_name limit with
  | inr (sat :: rest) =>
      (sat :: rest,
       {| using_fallback := false;
          last_error := None;
          data_source := Some "TLE API (live data)" |},
       [Fetched (List.length (sat :: rest)) catalog_name])
  | inr [] => fall_back st [] catalog_name limit
  | inl e =>
      fall_back
        {| using_fallback := using_fallback st;
           last_error := Some e;
           data_source := data_source st |}
        [Unavailable catalog_name e] catalog_name limit
  end.

Definition is_using_fallback (st : State) : bool := using_fallback st.

Definition get_last_error (st : State) : option string := last_error st.

Definition get_data_source (st : State) : string :=
  match data_source st with
  | Some "" | None => "Unknown"
  | Some s => s
  end.

(** The loop of [fetch_multiple_catalogs] over the catalogues. *)
Fixpoint fetch_each (st : State) (catalogs : list string)
    (limit_per_catalog : Z) : list Satellite * State * list message :=
  match catalogs with
  | [] => ([], st, [])
  | cat :: rest =>
      let '(sats, st1, printed1) := fetch_tle_data st cat limit_per_catalog in
      let '(all_satellites, st2, printed2) :=
        fetch_each st1 rest limit_per_catalog in
      (sats ++ all_satellites, st2, printed1 ++ printed2)
  end%list.

Definition fetch_multiple_catalogs (st : State)
    (catalogs : option (list string)) (limit_per_catalog : Z)
  : list Satellite * State * list message :=
  let catalogs :=
    match catalogs with
    | Some l => l
    | None => ["stations"; "starlink"; "debris"]
    end in
  fetch_each st catalogs limit_per_catalog.

End Fetch.

End TleFetcher.
(** ** Vocabulary of the properties *)

(** Ascending order of keys. *)
Definition key_le {A : Type} (key : A -> Q) (a b : A) : Prop :=
  (key a <= key b)%Q.

(** The elements whose key is [k]: one class of ties. *)
Definition has_key {A : Type} (key : A -> Q) (k : Q) (x : A) : bool :=
  Qeq_bool (key x) k.

(** [a] occurs somewhere before [b] in [l]. *)
Definition before {A : Type} (a b : A) (l : list A) : Prop :=
  exists l1 l2 l3, l = l1 ++ a :: l2 ++ b :: l3.

(** Every element paired with every later element. *)
Fixpoint pairs_of {A : Type} (l : list A) : list (A * A) :=
  match l with
  | [] => []
  | x :: r => map (pair x) r ++ pairs_of r
  end.

(** The index pairs [(i, j)], [i < j < n], in the order in which the two
    nested loops visit them. *)
Definition index_pairs (n : nat) : list (nat * nat) :=
  flat_map (fun i => map (pair i) (seq (S i) (n - S i))) (seq 0 n).

(** The two nested loops over a list, with an arbitrary body. *)
Definition pair_loop {A B : Type} (body : A -> A -> list B) (l : list A)
  : list B :=
  flat_map
    (fun i =>
       flat_map
         (fun j =>
            match nth_error l i, nth_error l j with
            | Some a, Some b => body a b
            | _, _ => []
            end)
         (seq (S i) (List.length l - S i)))
    (seq 0 (List.length l)).

(** The instants [start_time + timedelta(minutes=i * step_minutes)] that a
    loop over [range(steps)] visits. *)
Definition time_grid (start_time : datetime) (steps step_minutes : Z)
  : list datetime :=
  map (fun i => start_time + minutes (i * step_minutes)) (range steps).

(** The ceiling of [a / b] for positive [b]. *)
Definition ceil_div (a b : Z) : Z := - ((- a) / b).

(** Lexicographic order on the participant names of two events, for an
    order [le] on names. *)
Definition names_leb (le : string -> string -> bool) (e1 e2 : Event) : bool :=
  if le (object1 e1) (object1 e2) then
    if le (object1 e2) (object1 e1) then le (object2 e1) (object2 e2)
    else true
  else false.

(** Ascending distance, ties by ascending time, then by the names. *)
Definition tie_break_leb (le : string -> string -> bool) (e1 e2 : Event)
  : bool :=
  if Qltb (distance_km e1) (distance_km e2) then true
  else if Qltb (distance_km e2) (distance_km e1) then false
  else if time e1 <? time e2 then true
  else if time e2 <? time e1 then false
  else names_leb le e1 e2.

(** [l] is in ascending order for [leb]. *)
Fixpoint sorted_by {A : Type} (leb : A -> A -> bool) (l : list A) : bool :=
  match l with
  | [] => true
  | x :: r => forallb (leb x) r && sorted_by leb r
  end.

Section Vocabulary.

Context {ext : Externals}.

(** What one pair of objects contributes at one instant. *)
Definition candidate (threshold_km : Q) (start_time current_time : datetime)
    (a b : Satellite) : list Event :=
  match position_entry a current_time, position_entry b current_time with
  | Some pa, Some pb => pair_event threshold_km start_time current_time pa pb
  | _, _ => []
  end.

(** The events in the order in which the loops append them, before the
    sort. *)
Definition emitted (start_time : datetime) (satellites : list Satellite)
    (threshold_km : Q) (steps step_minutes : Z) : list Event :=
  flat_map (step_events satellites threshold_km start_time step_minutes)
    (range steps).

(** An object that never yields a sample: its lines do not parse, or the
    propagator reports an error code at every instant. *)
Definition malformed (sat : Satellite) : Prop :=
  match twoline2rv (line1 sat) (line2 sat) with
  | Raises _ => True
  | Returns satellite =>
      forall t, fst (fst (sgp4_at satellite t)) <> 0
  end.

(** The error code of the propagator for one object at one instant. *)
Definition sgp4_ok (satellite : Satrec) (t : datetime) : bool :=
  fst (fst (sgp4_at satellite t)) =? 0.

End Vocabulary.


(** ** Vocabulary of the further properties *)

(** An event with the roles of its two objects exchanged. *)
Definition swapped (e : Event) : Event :=
  {| object1 := object2 e;
     object2 := object1 e;
     distance_km := distance_km e;
     time := time e;
     time_from_now := time_from_now e;
     altitude1_km := altitude2_km e;
     altitude2_km := altitude1_km e |}.

Module DebrisTerms.

Import DebrisDensity.

#[local] Open Scope Q_scope.

(** The dictionary returned for an altitude outside every band. *)
Definition unknown_zone : string * dict :=
  ("UNKNOWN"%string,
   [ ("name", Str "Unknown");
     ("density_factor", Num 0.1);
     ("small_debris_flux", Num 0.00001) ]%string).

(** A cluster with a numeric altitude and a name. *)
Definition has_altitude (c : dict) : Prop :=
  exists a n,
    subscript c "altitude_km" = Ok (Num a) /\ subscript c "name" = Ok (Str n).

(** The tier of a collision probability. *)
Definition tier (p : Q) : string * Z :=
  if Qltb 0.01 p then ("CRITICAL"%string, 90%Z)
  else if Qltb 0.001 p then ("HIGH"%string, 70%Z)
  else if Qltb 0.0001 p then ("ELEVATED"%string, 50%Z)
  else if Qltb 0.00001 p then ("MODERATE"%string, 30%Z)
  else ("LOW"%string, 10%Z).

End DebrisTerms.
(** ** A small catalogue to run the program on

    Straight-line motion stands in for the SGP4 model: the element set is
    looked up by its first line, and a position advances by a fixed
    displacement every quarter of an hour. *)

Module Toy.

#[local] Open Scope Q_scope.

Inductive orbit : Type :=
| Moving (p v : list Q)
| Failing (code : Z).

Definition quarter_hour : Z := 900000000%Z.

Definition advance (k : Z) (p v : list Q) : list Q :=
  map (fun pv => Qred (fst pv + inject_Z k * snd pv)) (combine p v).

Definition lookup (l1 : string) : option orbit :=
  if String.eqb l1 "1 A" then Some (Moving [7000; 0; 0] [0; 0; 0])
  else if String.eqb l1 "1 B" then
    Some (Moving [70123 # 10; 0; 0] [- (415 # 100); 0; 0])
  else if String.eqb l1 "1 C" then Some (Moving [7000; 4; 0] [0; 1000; 0])
  else if String.eqb l1 "1 D" then
    Some (Moving [7049997 # 1000; 0; 0] [0; 0; 0])
  else if String.eqb l1 "1 E" then Some (Failing 1)
  else None.

Definition parse (l1 l2 : string) : outcome orbit :=
  match lookup l1 with
  | Some o => Returns o
  | None => Raises ValueError
  end.

Definition run (o : orbit) (t : datetime) : Z * list Q * list Q :=
  match o with
  | Moving p v => (0%Z, advance (t / quarter_hour)%Z p v, v)
  | Failing code => (code, [0; 0; 0], [0; 0; 0])
  end.

(** The square root to six decimals, exact on squares of such numbers. *)
Definition sqrt6 (x : Q) : Q :=
  Qred (Z.sqrt (Qnum x * Zpos (Qden x) * 10 ^ 12)%Z
        # (Qden x * 10 ^ 6)%positive).

#[local] Instance externals : Externals := {|
  Satrec := orbit;
  twoline2rv := parse;
  sgp4_at := run;
  np_sqrt := sqrt6
|}.

Definition sat (n l : string) : Satellite :=
  {| name := n; line1 := l; line2 := "2"; catalog := Some "debris"%string |}.

End Toy.


(** ** Runs on the catalogue *)

Definition run_a : outcome (list Event) :=
  find_conjunctions (ext := Toy.externals) 0
    [Toy.sat "A" "1 A"; Toy.sat "B" "1 B"; Toy.sat "C" "1 C"] (125 # 10) 1 30.

Definition event_ac : Event :=
  {| object1 := "A"; object2 := "C"; distance_km := 4%Q; time := 0;
     time_from_now := 0; altitude1_km := 629%Q; altitude2_km := 629%Q |}.

Definition event_ab_late : Event :=
  {| object1 := "A"; object2 := "B"; distance_km := 4%Q;
     time := 1800000000; time_from_now := 1800000000;
     altitude1_km := 629%Q; altitude2_km := 633%Q |}.

Definition event_ab_early : Event :=
  {| object1 := "A"; object2 := "B"; distance_km := (123 # 10)%Q; time := 0;
     time_from_now := 0; altitude1_km := 629%Q;
     altitude2_km := (6413 # 10)%Q |}.

Definition trajectory_a : Trajectory :=
  {| tr_name := "A"; tr_catalog := "debris";
     tr_positions := [[7000; 0; 0]; [7000; 0; 0]]%Q;
     tr_times := [5; 1800000005] |}.

Module TleToy.

Import TleFetcher.

(** A service that answers the request for five pieces of debris and
    refuses every other request. *)
#[local] Instance debris_only : Network := {|
  requests_get_json url :=
    if String.eqb url
         "https://tle.ivanstanojevic.me/api/tle?search=DEB&page_size=5"
    then inr {| member :=
                  Some [ [ ("name", "COSMOS 2251 DEB");
                           ("line1", "1 A") ]%string ] |}
    else inl "Connection refused"%string
|}.

End TleToy.
(** * Properties *)

(** ** Comparisons and rounding *)

Lemma Qltb_true (x y : Q) : Qltb x y = true <-> (x < y)%Q.
Proof.
  unfold Qltb. rewrite negb_true_iff, <- not_true_iff_false, Qle_bool_iff.
  split; [apply Qnot_le_lt | apply Qlt_not_le].
Qed.

Lemma Qltb_false (x y : Q) : Qltb x y = false <-> (y <= x)%Q.
Proof.
  unfold Qltb. rewrite negb_false_iff. apply Qle_bool_iff.
Qed.

Lemma Qltb_irrefl (x y : Q) : (x == y)%Q -> Qltb x y = false.
Proof. intros H. apply Qltb_false. rewrite H. apply Qle_refl. Qed.

#[local] Instance Qltb_proper : Proper (Qeq ==> Qeq ==> eq) Qltb.
Proof. intros x x' Hx y y' Hy. unfold Qltb. now rewrite Hx, Hy. Qed.

#[local] Instance rint_proper : Proper (Qeq ==> eq) rint.
Proof.
  intros x y H. unfold rint.
  assert (Hf : Qfloor x = Qfloor y) by now rewrite H.
  rewrite Hf.
  assert (Hc : (x - inject_Z (Qfloor y) ?= 1 # 2)%Q
               = (y - inject_Z (Qfloor y) ?= 1 # 2)%Q) by now rewrite H.
  now rewrite Hc.
Qed.

Lemma py_round_proper (x y : Q) (n : nat) :
  (x == y)%Q -> py_round x n = py_round y n.
Proof.
  intros H. unfold py_round.
  assert (Hr : rint (x * inject_Z (Z.pos (pow10 n)))
               = rint (y * inject_Z (Z.pos (pow10 n)))) by now rewrite H.
  now rewrite Hr.
Qed.

Lemma py_round_zero (x : Q) (n : nat) : (x == 0)%Q -> py_round x n = 0%Q.
Proof.
  intros H. rewrite (py_round_proper x 0 n H).
  unfold py_round. replace (rint (0 * inject_Z (Z.pos (pow10 n)))) with 0.
  - transitivity (Qred 0); [apply Qred_complete | ]; reflexivity.
  - assert (E : (0 * inject_Z (Z.pos (pow10 n)) == 0)%Q) by ring.
    now rewrite E.
Qed.

(** Rounding to the nearest integer moves a number by at most one half. *)
Lemma rint_near (x : Q) :
  (inject_Z (rint x) - (1 # 2) <= x /\ x <= inject_Z (rint x) + (1 # 2))%Q.
Proof.
  unfold rint.
  pose proof (Qfloor_le x) as Hlo. pose proof (Qlt_floor x) as Hhi.
  rewrite inject_Z_plus in Hhi. change (inject_Z 1) with 1%Q in Hhi.
  destruct (x - inject_Z (Qfloor x) ?= 1 # 2)%Q eqn:E.
  - apply Qeq_alt in E.
    destruct (Z.even (Qfloor x)); rewrite ?inject_Z_plus;
      change (inject_Z 1) with 1%Q; split; lra.
  - apply Qlt_alt in E. split; lra.
  - apply Qgt_alt in E. rewrite inject_Z_plus. change (inject_Z 1) with 1%Q.
    split; lra.
Qed.

Lemma pow10_pos_Q (n : nat) : (0 < inject_Z (Z.pos (pow10 n)))%Q.
Proof. reflexivity. Qed.



Lemma rint_mono (x y : Q) : (x <= y)%Q -> rint x <= rint y.
Proof.
  intros Hxy. destruct (Z_le_gt_dec (rint x) (rint y)) as [H|H]; [exact H|].
  pose proof (rint_near x) as [Hx _]. pose proof (rint_near y) as [_ Hy].
  assert (Hz : (inject_Z (rint y) + 1 <= inject_Z (rint x))%Q).
  { change 1%Q with (inject_Z 1). rewrite <- inject_Z_plus.
    rewrite <- Zle_Qle. lia. }
  assert (E : (x == y)%Q) by (apply Qle_antisym; lra).
  rewrite E in H. lia.
Qed.

Lemma rint_inject_Z (k : Z) : rint (inject_Z k) = k.
Proof.
  unfold rint. rewrite Qfloor_Z.
  assert (E : (inject_Z k - inject_Z k ?= 1 # 2)%Q = (0 ?= 1 # 2)%Q).
  { apply Qcompare_comp; [ring | reflexivity]. }
  rewrite E. reflexivity.
Qed.

Lemma py_round_mono (x y : Q) (n : nat) :
  (x <= y)%Q -> (py_round x n <= py_round y n)%Q.
Proof.
  intros H. unfold py_round. rewrite !Qred_correct.
  unfold Qle. cbn [Qnum Qden].
  apply Z.mul_le_mono_nonneg_r; [lia|].
  apply rint_mono. apply Qmult_le_compat_r; [exact H|]. easy.
Qed.

(** A number of hundredths rounds to itself. *)
Lemma py_round_2_hundredths (x : Q) (k : Z) :
  (x == k # 100)%Q -> (py_round x 2 == x)%Q.
Proof.
  intros H. rewrite (py_round_proper _ _ 2 H), H.
  unfold py_round. rewrite Qred_correct.
  assert (E : ((k # 100) * inject_Z (Z.pos (pow10 2)) == inject_Z k)%Q).
  { unfold Qeq. cbn. lia. }
  rewrite E, rint_inject_Z. reflexivity.
Qed.

(** The square root of the catalogue is a square root as far as the claims
    need one: it is never negative and it vanishes at 0. *)
Lemma sqrt6_nonneg (x : Q) : (0 <= Toy.sqrt6 x)%Q.
Proof.
  unfold Toy.sqrt6. rewrite Qred_correct. unfold Qle. cbn [Qnum Qden].
  pose proof (Z.sqrt_nonneg (Qnum x * Z.pos (Qden x) * 10 ^ 12)). lia.
Qed.

Lemma sqrt6_zero (x : Q) : (x == 0)%Q -> (Toy.sqrt6 x == 0)%Q.
Proof.
  intros H. unfold Toy.sqrt6. rewrite Qred_correct.
  assert (Hn : Qnum x = 0).
  { unfold Qeq in H. cbn [Qnum Qden] in H. lia. }
  rewrite Hn. reflexivity.
Qed.
(** ** The stable sort *)

Section Sorting.

Context {A : Type} (key : A -> Q).

#[local] Instance key_le_trans : Transitive (key_le key).
Proof. intros a b c. unfold key_le. apply Qle_trans. Qed.

Lemma has_key_true (k : Q) (x : A) : has_key key k x = true <-> (key x == k)%Q.
Proof. apply Qeq_bool_iff. Qed.

Lemma has_key_self (x : A) : has_key key (key x) x = true.
Proof. apply has_key_true. reflexivity. Qed.

Lemma insert_by_perm (x : A) (l : list A) :
  Permutation (insert_by key x l) (x :: l).
Proof.
  induction l as [|y l IH]; simpl; [reflexivity|].
  destruct (Qltb (key y) (key x)); [|reflexivity].
  rewrite IH. apply perm_swap.
Qed.

Lemma sort_by_perm (l : list A) : Permutation (sort_by key l) l.
Proof.
  induction l as [|x l IH]; simpl; [constructor|].
  rewrite insert_by_perm. now constructor.
Qed.

Lemma insert_by_sorted (x : A) (l : list A) :
  StronglySorted (key_le key) l ->
  StronglySorted (key_le key) (insert_by key x l).
Proof.
  induction 1 as [|y l Hl IH Hy]; simpl.
  - repeat constructor.
  - destruct (Qltb (key y) (key x)) eqn:E.
    + constructor; [exact IH|].
      apply Qltb_true in E.
      eapply Permutation_Forall; [symmetry; apply insert_by_perm|].
      constructor; [apply Qlt_le_weak, E | exact Hy].
    + apply Qltb_false in E.
      constructor; [now constructor|].
      constructor; [exact E|].
      eapply Forall_impl; [|exact Hy].
      intros z Hz. unfold key_le in *. eapply Qle_trans; eassumption.
Qed.

Lemma sort_by_sorted (l : list A) : StronglySorted (key_le key) (sort_by key l).
Proof.
  induction l as [|x l IH]; simpl; [constructor|].
  now apply insert_by_sorted.
Qed.

(** Inserting an element does not reorder any class of ties. *)
Lemma filter_insert_by (k : Q) (x : A) (l : list A) :
  filter (has_key key k) (insert_by key x l) = filter (has_key key k) (x :: l).
Proof.
  induction l as [|y l IH]; [reflexivity|].
  cbn [insert_by]. destruct (Qltb (key y) (key x)) eqn:E; [|reflexivity].
  cbn [filter] in *. rewrite IH.
  destruct (has_key key k y) eqn:Ey, (has_key key k x) eqn:Ex; try reflexivity.
  apply has_key_true in Ey, Ex. apply Qltb_true in E.
  rewrite Ey, Ex in E. now apply Qlt_irrefl in E.
Qed.

(** Stability: every class of ties keeps the order it had in the input. *)
Lemma sort_by_stable (k : Q) (l : list A) :
  filter (has_key key k) (sort_by key l) = filter (has_key key k) l.
Proof.
  induction l as [|x l IH]; [reflexivity|].
  cbn [sort_by fold_right]. rewrite filter_insert_by.
  cbn [filter]. fold (sort_by key l). now rewrite IH.
Qed.

Lemma filter_above_nil (k : Q) (l : list A) :
  Forall (fun y => (k < key y)%Q) l -> filter (has_key key k) l = [].
Proof.
  induction 1 as [|y l Hy _ IH]; [reflexivity|].
  cbn [filter]. rewrite IH.
  destruct (has_key key k y) eqn:E; [|reflexivity].
  apply has_key_true in E. rewrite E in Hy. now apply Qlt_irrefl in Hy.
Qed.

Lemma sorted_head_above (a b : A) (l : list A) :
  StronglySorted (key_le key) (b :: l) -> (key a < key b)%Q ->
  filter (has_key key (key a)) (b :: l) = [].
Proof.
  intros Hs Hlt. apply filter_above_nil.
  apply StronglySorted_inv in Hs as [_ Hb].
  constructor; [exact Hlt|].
  eapply Forall_impl; [|exact Hb].
  intros z Hz. eapply Qlt_le_trans; eassumption.
Qed.

(** Two sorted lists with the same classes of ties are the same list. *)
Lemma sorted_classes_eq (l1 l2 : list A) :
  StronglySorted (key_le key) l1 -> StronglySorted (key_le key) l2 ->
  (forall k, filter (has_key key k) l1 = filter (has_key key k) l2) ->
  l1 = l2.
Proof.
  revert l2. induction l1 as [|a l1 IH]; intros [|b l2] H1 H2 H.
  - reflexivity.
  - specialize (H (key b)). cbn [filter] in H.
    rewrite has_key_self in H. discriminate.
  - specialize (H (key a)). cbn [filter] in H.
    rewrite has_key_self in H. discriminate.
  - assert (Hab : (key a == key b)%Q).
    { destruct (Q_dec (key a) (key b)) as [[Hlt|Hgt]|Heq]; [| |exact Heq];
        exfalso.
      - specialize (H (key a)).
        rewrite (sorted_head_above a b l2 H2 Hlt) in H.
        cbn [filter] in H. rewrite has_key_self in H. discriminate.
      - specialize (H (key b)).
        rewrite (sorted_head_above b a l1 H1 Hgt) in H.
        cbn [filter] in H. rewrite has_key_self in H. discriminate. }
    assert (Eab : a = b).
    { specialize (H (key a)). cbn [filter] in H.
      rewrite has_key_self in H.
      replace (has_key key (key a) b) with true in H
        by (symmetry; apply has_key_true; now symmetry).
      now injection H. }
    subst b. f_equal.
    apply StronglySorted_inv in H1 as [H1 _], H2 as [H2 _].
    apply IH; trivial.
    intros k. specialize (H k). cbn [filter] in H.
    destruct (has_key key k a); [now injection H | exact H].
Qed.

(** The result of [sort_by] is the only sorted list that keeps every class
    of ties in its input order: whatever stable algorithm the runtime uses,
    it computes this list. *)
Lemma stable_sort_unique (l l' : list A) :
  StronglySorted (key_le key) l' ->
  (forall k, filter (has_key key k) l' = filter (has_key key k) l) ->
  l' = sort_by key l.
Proof.
  intros Hs Hk. apply sorted_classes_eq; trivial.
  - apply sort_by_sorted.
  - intros k. now rewrite sort_by_stable.
Qed.

Lemma filter_cons_inv (p : A -> bool) (l : list A) (x : A) (r : list A) :
  filter p l = x :: r ->
  exists l1 l2, l = l1 ++ x :: l2 /\ filter p l2 = r.
Proof.
  induction l as [|y l IH]; [discriminate|].
  cbn [filter]. destruct (p y) eqn:E.
  - intros [= -> <-]. now exists [], l.
  - intros H. destruct (IH H) as (l1 & l2 & -> & H2).
    now exists (y :: l1), l2.
Qed.

Lemma filter_app_inv (p : A -> bool) (l r1 r2 : list A) :
  filter p l = r1 ++ r2 ->
  exists l1 l2, l = l1 ++ l2 /\ filter p l2 = r2.
Proof.
  revert l. induction r1 as [|x r1 IH]; intros l H.
  - now exists [], l.
  - apply filter_cons_inv in H as (l1 & l2 & -> & H2).
    destruct (IH _ H2) as (m1 & m2 & -> & Hm2).
    exists (l1 ++ x :: m1), m2. now rewrite <- app_assoc.
Qed.

Lemma before_filter_inv (p : A -> bool) (a b : A) (l : list A) :
  before a b (filter p l) -> before a b l.
Proof.
  intros (r1 & r2 & r3 & H).
  apply filter_app_inv in H as (l1 & l2 & -> & H).
  apply filter_cons_inv in H as (m1 & m2 & -> & H).
  apply filter_app_inv in H as (n1 & n2 & -> & H).
  apply filter_cons_inv in H as (o1 & o2 & -> & _).
  exists (l1 ++ m1), (n1 ++ o1), o2. now rewrite <- !app_assoc.
Qed.

Lemma before_filter (p : A -> bool) (a b : A) (l : list A) :
  before a b l -> p a = true -> p b = true -> before a b (filter p l).
Proof.
  intros (l1 & l2 & l3 & ->) Ha Hb.
  exists (filter p l1), (filter p l2), (filter p l3).
  rewrite filter_app. cbn [filter]. rewrite Ha, filter_app.
  cbn [filter]. now rewrite Hb.
Qed.


Lemma sort_by_ties_inv (a b : A) (l : list A) :
  (key a == key b)%Q -> before a b (sort_by key l) -> before a b l.
Proof.
  intros Hab H.
  apply (before_filter_inv (has_key key (key a))).
  rewrite <- sort_by_stable. apply before_filter; trivial.
  - apply has_key_self.
  - apply has_key_true. now symmetry.
Qed.

End Sorting.

(** ** Ranges, loops over pairs *)

Lemma range_length (n : Z) : List.length (range n) = Z.to_nat n.
Proof. unfold range. now rewrite length_map, length_seq. Qed.

Lemma in_range (n x : Z) : In x (range n) <-> 0 <= x < n.
Proof.
  unfold range. rewrite in_map_iff. split.
  - intros (i & <- & Hi). apply in_seq in Hi. lia.
  - intros H. exists (Z.to_nat x). split; [lia|]. apply in_seq. lia.
Qed.

Lemma range_nth_error (n : Z) (i : nat) :
  (i < Z.to_nat n)%nat -> nth_error (range n) i = Some (Z.of_nat i).
Proof.
  intros H. unfold range. rewrite nth_error_map.
  rewrite nth_error_seq. destruct (Nat.ltb_spec i (Z.to_nat n)); [|lia].
  reflexivity.
Qed.

Lemma range_nonpos (n : Z) : n <= 0 -> range n = [].
Proof.
  intros H. unfold range. replace (Z.to_nat n) with 0%nat by lia. reflexivity.
Qed.

Lemma flat_map_map {A B C : Type} (f : B -> list C) (g : A -> B) (l : list A) :
  flat_map f (map g l) = flat_map (fun x => f (g x)) l.
Proof.
  induction l as [|x l IH]; [reflexivity|]. cbn. now rewrite IH.
Qed.

Lemma flat_map_flat_map {A B C : Type} (f : B -> list C) (g : A -> list B)
    (l : list A) :
  flat_map f (flat_map g l) = flat_map (fun x => flat_map f (g x)) l.
Proof.
  induction l as [|x l IH]; [reflexivity|].
  cbn. now rewrite flat_map_app, IH.
Qed.

Lemma filter_map_app {A B : Type} (f : A -> option B) (l1 l2 : list A) :
  filter_map f (l1 ++ l2) = filter_map f l1 ++ filter_map f l2.
Proof.
  induction l1 as [|x l1 IH]; [reflexivity|].
  cbn. destruct (f x); cbn; now rewrite IH.
Qed.


Lemma flat_map_filter_map {A B C : Type} (f : B -> list C) (g : A -> option B)
    (l : list A) :
  flat_map f (filter_map g l)
  = flat_map (fun x => match g x with Some y => f y | None => [] end) l.
Proof.
  induction l as [|x l IH]; [reflexivity|].
  cbn. destruct (g x); cbn; now rewrite IH.
Qed.

Section PairLoop.

Context {A B : Type}.

(** Visiting the indices of a list visits its elements. *)
Lemma flat_map_nth_seq (f : A -> list B) (pre l : list A) :
  flat_map
    (fun j => match nth_error (pre ++ l) j with Some x => f x | None => [] end)
    (seq (List.length pre) (List.length l))
  = flat_map f l.
Proof.
  revert pre. induction l as [|x l IH]; intros pre; [reflexivity|].
  cbn [List.length seq flat_map].
  rewrite nth_error_app2, Nat.sub_diag by lia. cbn [nth_error].
  f_equal.
  specialize (IH (pre ++ [x])).
  rewrite <- app_assoc, length_app in IH. cbn [List.length app] in IH.
  rewrite Nat.add_1_r in IH. exact IH.
Qed.

Lemma pair_loop_cons (body : A -> A -> list B) (x : A) (l : list A) :
  pair_loop body (x :: l) = flat_map (body x) l ++ pair_loop body l.
Proof.
  unfold pair_loop. cbn [List.length seq flat_map nth_error]. f_equal.
  - replace (S (List.length l) - 1)%nat with (List.length l) by lia.
    apply (flat_map_nth_seq (body x) [x] l).
  - rewrite <- seq_shift, flat_map_map.
    apply flat_map_ext. intros i.
    replace (S (List.length l) - S (S i))%nat with (List.length l - S i)%nat
      by lia.
    rewrite <- seq_shift, flat_map_map.
    reflexivity.
Qed.

(** The loops visit [pairs_of] the list, in that order. *)
Lemma pair_loop_pairs_of (body : A -> A -> list B) (l : list A) :
  pair_loop body l = flat_map (fun ab => body (fst ab) (snd ab)) (pairs_of l).
Proof.
  induction l as [|x l IH]; [reflexivity|].
  rewrite pair_loop_cons. cbn [pairs_of].
  now rewrite flat_map_app, flat_map_map, IH.
Qed.

(** The loops visit the [index_pairs], in that order. *)
Lemma pair_loop_index_pairs (body : A -> A -> list B) (l : list A) :
  pair_loop body l
  = flat_map
      (fun ij =>
         match nth_error l (fst ij), nth_error l (snd ij) with
         | Some a, Some b => body a b
         | _, _ => []
         end)
      (index_pairs (List.length l)).
Proof.
  unfold pair_loop, index_pairs. rewrite flat_map_flat_map.
  apply flat_map_ext. intros i. now rewrite flat_map_map.
Qed.

Lemma in_pairs_of (a b : A) (l1 l2 l3 : list A) :
  In (a, b) (pairs_of (l1 ++ a :: l2 ++ b :: l3)).
Proof.
  induction l1 as [|x l1 IH]; cbn [app pairs_of]; apply in_or_app.
  - left. apply in_map, in_elt.
  - now right.
Qed.

Lemma pairs_of_in (a b : A) (l : list A) :
  In (a, b) (pairs_of l) -> before a b l.
Proof.
  induction l as [|x l IH]; [easy|]. cbn [pairs_of].
  intros H. apply in_app_or in H as [H|H].
  - apply in_map_iff in H as (y & [= <- <-] & Hy).
    apply in_split in Hy as (l2 & l3 & ->). now exists [], l2, l3.
  - destruct (IH H) as (l1 & l2 & l3 & ->). now exists (x :: l1), l2, l3.
Qed.

End PairLoop.

Lemma pairs_of_filter_map {A B : Type} (f : A -> option B) (l : list A) :
  pairs_of (filter_map f l)
  = filter_map
      (fun ab =>
         match f (fst ab), f (snd ab) with
         | Some x, Some y => Some (x, y)
         | _, _ => None
         end)
      (pairs_of l).
Proof.
  induction l as [|a l IH]; [reflexivity|].
  cbn [filter_map pairs_of]. rewrite filter_map_app, <- IH.
  destruct (f a) as [x|] eqn:E.
  - cbn [pairs_of]. f_equal.
    clear IH. induction l as [|b l IH]; [reflexivity|].
    cbn [filter_map map fst snd]. rewrite E.
    destruct (f b); cbn [map]; now rewrite IH.
  - replace (filter_map _ (map (pair a) l)) with (@nil (B * B));
      [reflexivity|].
    clear IH. induction l as [|b l IH]; [reflexivity|].
    cbn [filter_map map fst snd]. now rewrite E.
Qed.

Lemma NoDup_map_inj {A B : Type} (f : A -> B) (l : list A) :
  (forall x y, f x = f y -> x = y) -> NoDup l -> NoDup (map f l).
Proof.
  intros Hf. induction 1 as [|x l Hx Hl IH]; cbn; constructor; trivial.
  intros H. apply in_map_iff in H as (y & Hy & Hin).
  apply Hf in Hy. now subst y.
Qed.

Lemma in_index_pairs (n i j : nat) :
  In (i, j) (index_pairs n) <-> (i < j < n)%nat.
Proof.
  unfold index_pairs. rewrite in_flat_map. split.
  - intros (i' & Hi & H). apply in_map_iff in H as (j' & [= -> ->] & Hj).
    apply in_seq in Hi, Hj. lia.
  - intros H. exists i. split; [apply in_seq; lia|].
    apply in_map, in_seq. lia.
Qed.

Lemma NoDup_index_pairs (n : nat) : NoDup (index_pairs n).
Proof.
  unfold index_pairs.
  assert (G : forall l, NoDup l ->
            NoDup (flat_map (fun i => map (pair i) (seq (S i) (n - S i))) l)).
  { induction 1 as [|i l Hi Hl IH]; cbn [flat_map]; [constructor|].
    apply NoDup_app; [| exact IH |].
    - apply NoDup_map_inj; [|apply seq_NoDup].
      now intros x y [= ->].
    - intros [a b] H1 H2.
      apply in_map_iff in H1 as (j & [= <- <-] & _).
      apply in_flat_map in H2 as (i' & Hi' & H2).
      apply in_map_iff in H2 as (j' & [= <- <-] & _). contradiction. }
  apply G, seq_NoDup.
Qed.

(** ** The screener, loop by loop *)

Section ProgramFacts.

Context {ext : Externals}.

Lemma step_count_returns (duration_hours step_minutes : Z) :
  step_minutes <> 0 ->
  step_count duration_hours step_minutes
  = Returns (Z.quot (duration_hours * 60) step_minutes).
Proof.
  intros H. unfold step_count.
  now destruct (Z.eqb_spec step_minutes 0).
Qed.

Lemma step_count_zero (duration_hours : Z) :
  step_count duration_hours 0 = Raises ZeroDivisionError.
Proof. reflexivity. Qed.

(** The screener sorts what the loops emitted, and only a zero step makes
    it raise. *)
Lemma find_conjunctions_returns (start_time : datetime)
    (satellites : list Satellite) (threshold_km : Q)
    (duration_hours step_minutes : Z) :
  step_minutes <> 0 ->
  find_conjunctions start_time satellites threshold_km duration_hours
    step_minutes
  = Returns
      (sort_by distance_km
         (emitted start_time satellites threshold_km
            (Z.quot (duration_hours * 60) step_minutes) step_minutes)).
Proof.
  intros H. unfold find_conjunctions. now rewrite step_count_returns.
Qed.

Lemma find_conjunctions_zero_step (start_time : datetime)
    (satellites : list Satellite) (threshold_km : Q) (duration_hours : Z) :
  find_conjunctions start_time satellites threshold_km duration_hours 0
  = Raises ZeroDivisionError.
Proof. reflexivity. Qed.

Lemma pair_events_loop (threshold_km : Q) (start_time current_time : datetime)
    (positions : list PosEntry) :
  pair_events threshold_km start_time current_time positions
  = pair_loop (pair_event threshold_km start_time current_time) positions.
Proof. reflexivity. Qed.

(** One pass of the outer loop, read on the input list: every object is
    paired with every later object. *)
Lemma step_events_candidates (satellites : list Satellite) (threshold_km : Q)
    (start_time : datetime) (step_minutes step : Z) :
  step_events satellites threshold_km start_time step_minutes step
  = flat_map
      (fun ab =>
         candidate threshold_km start_time
           (start_time + minutes (step * step_minutes)) (fst ab) (snd ab))
      (pairs_of satellites).
Proof.
  unfold step_events. cbv zeta.
  rewrite pair_events_loop, pair_loop_pairs_of.
  unfold positions_at. rewrite pairs_of_filter_map, flat_map_filter_map.
  apply flat_map_ext. intros [a b]. unfold candidate. cbn [fst snd].
  destruct (position_entry a) as [pa|]; [|reflexivity].
  destruct (position_entry b) as [pb|]; reflexivity.
Qed.

Lemma step_events_pair_loop (satellites : list Satellite) (threshold_km : Q)
    (start_time : datetime) (step_minutes step : Z) :
  step_events satellites threshold_km start_time step_minutes step
  = pair_loop
      (candidate threshold_km start_time
         (start_time + minutes (step * step_minutes)))
      satellites.
Proof. now rewrite step_events_candidates, pair_loop_pairs_of. Qed.

Lemma in_candidate (threshold_km : Q) (start_time current_time : datetime)
    (a b : Satellite) (e : Event) :
  In e (candidate threshold_km start_time current_time a b) <->
  exists pa pb,
    position_entry a current_time = Some pa /\
    position_entry b current_time = Some pb /\
    (calculate_distance (pe_position pa) (pe_position pb) < threshold_km)%Q /\
    e = {| object1 := pe_name pa;
           object2 := pe_name pb;
           distance_km :=
             py_round (calculate_distance (pe_position pa) (pe_position pb)) 2;
           time := current_time;
           time_from_now := current_time - start_time;
           altitude1_km := py_round (pe_altitude_km pa) 1;
           altitude2_km := py_round (pe_altitude_km pb) 1 |}.
Proof.
  unfold candidate, pair_event. split.
  - destruct (position_entry a current_time) as [pa|]; [|easy].
    destruct (position_entry b current_time) as [pb|]; [|easy].
    destruct (Qltb _ _) eqn:E; [|easy].
    intros [<-|[]]. exists pa, pb. apply Qltb_true in E. auto.
  - intros (pa & pb & -> & -> & Hlt & ->).
    apply Qltb_true in Hlt. rewrite Hlt. now left.
Qed.

Lemma candidate_length (threshold_km : Q) (start_time current_time : datetime)
    (a b : Satellite) :
  (List.length (candidate threshold_km start_time current_time a b) <= 1)%nat.
Proof.
  unfold candidate, pair_event.
  destruct (position_entry a) as [pa|]; [|cbn; lia].
  destruct (position_entry b) as [pb|]; [|cbn; lia].
  destruct (Qltb _ _); cbn; lia.
Qed.

Lemma in_emitted (start_time : datetime) (satellites : list Satellite)
    (threshold_km : Q) (steps step_minutes : Z) (e : Event) :
  In e (emitted start_time satellites threshold_km steps step_minutes) <->
  exists step a b,
    0 <= step < steps /\ before a b satellites /\
    In e (candidate threshold_km start_time
            (start_time + minutes (step * step_minutes)) a b).
Proof.
  unfold emitted. rewrite in_flat_map. split.
  - intros (step & Hs & He). rewrite step_events_candidates in He.
    apply in_flat_map in He as ([a b] & Hab & He).
    exists step, a, b. split; [now apply in_range|].
    split; [now apply pairs_of_in | exact He].
  - intros (step & a & b & Hs & (l1 & l2 & l3 & ->) & He).
    exists step. split; [now apply in_range|].
    rewrite step_events_candidates. apply in_flat_map.
    exists (a, b). split; [apply in_pairs_of | exact He].
Qed.

(** With an [at_time] the clock does not matter. *)
Lemma get_current_position_given (now now' : datetime) (sat : Satellite)
    (t : datetime) :
  get_current_position now sat (Some t)
  = get_current_position now' sat (Some t).
Proof. reflexivity. Qed.

Lemma position_entry_some (sat : Satellite) (t : datetime) (pe : PosEntry) :
  position_entry sat t = Some pe ->
  pe_name pe = name sat /\ pe_catalog pe = get_catalog sat /\ pe_time pe = t.
Proof.
  unfold position_entry.
  destruct (get_current_position t sat (Some t)) as [[pd|]|]; [|easy|easy].
  now intros [= <-].
Qed.

(** The sample of an object depends on its two lines only. *)
Lemma position_entry_same_lines (a b : Satellite) (t : datetime)
    (pa : PosEntry) :
  line1 a = line1 b -> line2 a = line2 b ->
  position_entry a t = Some pa ->
  position_entry b t
  = Some {| pe_name := name b;
            pe_catalog := get_catalog b;
            pe_position := pe_position pa;
            pe_altitude_km := pe_altitude_km pa;
            pe_time := t |}.
Proof.
  unfold position_entry, get_current_position. intros <- <-.
  destruct (twoline2rv (line1 a) (line2 a)) as [s|]; cbn [bind]; [|easy].
  destruct (sgp4_at s t) as [[code p] v].
  destruct (code =? 0); [|easy].
  now intros [= <-].
Qed.

Lemma malformed_no_sample (sat : Satellite) (t : datetime) :
  malformed sat -> position_entry sat t = None.
Proof.
  unfold malformed, position_entry, get_current_position.
  destruct (twoline2rv (line1 sat) (line2 sat)) as [s|]; cbn [bind]; [|easy].
  intros H. specialize (H t).
  destruct (sgp4_at s t) as [[code p] v]. cbn [fst] in H.
  now destruct (Z.eqb_spec code 0).
Qed.

(** An object without samples contributes nothing to any step. *)
Lemma positions_at_skip (l1 l2 : list Satellite) (bad : Satellite)
    (t : datetime) :
  position_entry bad t = None ->
  positions_at (l1 ++ bad :: l2) t = positions_at (l1 ++ l2) t.
Proof.
  intros H. unfold positions_at. rewrite !filter_map_app.
  cbn [filter_map]. now rewrite H.
Qed.

Lemma py_sum_zero (l : list Q) :
  Forall (fun x => (x == 0)%Q) l -> (py_sum l == 0)%Q.
Proof.
  intros H. unfold py_sum.
  assert (G : forall acc, (fold_left Qplus l acc == acc)%Q).
  { induction H as [|x l Hx _ IH]; intros acc; cbn [fold_left];
      [reflexivity|].
    rewrite IH, Hx. ring. }
  apply G.
Qed.

Lemma squared_differences_zero (p : list Q) :
  (py_sum (map (fun ab => (fst ab - snd ab) ^ 2) (combine p p)) == 0)%Q.
Proof.
  apply py_sum_zero. induction p as [|x p IH]; cbn; constructor; trivial.
  ring.
Qed.

(** Two samples at the same place are at distance 0, as soon as the square
    root of 0 is 0. *)
Lemma calculate_distance_self (p : list Q) :
  (forall x, (x == 0)%Q -> (np_sqrt x == 0)%Q) ->
  (calculate_distance p p == 0)%Q.
Proof.
  intros H. apply H, squared_differences_zero.
Qed.

Lemma py_sum_nonneg (l : list Q) :
  Forall (fun x => (0 <= x)%Q) l -> (0 <= py_sum l)%Q.
Proof.
  intros H. unfold py_sum.
  assert (G : forall acc, (0 <= acc)%Q -> (0 <= fold_left Qplus l acc)%Q).
  { induction H as [|x l Hx _ IH]; intros acc Hacc; cbn [fold_left];
      [exact Hacc|].
    apply IH. lra. }
  apply G, Qle_refl.
Qed.

Lemma squared_differences_nonneg (p1 p2 : list Q) :
  (0 <= py_sum (map (fun ab => (fst ab - snd ab) ^ 2) (combine p1 p2)))%Q.
Proof.
  apply py_sum_nonneg. apply Forall_forall. intros x Hx.
  apply in_map_iff in Hx as ([a b] & <- & _). cbn [fst snd].
  apply Qsqr_nonneg.
Qed.

(** A distance is never negative, as soon as the square root of a
    non-negative number is not. *)
Lemma calculate_distance_nonneg (p1 p2 : list Q) :
  (forall x, (0 <= x)%Q -> (0 <= np_sqrt x)%Q) ->
  (0 <= calculate_distance p1 p2)%Q.
Proof.
  intros H. apply H, squared_differences_nonneg.
Qed.

End ProgramFacts.

(** * The claims *)

(** ** The risk classifier *)

Ltac split_tiers :=
  unfold assess_collision_risk, float_ltb;
  repeat match goal with
    | |- context [Qltb ?a ?b] =>
        let E := fresh "E" in
        destruct (Qltb a b) eqn:E;
        [apply Qltb_true in E | apply Qltb_false in E]
    end.

Lemma risk_score_monotone (d1 d2 : float) :
  float_leb d1 d2 = true ->
  risk_score (assess_collision_risk d2)
  <= risk_score (assess_collision_risk d1).
Proof.
  destruct d1 as [p| | |], d2 as [q| | |]; cbn [float_leb]; try discriminate;
    intros H; try apply Qle_bool_iff in H;
    split_tiers; cbn [risk_score fst snd]; try lia; exfalso; lra.
Qed.

(** C6.  The classifier is a total step function of the distance: it returns
    one of the six tiers on every input, on a finite distance the tier is
    CRITICAL/95 below 1, HIGH/80 on [1, 5), ELEVATED/60 on [5, 10),
    MODERATE/40 on [10, 25), LOW/20 on [25, 50) and MINIMAL/5 from 50 on, and
    the score never increases when the distance increases.  In particular
    0.5 is CRITICAL, 5 is ELEVATED, 49.999 is LOW and 50 is MINIMAL. *)
Theorem C6_classifier_step_function :
  (forall d : float,
     In (assess_collision_risk d)
       [ ("CRITICAL", 95, "Immediate collision risk");
         ("HIGH", 80, "Very close approach - high risk");
         ("ELEVATED", 60, "Close approach - monitor closely");
         ("MODERATE", 40, "Notable approach");
         ("LOW", 20, "Distant approach");
         ("MINIMAL", 5, "Safe distance") ]%string) /\
  (forall q : Q,
     let r := assess_collision_risk (Finite q) in
     ((q < 1)%Q <-> (risk_level r = "CRITICAL"%string /\ risk_score r = 95)) /\
     ((1 <= q < 5)%Q <-> (risk_level r = "HIGH"%string /\ risk_score r = 80)) /\
     ((5 <= q < 10)%Q <->
        (risk_level r = "ELEVATED"%string /\ risk_score r = 60)) /\
     ((10 <= q < 25)%Q <->
        (risk_level r = "MODERATE"%string /\ risk_score r = 40)) /\
     ((25 <= q < 50)%Q <->
        (risk_level r = "LOW"%string /\ risk_score r = 20)) /\
     ((50 <= q)%Q <-> (risk_level r = "MINIMAL"%string /\ risk_score r = 5))) /\
  (forall d1 d2 : float,
     float_leb d1 d2 = true ->
     risk_score (assess_collision_risk d2)
     <= risk_score (assess_collision_risk d1)) /\
  risk_level (assess_collision_risk (Finite (5 # 10))) = "CRITICAL"%string /\
  risk_level (assess_collision_risk (Finite 5)) = "ELEVATED"%string /\
  risk_level (assess_collision_risk (Finite (49999 # 1000))) = "LOW"%string /\
  risk_level (assess_collision_risk (Finite 50)) = "MINIMAL"%string.
Proof.
  split; [|split; [|split; [exact risk_score_monotone|now cbv]]].
  - intros d. unfold assess_collision_risk.
    repeat match goal with
      | |- context [float_ltb ?a ?b] => destruct (float_ltb a b)
      end; cbn; tauto.
  - intros q r. subst r.
    split_tiers; cbn [risk_level risk_score fst snd];
      repeat split; intros; try lra; try discriminate;
      repeat match goal with H : _ /\ _ |- _ => destruct H end;
      try discriminate; try lra.
Qed.

(** The monotonicity of C6 on two finite distances, and on a finite distance
    against infinity. *)
Lemma C6_classifier_step_function_witness :
  risk_score (assess_collision_risk (Finite 7))
  <= risk_score (assess_collision_risk (Finite (49 # 10))) /\
  risk_score (assess_collision_risk PosInf)
  <= risk_score (assess_collision_risk (Finite 30)).
Proof.
  split;
    apply (proj1 (proj2 (proj2 C6_classifier_step_function))); reflexivity.
Defined.

(** C7, as stated, fails: a negative distance is not rejected, it is
    classified CRITICAL with score 95; NaN and the infinities are
    classified as well. *)
Lemma C7_negative_distance_is_classified :
  assess_collision_risk (Finite (-1))
  = ("CRITICAL", 95, "Immediate collision risk")%string /\
  assess_collision_risk NaN = ("MINIMAL", 5, "Safe distance")%string.
Proof. split; reflexivity. Qed.

(** C7, amended.  The classifier has no rejecting path: a negative distance
    and minus infinity are classified CRITICAL/95, NaN and plus infinity
    MINIMAL/5. *)
Theorem C7_classifier_never_rejects :
  (forall q : Q,
     (q < 0)%Q ->
     assess_collision_risk (Finite q)
     = ("CRITICAL", 95, "Immediate collision risk")%string) /\
  assess_collision_risk NegInf
  = ("CRITICAL", 95, "Immediate collision risk")%string /\
  assess_collision_risk PosInf = ("MINIMAL", 5, "Safe distance")%string /\
  assess_collision_risk NaN = ("MINIMAL", 5, "Safe distance")%string.
Proof.
  split; [|now cbv].
  intros q Hq. unfold assess_collision_risk, float_ltb.
  replace (Qltb q 1) with true; [reflexivity|].
  symmetry. apply Qltb_true. lra.
Qed.

Lemma C7_classifier_never_rejects_witness :
  assess_collision_risk (Finite (- (25 # 10)))
  = ("CRITICAL", 95, "Immediate collision risk")%string.
Proof.
  apply (proj1 C7_classifier_never_rejects). reflexivity.
Defined.

(** ** The time grid and the trajectory sampler *)

Section Sampler.

Context {ext : Externals}.

Lemma time_grid_length (start_time : datetime) (steps step_minutes : Z) :
  List.length (time_grid start_time steps step_minutes) = Z.to_nat steps.
Proof. unfold time_grid. now rewrite length_map, range_length. Qed.

Lemma time_grid_nth (start_time : datetime) (steps step_minutes i : Z) :
  0 <= i < steps ->
  nth_error (time_grid start_time steps step_minutes) (Z.to_nat i)
  = Some (start_time + i * step_minutes * 60000000).
Proof.
  intros H. unfold time_grid. rewrite nth_error_map, range_nth_error by lia.
  cbn [option_map]. unfold minutes. now rewrite Z2Nat.id by lia.
Qed.

(** The screener visits the instants of [time_grid]. *)
Lemma find_conjunctions_grid (start_time : datetime)
    (satellites : list Satellite) (threshold_km : Q)
    (duration_hours step_minutes : Z) :
  step_minutes <> 0 ->
  find_conjunctions start_time satellites threshold_km duration_hours
    step_minutes
  = Returns
      (sort_by distance_km
         (flat_map
            (fun t =>
               pair_events threshold_km start_time t
                 (positions_at satellites t))
            (time_grid start_time
               (Z.quot (duration_hours * 60) step_minutes) step_minutes))).
Proof.
  intros H. rewrite find_conjunctions_returns by exact H.
  unfold emitted, time_grid. now rewrite flat_map_map.
Qed.

(** The sampler visits the instants of [time_grid] and keeps those at which
    the propagator reports no error. *)
Lemma propagate_satellite_grid (now : datetime) (tle_data : Satellite)
    (start_time : option datetime) (duration_hours step_minutes : Z)
    (satellite : Satrec) :
  twoline2rv (line1 tle_data) (line2 tle_data) = Returns satellite ->
  step_minutes <> 0 ->
  let grid :=
    time_grid (match start_time with Some t => t | None => now end)
      (Z.quot (duration_hours * 60) step_minutes) step_minutes in
  propagate_satellite now tle_data start_time duration_hours step_minutes
  = Returns
      {| tr_name := name tle_data;
         tr_catalog := get_catalog tle_data;
         tr_positions :=
           map (fun t => snd (fst (sgp4_at satellite t)))
             (filter (sgp4_ok satellite) grid);
         tr_times := filter (sgp4_ok satellite) grid |}.
Proof.
  intros Hp Hs grid. subst grid. unfold propagate_satellite.
  rewrite Hp. cbn [bind]. rewrite step_count_returns by exact Hs.
  cbn [bind]. unfold time_grid.
  set (t0 := match start_time with Some t => t | None => now end).
  generalize (range (Z.quot (duration_hours * 60) step_minutes)) as l.
  intros l. do 2 f_equal.
  - induction l as [|i l IH]; [reflexivity|].
    cbn [filter_map map filter]. unfold sgp4_ok at 1.
    destruct (sgp4_at satellite (t0 + minutes (i * step_minutes)))
      as [[code p] v] eqn:E.
    cbn [fst snd]. destruct (code =? 0); cbn [map fst]; rewrite ?E, IH;
      reflexivity.
  - induction l as [|i l IH]; [reflexivity|].
    cbn [filter_map map filter]. unfold sgp4_ok at 1.
    destruct (sgp4_at satellite (t0 + minutes (i * step_minutes)))
      as [[code p] v] eqn:E.
    cbn [fst snd]. destruct (code =? 0); cbn [map snd]; rewrite IH;
      reflexivity.
Qed.

End Sampler.

(** C4, as stated, fails: one hour sampled every 7 minutes gives 8 instants,
    not the ceiling of 60/7, which is 9. *)
Lemma C4_grid_is_not_the_ceiling :
  ceil_div (1 * 60) 7 = 9 /\
  step_count 1 7 = Returns 8 /\
  (exists tr,
     propagate_satellite (ext := Toy.externals) 0 (Toy.sat "A" "1 A") (Some 0)
       1 7 = Returns tr /\
     List.length (tr_times tr) = 8%nat /\
     List.length (tr_times tr) <> Z.to_nat (ceil_div (1 * 60) 7)).
Proof.
  split; [reflexivity|]. split; [reflexivity|].
  eexists. split; [vm_compute; reflexivity|].
  split; [reflexivity | discriminate].
Qed.

(** C4, amended.  For a positive duration and a positive step, the sampler
    and the screener both visit the grid of exactly
    floor(duration_hours * 60 / step_minutes) instants
    t_i = start_time + i * step_minutes minutes, i = 0, 1, ...: the sampler
    keeps the instants at which the propagation succeeds, the screener
    screens at each of them. *)
Theorem C4_time_grid_floor {ext : Externals} (now start_time : datetime)
    (duration_hours step_minutes : Z) :
  0 < duration_hours -> 0 < step_minutes ->
  let n := duration_hours * 60 / step_minutes in
  let grid := time_grid start_time n step_minutes in
  n * step_minutes <= duration_hours * 60 < (n + 1) * step_minutes /\
  step_count duration_hours step_minutes = Returns n /\
  List.length grid = Z.to_nat n /\
  (forall i, 0 <= i < n ->
     nth_error grid (Z.to_nat i)
     = Some (start_time + i * step_minutes * 60000000)) /\
  (0 < n -> nth_error grid 0 = Some start_time) /\
  (forall satellites threshold_km,
     find_conjunctions start_time satellites threshold_km duration_hours
       step_minutes
     = Returns
         (sort_by distance_km
            (flat_map
               (fun t =>
                  pair_events threshold_km start_time t
                    (positions_at satellites t))
               grid))) /\
  (forall tle_data satellite,
     twoline2rv (line1 tle_data) (line2 tle_data) = Returns satellite ->
     exists tr,
       propagate_satellite now tle_data (Some start_time) duration_hours
         step_minutes = Returns tr /\
       tr_times tr = filter (sgp4_ok satellite) grid).
Proof.
  intros Hd Hs n grid.
  assert (Hq : Z.quot (duration_hours * 60) step_minutes = n).
  { unfold n. apply Z.quot_div_nonneg; lia. }
  split.
  { unfold n. pose proof (Z.div_mod (duration_hours * 60) step_minutes).
    pose proof (Z.mod_pos_bound (duration_hours * 60) step_minutes). nia. }
  split; [rewrite step_count_returns, Hq by lia; reflexivity|].
  split; [apply time_grid_length|].
  split; [intros i Hi; now apply time_grid_nth|].
  split.
  { intros Hn. unfold grid. change 0%nat with (Z.to_nat 0).
    rewrite (time_grid_nth start_time n step_minutes 0) by lia.
    cbn [Z.mul]. now rewrite Z.add_0_r. }
  split.
  - intros satellites threshold_km.
    rewrite find_conjunctions_grid, Hq by lia. reflexivity.
  - intros tle_data satellite Hp. eexists. split.
    + rewrite (propagate_satellite_grid now tle_data (Some start_time)
                 duration_hours step_minutes satellite Hp) by lia.
      reflexivity.
    + cbn [tr_times]. now rewrite Hq.
Qed.

(** One hour every 7 minutes on the catalogue: 8 instants from the start. *)
Lemma C4_time_grid_floor_witness :
  0 < 1 /\ 0 < 7 /\
  step_count 1 7 = Returns 8 /\
  nth_error (time_grid 1000 8 7) 3 = Some (1000 + 3 * 7 * 60000000).
Proof.
  split; [lia|]. split; [lia|].
  pose proof (C4_time_grid_floor (ext := Toy.externals) 0 1000 1 7
                ltac:(lia) ltac:(lia)) as (_ & H1 & _ & H2 & _).
  split; [exact H1|]. apply (H2 3). split; [discriminate | reflexivity].
Defined.

(** ** Degenerate horizons *)

(** C5, as stated, fails three times: a zero step makes the sampler raise
    [ZeroDivisionError], a negative duration with a negative step gives a
    trajectory of six samples that runs backwards in time, and a record
    whose lines the library refuses makes it raise whatever the horizon. *)
Lemma C5_degenerate_inputs_counterexample :
  propagate_satellite (ext := Toy.externals) 0 (Toy.sat "A" "1 A") None 1 0
  = Raises ZeroDivisionError /\
  (exists tr,
     propagate_satellite (ext := Toy.externals) 0 (Toy.sat "A" "1 A") None
       (-1) (-10) = Returns tr /\
     tr_times tr
     = [0; -600000000; -1200000000; -1800000000; -2400000000; -3000000000])
  /\
  propagate_satellite (ext := Toy.externals) 0 (Toy.sat "Z" "1 Z") None 0 10
  = Raises ValueError.
Proof.
  split; [reflexivity|]. split; [|reflexivity].
  eexists. split; vm_compute; reflexivity.
Qed.

Lemma quot_nonpos (a b : Z) : a * b <= 0 -> b <> 0 -> Z.quot a b <= 0.
Proof.
  intros Hab Hb.
  destruct (Z.lt_trichotomy b 0) as [Hneg|[->|Hpos]]; [|easy|].
  - assert (Ha : 0 <= a) by nia.
    rewrite <- (Z.opp_involutive b), Z.quot_opp_r by lia.
    pose proof (Z.quot_pos a (- b) Ha ltac:(lia)). lia.
  - assert (Ha : 0 <= - a) by nia.
    rewrite <- (Z.opp_involutive a), Z.quot_opp_l by lia.
    pose proof (Z.quot_pos (- a) b Ha ltac:(lia)). lia.
Qed.

(** The quotient of two negative numbers, truncated: zero when the divisor
    is the larger in absolute value, at least one otherwise. *)
Lemma quot_negatives (a b : Z) :
  a < 0 -> b < 0 ->
  (- a < - b -> Z.quot a b = 0) /\ (- b <= - a -> 1 <= Z.quot a b).
Proof.
  intros Ha Hb. rewrite <- (Z.quot_opp_opp a b) by lia. split; intros H.
  - apply Z.quot_small. lia.
  - apply Z.quot_le_lower_bound; lia.
Qed.

(** A grid of at least one instant starts at the start time. *)
Lemma time_grid_head (start_time : datetime) (steps step_minutes : Z) :
  1 <= steps ->
  exists rest, time_grid start_time steps step_minutes = start_time :: rest.
Proof.
  intros H. unfold time_grid, range.
  destruct (Z.to_nat steps) as [|n] eqn:E; [lia|].
  cbn [seq map]. eexists. unfold minutes.
  change (Z.of_nat 0 * step_minutes * 60000000) with 0.
  now rewrite Z.add_0_r.
Qed.

(** C5, amended.  For a record whose lines parse and a duration <= 0 or a
    step <= 0, the sampler raises [ZeroDivisionError] when the step is 0;
    otherwise it returns the empty trajectory and does not raise, except
    when duration and step are both negative and the step is, in absolute
    value, at most the duration.  It then visits the
    int(duration * 60 / step) >= 1 instants of the grid, the start time
    first, and returns a trajectory that is not empty as soon as the
    propagator reports no error at the start time. *)
Theorem C5_degenerate_inputs_empty {ext : Externals} (now : datetime)
    (tle_data : Satellite) (start_time : option datetime)
    (duration_hours step_minutes : Z) (satellite : Satrec) :
  twoline2rv (line1 tle_data) (line2 tle_data) = Returns satellite ->
  duration_hours <= 0 \/ step_minutes <= 0 ->
  let t0 := match start_time with Some t => t | None => now end in
  let steps := Z.quot (duration_hours * 60) step_minutes in
  let run :=
    propagate_satellite now tle_data start_time duration_hours step_minutes in
  (step_minutes = 0 -> run = Raises ZeroDivisionError) /\
  (step_minutes <> 0 ->
   ~ (duration_hours < 0 /\ step_minutes < 0 /\
      - step_minutes <= - (duration_hours * 60)) ->
   run = Returns {| tr_name := name tle_data;
                    tr_catalog := get_catalog tle_data;
                    tr_positions := [];
                    tr_times := [] |}) /\
  (duration_hours < 0 -> step_minutes < 0 ->
   - step_minutes <= - (duration_hours * 60) ->
   1 <= steps /\
   exists tr,
     run = Returns tr /\
     tr_times tr
     = filter (sgp4_ok satellite) (time_grid t0 steps step_minutes) /\
     List.length (tr_positions tr) = List.length (tr_times tr) /\
     (sgp4_ok satellite t0 = true ->
      exists rest, tr_times tr = t0 :: rest)).
Proof.
  intros Hp Hdeg t0 steps run. split; [|split].
  - intros ->. unfold run, propagate_satellite. now rewrite Hp.
  - intros Hs Hnot. unfold run.
    rewrite (propagate_satellite_grid now tle_data start_time duration_hours
               step_minutes satellite Hp Hs).
    unfold time_grid. rewrite range_nonpos; [reflexivity|].
    destruct (Z_lt_le_dec duration_hours 0) as [Hd|Hd];
      [destruct (Z_lt_le_dec step_minutes 0) as [Hm|Hm]|].
    + rewrite (proj1 (quot_negatives (duration_hours * 60) step_minutes
                        ltac:(lia) Hm)); lia.
    + apply quot_nonpos; [nia | exact Hs].
    + apply quot_nonpos; [nia | exact Hs].
  - intros Hd Hm Hle.
    assert (Hsteps : 1 <= steps).
    { apply (quot_negatives (duration_hours * 60) step_minutes); lia. }
    split; [exact Hsteps|]. eexists. split; [|split; [|split]].
    + unfold run.
      apply (propagate_satellite_grid now tle_data start_time duration_hours
               step_minutes satellite Hp). lia.
    + reflexivity.
    + cbn [tr_positions tr_times]. apply length_map.
    + cbn [tr_times]. fold t0. fold steps. intros Hok.
      destruct (time_grid_head t0 steps step_minutes Hsteps) as (rest & ->).
      cbn [filter]. rewrite Hok. now eexists.
Qed.

(** On the catalogue: a non-positive duration with the default step and a
    negative step with a positive duration give the empty trajectory; a
    step of -100 minutes is longer than a duration of -1 hour and gives the
    empty trajectory too; a step of -10 minutes does not. *)
Lemma C5_degenerate_inputs_empty_witness :
  propagate_satellite (ext := Toy.externals) 5 (Toy.sat "A" "1 A") None 0 10
  = Returns {| tr_name := "A"; tr_catalog := "debris";
               tr_positions := []; tr_times := [] |} /\
  propagate_satellite (ext := Toy.externals) 5 (Toy.sat "A" "1 A") (Some 7)
    24 (-10)
  = Returns {| tr_name := "A"; tr_catalog := "debris";
               tr_positions := []; tr_times := [] |} /\
  propagate_satellite (ext := Toy.externals) 5 (Toy.sat "A" "1 A") (Some 7)
    (-1) (-100)
  = Returns {| tr_name := "A"; tr_catalog := "debris";
               tr_positions := []; tr_times := [] |} /\
  1 <= Z.quot (-1 * 60) (-10).
Proof.
  split; [|split; [|split]].
  - apply (C5_degenerate_inputs_empty (ext := Toy.externals) 5
             (Toy.sat "A" "1 A") None 0 10
             (Toy.Moving [7000; 0; 0] [0; 0; 0])%Q);
      [reflexivity | lia | lia | lia].
  - apply (C5_degenerate_inputs_empty (ext := Toy.externals) 5
             (Toy.sat "A" "1 A") (Some 7) 24 (-10)
             (Toy.Moving [7000; 0; 0] [0; 0; 0])%Q);
      [reflexivity | lia | lia | lia].
  - apply (C5_degenerate_inputs_empty (ext := Toy.externals) 5
             (Toy.sat "A" "1 A") (Some 7) (-1) (-100)
             (Toy.Moving [7000; 0; 0] [0; 0; 0])%Q);
      [reflexivity | lia | lia | lia].
  - apply (C5_degenerate_inputs_empty (ext := Toy.externals) 5
             (Toy.sat "A" "1 A") (Some 7) (-1) (-10)
             (Toy.Moving [7000; 0; 0] [0; 0; 0])%Q);
      [reflexivity | lia | lia | lia | lia].
Defined.

(** ** The screener *)

Section Screener.

Context {ext : Externals}.

Lemma find_conjunctions_inv (start_time : datetime)
    (satellites : list Satellite) (threshold_km : Q)
    (duration_hours step_minutes : Z) (evs : list Event) :
  find_conjunctions start_time satellites threshold_km duration_hours
    step_minutes = Returns evs ->
  step_minutes <> 0 /\
  evs = sort_by distance_km
          (emitted start_time satellites threshold_km
             (Z.quot (duration_hours * 60) step_minutes) step_minutes).
Proof.
  intros H. destruct (Z.eq_dec step_minutes 0) as [->|Hs].
  - rewrite find_conjunctions_zero_step in H. discriminate.
  - rewrite find_conjunctions_returns in H by exact Hs.
    injection H as <-. now split.
Qed.

Lemma in_sort_by {A : Type} (key : A -> Q) (l : list A) (x : A) :
  In x (sort_by key l) <-> In x l.
Proof.
  split; apply Permutation_in;
    [apply sort_by_perm | symmetry; apply sort_by_perm].
Qed.

(** Where an event of the output comes from. *)
Lemma in_find_conjunctions (start_time : datetime)
    (satellites : list Satellite) (threshold_km : Q)
    (duration_hours step_minutes : Z) (evs : list Event) (e : Event) :
  find_conjunctions start_time satellites threshold_km duration_hours
    step_minutes = Returns evs ->
  (In e evs <->
   exists step a b pa pb,
     let t := start_time + minutes (step * step_minutes) in
     0 <= step < Z.quot (duration_hours * 60) step_minutes /\
     before a b satellites /\
     position_entry a t = Some pa /\
     position_entry b t = Some pb /\
     (calculate_distance (pe_position pa) (pe_position pb) < threshold_km)%Q /\
     e = {| object1 := pe_name pa;
            object2 := pe_name pb;
            distance_km :=
              py_round (calculate_distance (pe_position pa) (pe_position pb))
                2;
            time := t;
            time_from_now := t - start_time;
            altitude1_km := py_round (pe_altitude_km pa) 1;
            altitude2_km := py_round (pe_altitude_km pb) 1 |}).
Proof.
  intros H. apply find_conjunctions_inv in H as [Hs ->].
  rewrite in_sort_by, in_emitted. split.
  - intros (step & a & b & Hstep & Hab & He).
    apply in_candidate in He as (pa & pb & Ha & Hb & Hlt & ->).
    now exists step, a, b, pa, pb.
  - intros (step & a & b & pa & pb & Hstep & Hab & Ha & Hb & Hlt & ->).
    exists step, a, b. split; [exact Hstep|]. split; [exact Hab|].
    apply in_candidate. now exists pa, pb.
Qed.

Lemma before_in {A : Type} (a b : A) (l : list A) :
  before a b l -> In a l /\ In b l.
Proof.
  intros (l1 & l2 & l3 & ->). split.
  - apply in_elt.
  - apply in_or_app. right. right. apply in_elt.
Qed.


End Screener.

(** ** Identical objects *)

(** C1, as stated, fails: two objects with the same element set, both
    propagated at each of the two sampled instants, screened with threshold
    0, give no event at all. *)
Lemma C1_threshold_zero_counterexample :
  let a := Toy.sat "A" "1 A" in
  let b := Toy.sat "A2" "1 A" in
  line1 a = line1 b /\ line2 a = line2 b /\
  (forall step, In step (range 2) ->
     position_entry (ext := Toy.externals) a (0 + minutes (step * 30)) <> None
     /\
     position_entry (ext := Toy.externals) b (0 + minutes (step * 30))
     <> None) /\
  find_conjunctions (ext := Toy.externals) 0 [a; b] 0 1 30 = Returns [].
Proof.
  cbv zeta. split; [reflexivity|]. split; [reflexivity|]. split.
  - intros step [<-|[<-|[]]]; split; vm_compute; discriminate.
  - vm_compute. reflexivity.
Qed.

(** C1, amended.  For every record set containing two objects with
    identical orbital elements, screening with a positive threshold yields,
    at every sampled time step at which both objects propagate, an event for
    the two with distance 0, classified CRITICAL with score 95.  With
    threshold 0 no event is emitted: an event requires distance < threshold.
    Of the square root the proof uses that it is 0 at 0 and not negative on
    non-negative numbers. *)
Theorem C1_identical_objects {ext : Externals} (start_time : datetime)
    (l1 l2 l3 : list Satellite) (a b : Satellite) (threshold_km : Q)
    (duration_hours step_minutes : Z) :
  (forall x, (x == 0)%Q -> (np_sqrt x == 0)%Q) ->
  (forall x, (0 <= x)%Q -> (0 <= np_sqrt x)%Q) ->
  line1 a = line1 b -> line2 a = line2 b ->
  step_minutes <> 0 ->
  exists evs,
    find_conjunctions start_time (l1 ++ a :: l2 ++ b :: l3) threshold_km
      duration_hours step_minutes = Returns evs /\
    ((0 < threshold_km)%Q ->
     forall step pa pb,
       let t := start_time + minutes (step * step_minutes) in
       0 <= step < Z.quot (duration_hours * 60) step_minutes ->
       position_entry a t = Some pa -> position_entry b t = Some pb ->
       exists e,
         In e evs /\
         object1 e = name a /\ object2 e = name b /\ time e = t /\
         distance_km e = 0%Q /\
         assess_collision_risk (Finite (distance_km e))
         = ("CRITICAL", 95, "Immediate collision risk")%string) /\
    ((threshold_km == 0)%Q -> evs = []).
Proof.
  intros Hzero Hnonneg Hl1 Hl2 Hs.
  eexists. split; [apply find_conjunctions_returns, Hs|]. split.
  - intros Hthr step pa pb t Hstep Ha Hb.
    pose proof (position_entry_same_lines a b t pa Hl1 Hl2 Ha) as Hb'.
    rewrite Hb in Hb'. injection Hb' as ->.
    pose proof (position_entry_some a t pa Ha) as (Hna & _ & _).
    pose proof (calculate_distance_self (pe_position pa) Hzero) as Hd.
    eexists. split.
    + apply in_sort_by, in_emitted. exists step, a, b.
      split; [exact Hstep|]. split; [now exists l1, l2, l3|].
      apply in_candidate. exists pa. eexists.
      split; [exact Ha|]. split; [exact Hb|].
      split; [|reflexivity]. cbn [pe_position]. now rewrite Hd.
    + cbn [object1 object2 time distance_km pe_name pe_position].
      rewrite (py_round_zero _ 2 Hd). now repeat split.
  - intros Hthr.
    assert (Hnil : forall l : list Event, (forall e, ~ In e l) -> l = []).
    { intros [|e l] H; [reflexivity|]. exfalso. apply (H e). now left. }
    apply Hnil. intros e He.
    apply in_sort_by, in_emitted in He as (step & a' & b' & _ & _ & He).
    apply in_candidate in He as (pa & pb & _ & _ & Hlt & _).
    rewrite Hthr in Hlt.
    apply (Qlt_not_le _ _ Hlt), calculate_distance_nonneg, Hnonneg.
Qed.

(** Two copies of one element set on the catalogue, screened at 5 km every
    half hour for one hour: an event at distance 0 at the first instant. *)
Lemma C1_identical_objects_witness :
  exists evs e,
    find_conjunctions (ext := Toy.externals) 0
      [Toy.sat "A" "1 A"; Toy.sat "A2" "1 A"] 5 1 30 = Returns evs /\
    In e evs /\ time e = 0 /\ distance_km e = 0%Q /\
    assess_collision_risk (Finite (distance_km e))
    = ("CRITICAL", 95, "Immediate collision risk")%string.
Proof.
  destruct (C1_identical_objects (ext := Toy.externals) 0 [] [] []
              (Toy.sat "A" "1 A") (Toy.sat "A2" "1 A") 5 1 30
              sqrt6_zero (fun x _ => sqrt6_nonneg x) eq_refl eq_refl
              ltac:(discriminate))
    as (evs & Hrun & Hpos & _).
  destruct (Hpos eq_refl 0
              {| pe_name := "A"; pe_catalog := "debris";
                 pe_position := [7000; 0; 0]%Q; pe_altitude_km := 629%Q;
                 pe_time := 0 |}
              {| pe_name := "A2"; pe_catalog := "debris";
                 pe_position := [7000; 0; 0]%Q; pe_altitude_km := 629%Q;
                 pe_time := 0 |}
              ltac:(split; [discriminate | reflexivity])
              eq_refl eq_refl)
    as (e & Hin & _ & _ & Ht & Hd & Hrisk).
  exists evs, e. repeat split; assumption.
Defined.

(** ** The threshold *)




(** ** Objects that cannot be propagated *)

(** C8.  A record set with one malformed object, one whose lines do not
    parse or whose propagation fails at every instant (as for an
    eccentricity of 1.5), is screened like the record set without it: the
    run does not raise on its account and returns exactly the events of the
    valid objects alone. *)
Theorem C8_malformed_object_is_skipped {ext : Externals}
    (start_time : datetime) (l1 l2 : list Satellite) (bad : Satellite)
    (threshold_km : Q) (duration_hours step_minutes : Z) :
  malformed bad ->
  find_conjunctions start_time (l1 ++ bad :: l2) threshold_km duration_hours
    step_minutes
  = find_conjunctions start_time (l1 ++ l2) threshold_km duration_hours
      step_minutes /\
  (step_minutes <> 0 ->
   exists evs,
     find_conjunctions start_time (l1 ++ bad :: l2) threshold_km
       duration_hours step_minutes = Returns evs).
Proof.
  intros Hbad. split.
  - unfold find_conjunctions.
    destruct (step_count duration_hours step_minutes) as [steps|];
      [|reflexivity].
    cbn [bind]. do 2 f_equal. apply flat_map_ext. intros step.
    unfold step_events. cbv zeta.
    now rewrite positions_at_skip by (apply malformed_no_sample, Hbad).
  - intros Hs. eexists. now apply find_conjunctions_returns.
Qed.

(** On the catalogue: an object whose propagation reports error code 1 at
    every instant, and an object whose lines do not parse. *)
Lemma C8_malformed_object_is_skipped_witness :
  find_conjunctions (ext := Toy.externals) 0
    [Toy.sat "A" "1 A"; Toy.sat "E" "1 E"; Toy.sat "D" "1 D"] 50 1 30
  = find_conjunctions (ext := Toy.externals) 0
      [Toy.sat "A" "1 A"; Toy.sat "D" "1 D"] 50 1 30 /\
  find_conjunctions (ext := Toy.externals) 0
    [Toy.sat "F" "garbled"; Toy.sat "A" "1 A"; Toy.sat "D" "1 D"] 50 1 30
  = find_conjunctions (ext := Toy.externals) 0
      [Toy.sat "A" "1 A"; Toy.sat "D" "1 D"] 50 1 30.
Proof.
  split.
  - apply (C8_malformed_object_is_skipped (ext := Toy.externals) 0
             [Toy.sat "A" "1 A"] [Toy.sat "D" "1 D"] (Toy.sat "E" "1 E")).
    intros t. discriminate.
  - apply (C8_malformed_object_is_skipped (ext := Toy.externals) 0
             [] [Toy.sat "A" "1 A"; Toy.sat "D" "1 D"]
             (Toy.sat "F" "garbled")).
    exact I.
Defined.

(** ** Pairs of objects *)

Lemma nth_error_middle {A : Type} (l1 l2 : list A) (x : A) :
  nth_error (l1 ++ x :: l2) (List.length l1) = Some x.
Proof. now rewrite nth_error_app2, Nat.sub_diag by lia. Qed.

Lemma before_indices {A : Type} (a b : A) (l : list A) :
  before a b l ->
  exists i j,
    (i < j)%nat /\ nth_error l i = Some a /\ nth_error l j = Some b.
Proof.
  intros (l1 & l2 & l3 & ->).
  exists (List.length l1), (List.length (l1 ++ a :: l2)).
  split; [rewrite length_app; cbn [List.length]; lia|].
  split; [apply nth_error_middle|].
  rewrite app_comm_cons, app_assoc. apply nth_error_middle.
Qed.

(** In a list without repeated names, two elements cannot occur in both
    orders. *)
Lemma before_not_swapped {A B : Type} (f : A -> B) (l : list A)
    (a b a' b' : A) :
  NoDup (map f l) -> before a b l -> before b' a' l ->
  f a = f a' -> f b = f b' -> False.
Proof.
  intros Hnd (l1 & l2 & l3 & E1) (m1 & m2 & m3 & E2) Ha Hb.
  pose proof (proj1 (NoDup_nth_error (map f l)) Hnd) as Hinj.
  assert (Ia : nth_error (map f l) (List.length l1) = Some (f a)).
  { rewrite nth_error_map, E1, nth_error_middle. reflexivity. }
  assert (Ib : nth_error (map f l) (List.length (l1 ++ a :: l2)) = Some (f b)).
  { rewrite nth_error_map, E1, app_comm_cons, app_assoc, nth_error_middle.
    reflexivity. }
  assert (Ib' : nth_error (map f l) (List.length m1) = Some (f b')).
  { rewrite nth_error_map, E2, nth_error_middle. reflexivity. }
  assert (Ia' : nth_error (map f l) (List.length (m1 ++ b' :: m2))
                = Some (f a')).
  { rewrite nth_error_map, E2, app_comm_cons, app_assoc, nth_error_middle.
    reflexivity. }
  assert (Hlen : List.length (map f l)
                 = (List.length l1
                    + S (List.length l2 + S (List.length l3)))%nat).
  { rewrite length_map, E1, !length_app. cbn [List.length].
    rewrite length_app. reflexivity. }
  assert (Ea : List.length l1 = List.length (m1 ++ b' :: m2)).
  { apply Hinj; [lia|]. rewrite Ia, Ia'. now f_equal. }
  assert (Eb : List.length (l1 ++ a :: l2) = List.length m1).
  { apply Hinj; [|rewrite Ib, Ib'; now f_equal].
    rewrite Hlen, length_app. cbn [List.length]. lia. }
  rewrite length_app in Ea, Eb. cbn [List.length] in Ea, Eb. lia.
Qed.

(** C9, amended.  At every time step the screener visits each pair of
    places (i, j) of the input list with i < j exactly once, and each visit
    appends at most one event.  Every event of the output names the objects
    of such a visit, the earlier object of the input first, so that no
    event is produced for two places in the order (j, i); and when the
    objects of the input carry pairwise distinct names the output never
    holds both an (A, B) event and a (B, A) event. *)
Theorem C9_each_pair_once {ext : Externals} (start_time : datetime)
    (satellites : list Satellite) (threshold_km : Q)
    (duration_hours step_minutes : Z) :
  (forall step,
     step_events satellites threshold_km start_time step_minutes step
     = flat_map
         (fun ij =>
            match nth_error satellites (fst ij), nth_error satellites (snd ij)
            with
            | Some a, Some b =>
                candidate threshold_km start_time
                  (start_time + minutes (step * step_minutes)) a b
            | _, _ => []
            end)
         (index_pairs (List.length satellites))) /\
  NoDup (index_pairs (List.length satellites)) /\
  (forall i j,
     In (i, j) (index_pairs (List.length satellites))
     <-> (i < j < List.length satellites)%nat) /\
  (forall t a b,
     (List.length (candidate threshold_km start_time t a b) <= 1)%nat) /\
  (forall evs e,
     find_conjunctions start_time satellites threshold_km duration_hours
       step_minutes = Returns evs ->
     In e evs ->
     exists step i j a b,
       0 <= step < Z.quot (duration_hours * 60) step_minutes /\
       (i < j)%nat /\
       nth_error satellites i = Some a /\ nth_error satellites j = Some b /\
       In e (candidate threshold_km start_time
               (start_time + minutes (step * step_minutes)) a b) /\
       object1 e = name a /\ object2 e = name b /\
       time e = start_time + minutes (step * step_minutes)) /\
  (forall evs e1 e2,
     find_conjunctions start_time satellites threshold_km duration_hours
       step_minutes = Returns evs ->
     NoDup (map name satellites) ->
     In e1 evs -> In e2 evs ->
     ~ (object1 e1 = object2 e2 /\ object2 e1 = object1 e2)).
Proof.
  split.
  { intros step.
    now rewrite step_events_pair_loop, pair_loop_index_pairs. }
  split; [apply NoDup_index_pairs|].
  split; [intros i j; apply in_index_pairs|].
  split; [intros t a b; apply candidate_length|].
  split.
  { intros evs e Hrun Hin.
    apply find_conjunctions_inv in Hrun as [_ ->].
    apply in_sort_by, in_emitted in Hin as (step & a & b & Hstep & Hab & He).
    destruct (before_indices a b satellites Hab) as (i & j & Hij & Hi & Hj).
    exists step, i, j, a, b.
    repeat (split; [assumption|]).
    apply in_candidate in He as (pa & pb & Ha & Hb & _ & ->).
    apply position_entry_some in Ha as (Na & _), Hb as (Nb & _).
    now repeat split. }
  intros evs e1 e2 Hrun Hnd H1 H2 [E12 E21].
  apply (in_find_conjunctions _ _ _ _ _ _ e1 Hrun) in H1
    as (s1 & a1 & b1 & pa1 & pb1 & _ & Hab1 & Ha1 & Hb1 & _ & ->).
  apply (in_find_conjunctions _ _ _ _ _ _ e2 Hrun) in H2
    as (s2 & a2 & b2 & pa2 & pb2 & _ & Hab2 & Ha2 & Hb2 & _ & ->).
  cbn [object1 object2] in E12, E21.
  apply position_entry_some in Ha1 as (Na1 & _), Hb1 as (Nb1 & _),
      Ha2 as (Na2 & _), Hb2 as (Nb2 & _).
  apply (before_not_swapped name satellites a1 b1 b2 a2 Hnd Hab1 Hab2);
    congruence.
Qed.

(** C9, as stated, fails on an input that lists an object twice, as a
    catalogue concatenated from several sources does: the two places of
    the object make two pairs with every object between them.  With X, Y
    and X again at one place the pair of X and Y is evaluated twice and
    gives an (X, Y) event and a (Y, X) event at the same instant, and X
    gives an event with itself. *)
Lemma C9_repeated_object_counterexample :
  exists evs e1 e2,
    find_conjunctions (ext := Toy.externals) 0
      [Toy.sat "X" "1 A"; Toy.sat "Y" "1 A"; Toy.sat "X" "1 A"] 1 1 60
    = Returns evs /\
    map (fun e => (object1 e, object2 e, time e)) evs
    = [("X", "Y", 0); ("X", "X", 0); ("Y", "X", 0)]%string /\
    In e1 evs /\ In e2 evs /\
    object1 e1 = object2 e2 /\ object2 e1 = object1 e2 /\
    time e1 = time e2.
Proof.
  eexists.
  exists {| object1 := "X"; object2 := "Y"; distance_km := 0%Q; time := 0;
            time_from_now := 0; altitude1_km := 629%Q;
            altitude2_km := 629%Q |}.
  exists {| object1 := "Y"; object2 := "X"; distance_km := 0%Q; time := 0;
            time_from_now := 0; altitude1_km := 629%Q;
            altitude2_km := 629%Q |}.
  split; [vm_compute; reflexivity|]. split; [reflexivity|].
  split; [left; reflexivity|]. split; [right; right; left; reflexivity|].
  repeat split.
Qed.

(** Three objects with distinct names at one place: the events (A, B),
    (A, C) and (B, C); the first and the last are not each other's
    mirror image. *)
Lemma C9_each_pair_once_witness :
  exists evs e1 e2,
    find_conjunctions (ext := Toy.externals) 0
      [Toy.sat "A" "1 A"; Toy.sat "B" "1 A"; Toy.sat "C" "1 A"] 1 1 60
    = Returns evs /\
    NoDup (map name [Toy.sat "A" "1 A"; Toy.sat "B" "1 A"; Toy.sat "C" "1 A"])
    /\
    evs = [e1; {| object1 := "A"; object2 := "C"; distance_km := 0%Q;
                  time := 0; time_from_now := 0; altitude1_km := 629%Q;
                  altitude2_km := 629%Q |}; e2] /\
    ~ (object1 e1 = object2 e2 /\ object2 e1 = object1 e2).
Proof.
  eexists. eexists. eexists.
  split; [vm_compute; reflexivity|].
  assert (Hnd : NoDup (map name [Toy.sat "A" "1 A"; Toy.sat "B" "1 A";
                                 Toy.sat "C" "1 A"])).
  { cbn [map name Toy.sat]. repeat constructor; cbn; intuition discriminate. }
  split; [exact Hnd|]. split; [reflexivity|].
  apply (proj2 (proj2 (proj2 (proj2 (proj2
           (C9_each_pair_once (ext := Toy.externals) 0
              [Toy.sat "A" "1 A"; Toy.sat "B" "1 A"; Toy.sat "C" "1 A"]
              1 1 60))))) _ _ _ ltac:(vm_compute; reflexivity) Hnd).
  - now left.
  - now right; right; left.
Defined.

(** ** The order of the output *)

Lemma StronglySorted_before {A : Type} (R : A -> A -> Prop) (a b : A)
    (l : list A) :
  StronglySorted R l -> before a b l -> R a b.
Proof.
  intros Hs (l1 & l2 & l3 & ->).
  induction l1 as [|x l1 IH]; cbn [app] in Hs;
    apply StronglySorted_inv in Hs as [Hs Hall].
  - rewrite Forall_forall in Hall. apply Hall.
    apply in_or_app. right. now left.
  - now apply IH.
Qed.

Lemma StronglySorted_app {A : Type} (R : A -> A -> Prop) (l1 l2 : list A) :
  StronglySorted R l1 -> StronglySorted R l2 ->
  (forall a b, In a l1 -> In b l2 -> R a b) ->
  StronglySorted R (l1 ++ l2).
Proof.
  induction 1 as [|x l1 Hs IH Hx]; intros H2 H12; [exact H2|].
  cbn [app]. constructor.
  - apply IH; [exact H2|]. intros a b Ha. apply H12. now right.
  - apply Forall_app. split; [exact Hx|].
    apply Forall_forall. intros b Hb. apply H12; [now left | exact Hb].
Qed.

Lemma StronglySorted_all_related {A : Type} (R : A -> A -> Prop)
    (l : list A) :
  (forall a b, In a l -> In b l -> R a b) -> StronglySorted R l.
Proof.
  induction l as [|x l IH]; intros H; constructor.
  - apply IH. intros a b Ha Hb. apply H; now right.
  - apply Forall_forall. intros b Hb. apply H; [now left | now right].
Qed.

Lemma range_sorted (n : Z) : StronglySorted Z.le (range n).
Proof.
  unfold range. generalize (Z.to_nat n) as m, 0%nat as k.
  induction m as [|m IH]; intros k; cbn [seq map]; constructor.
  - apply IH.
  - apply Forall_forall. intros x Hx.
    apply in_map_iff in Hx as (j & <- & Hj). apply in_seq in Hj. lia.
Qed.

Section Order.

Context {ext : Externals}.

Lemma step_events_time (satellites : list Satellite) (threshold_km : Q)
    (start_time : datetime) (step_minutes step : Z) (e : Event) :
  In e (step_events satellites threshold_km start_time step_minutes step) ->
  time e = start_time + minutes (step * step_minutes).
Proof.
  rewrite step_events_candidates. intros H.
  apply in_flat_map in H as ([a b] & _ & H).
  now apply in_candidate in H as (pa & pb & _ & _ & _ & ->).
Qed.

(** With a positive step the loops emit the events in ascending time. *)
Lemma emitted_times_ascending (start_time : datetime)
    (satellites : list Satellite) (threshold_km : Q) (steps step_minutes : Z) :
  0 < step_minutes ->
  StronglySorted (fun e1 e2 => time e1 <= time e2)
    (emitted start_time satellites threshold_km steps step_minutes).
Proof.
  intros Hs. unfold emitted.
  pose proof (range_sorted steps) as Hr.
  induction Hr as [|step l Hl IH Hstep]; cbn [flat_map]; [constructor|].
  apply StronglySorted_app; [|exact IH|].
  - apply StronglySorted_all_related. intros a b Ha Hb.
    apply step_events_time in Ha, Hb. rewrite Ha, Hb. apply Z.le_refl.
  - intros a b Ha Hb. apply step_events_time in Ha.
    apply in_flat_map in Hb as (step' & Hin & Hb).
    apply step_events_time in Hb. rewrite Ha, Hb.
    rewrite Forall_forall in Hstep. specialize (Hstep _ Hin).
    unfold minutes. nia.
Qed.

End Order.

(** C3, as stated, fails on the last tie-break: three objects at one place,
    given in the order C, B, A, come out as (C, B), (C, A), (B, A), the order
    of the input and not the ascending order of the names; given in the
    order A, B, C they come out as (A, B), (A, C), (B, C), so that the
    descending order of the names does not hold either. *)
Lemma C3_ties_are_not_ordered_by_name :
  (exists evs,
     find_conjunctions (ext := Toy.externals) 0
       [Toy.sat "C" "1 A"; Toy.sat "B" "1 A"; Toy.sat "A" "1 A"] 1 1 60
     = Returns evs /\
     map (fun e => (object1 e, object2 e, distance_km e, time e)) evs
     = [("C", "B", 0%Q, 0); ("C", "A", 0%Q, 0); ("B", "A", 0%Q, 0)]%string /\
     sorted_by (tie_break_leb String.leb) evs = false) /\
  (exists evs,
     find_conjunctions (ext := Toy.externals) 0
       [Toy.sat "A" "1 A"; Toy.sat "B" "1 A"; Toy.sat "C" "1 A"] 1 1 60
     = Returns evs /\
     map (fun e => (object1 e, object2 e, distance_km e, time e)) evs
     = [("A", "B", 0%Q, 0); ("A", "C", 0%Q, 0); ("B", "C", 0%Q, 0)]%string /\
     sorted_by (tie_break_leb (fun x y => String.leb y x)) evs = false).
Proof.
  split; eexists; (split; [vm_compute; reflexivity|]);
    split; vm_compute; reflexivity.
Qed.

(** No order on names at all accounts for both runs: an order that sorts
    the two outputs puts "A" before "B" and "B" before "A". *)
Lemma ties_follow_no_name_order (le : string -> string -> bool)
    (evs1 evs2 : list Event) :
  find_conjunctions (ext := Toy.externals) 0
    [Toy.sat "C" "1 A"; Toy.sat "B" "1 A"; Toy.sat "A" "1 A"] 1 1 60
  = Returns evs1 ->
  find_conjunctions (ext := Toy.externals) 0
    [Toy.sat "A" "1 A"; Toy.sat "B" "1 A"; Toy.sat "C" "1 A"] 1 1 60
  = Returns evs2 ->
  (forall x y, le x y = true -> le y x = true -> x = y) ->
  sorted_by (tie_break_leb le) evs1 = true ->
  sorted_by (tie_break_leb le) evs2 = true ->
  False.
Proof.
  intros H1 H2 Hanti S1 S2.
  vm_compute in H1, H2. injection H1 as <-. injection H2 as <-.
  cbn [sorted_by forallb] in S1, S2.
  unfold tie_break_leb, names_leb in S1, S2.
  cbn [distance_km time object1 object2] in S1, S2.
  change (Qltb 0 0) with false in S1, S2.
  change (0 <? 0) with false in S1, S2. cbv iota in S1, S2.
  assert (HAB : le "A"%string "B"%string = true).
  { destruct (le "A"%string "B"%string); [reflexivity|].
    rewrite ?andb_false_r in S2. cbn in S2.
    destruct (le "A"%string "A"%string), (le "B"%string "C"%string);
      discriminate. }
  assert (HBA : le "B"%string "A"%string = true).
  { destruct (le "B"%string "A"%string); [reflexivity|].
    destruct (le "C"%string "C"%string); cbn in S1; discriminate. }
  specialize (Hanti _ _ HAB HBA). discriminate.
Qed.

(** C3, amended.  The output is the list of emitted events in ascending
    order of the stored distance, and events with equal distances stay in
    the order in which the loops emitted them: by ascending time when the
    step is positive, and within one time step in the order of the input.
    In particular events with distances 12.3, 4.0 and 4.0, the first 4.0
    emitted before the second, come out as 4.0 (first), 4.0 (second),
    12.3. *)
Theorem C3_sorted_by_distance_stable {ext : Externals} (start_time : datetime)
    (satellites : list Satellite) (threshold_km : Q)
    (duration_hours step_minutes : Z) (evs : list Event) :
  find_conjunctions start_time satellites threshold_km duration_hours
    step_minutes = Returns evs ->
  let raw :=
    emitted start_time satellites threshold_km
      (Z.quot (duration_hours * 60) step_minutes) step_minutes in
  StronglySorted (key_le distance_km) evs /\
  Permutation evs raw /\
  raw
  = flat_map
      (fun step =>
         flat_map
           (fun ab =>
              candidate threshold_km start_time
                (start_time + minutes (step * step_minutes)) (fst ab) (snd ab))
           (pairs_of satellites))
      (range (Z.quot (duration_hours * 60) step_minutes)) /\
  (forall e1 e2,
     before e1 e2 evs -> (distance_km e1 == distance_km e2)%Q ->
     before e1 e2 raw) /\
  (0 < step_minutes ->
   forall e1 e2,
     before e1 e2 evs -> (distance_km e1 == distance_km e2)%Q ->
     time e1 <= time e2) /\
  (forall e1 e2 e3,
     distance_km e1 = (123 # 10)%Q -> distance_km e2 = 4%Q ->
     distance_km e3 = 4%Q ->
     sort_by distance_km [e1; e2; e3] = [e2; e3; e1] /\
     sort_by distance_km [e2; e1; e3] = [e2; e3; e1] /\
     sort_by distance_km [e2; e3; e1] = [e2; e3; e1]).
Proof.
  intros Hrun raw. apply find_conjunctions_inv in Hrun as [Hs ->].
  fold raw.
  split; [apply sort_by_sorted|].
  split; [apply sort_by_perm|].
  split.
  { unfold raw, emitted. apply flat_map_ext. intros step.
    apply step_events_candidates. }
  split; [intros e1 e2 Hb Hd; now apply (sort_by_ties_inv distance_km)|].
  split.
  - intros Hpos e1 e2 Hb Hd.
    apply (sort_by_ties_inv distance_km) in Hb; [|exact Hd].
    apply (StronglySorted_before (fun x y => time x <= time y) e1 e2 raw);
      [|exact Hb].
    now apply emitted_times_ascending.
  - intros e1 e2 e3 H1 H2 H3.
    assert (E1 : Qltb 4 4 = false) by reflexivity.
    assert (E2 : Qltb 4 (123 # 10) = true) by reflexivity.
    assert (E3 : Qltb (123 # 10) 4 = false) by reflexivity.
    unfold sort_by. cbn [fold_right].
    repeat (progress (cbn [insert_by]; rewrite ?H1, ?H2, ?H3, ?E1, ?E2, ?E3)).
    auto.
Qed.

(** The run of the design document's example on the catalogue: distances
    12.3 and 4.0 at the first instant and 4.0 at the second. *)
Lemma C3_sorted_by_distance_stable_witness :
  exists evs,
    find_conjunctions (ext := Toy.externals) 0
      [Toy.sat "A" "1 A"; Toy.sat "B" "1 B"; Toy.sat "C" "1 C"] (125 # 10) 1
      30 = Returns evs /\
    map (fun e => (distance_km e, time e)) evs
    = [(4%Q, 0); (4%Q, 1800000000); ((123 # 10)%Q, 0)] /\
    StronglySorted (key_le distance_km) evs /\
    (forall e1 e2,
       before e1 e2 evs -> (distance_km e1 == distance_km e2)%Q ->
       time e1 <= time e2).
Proof.
  eexists. split; [vm_compute; reflexivity|]. split; [reflexivity|].
  match goal with
  | |- StronglySorted _ ?evs /\ _ =>
      assert (Hrun : find_conjunctions (ext := Toy.externals) 0
                       [Toy.sat "A" "1 A"; Toy.sat "B" "1 B";
                        Toy.sat "C" "1 C"] (125 # 10) 1 30 = Returns evs)
        by (vm_compute; reflexivity)
  end.
  pose proof (C3_sorted_by_distance_stable (ext := Toy.externals) 0
                [Toy.sat "A" "1 A"; Toy.sat "B" "1 B"; Toy.sat "C" "1 C"]
                (125 # 10) 1 30 _ Hrun) as (Hsorted & _ & _ & _ & Htime & _).
  split; [exact Hsorted|]. apply Htime. reflexivity.
Defined.

(** ** Rounded values *)








(** * Further properties *)

(** ** Colours of the risk tiers *)

(** X1.  Every tier the classifier returns has a colour of its own in
    [get_risk_color]: never the white default, and two distances get the
    same colour only if they get the same tier. *)
Theorem X1_every_tier_has_its_colour (d1 d2 : float) :
  get_risk_color (risk_level (assess_collision_risk d1)) <> "#FFFFFF"%string /\
  (get_risk_color (risk_level (assess_collision_risk d1))
   = get_risk_color (risk_level (assess_collision_risk d2)) ->
   assess_collision_risk d1 = assess_collision_risk d2).
Proof.
  unfold assess_collision_risk.
  repeat match goal with
    | |- context [float_ltb ?a ?b] => destruct (float_ltb a b)
    end; cbn; split; try discriminate; try reflexivity.
Qed.

(** ** More on the screener *)

Section ScreenerMore.

Context {ext : Externals}.

(** X2.  Raising the threshold only adds events: every event of a run is an
    event of the run on the same input with a larger threshold. *)
Theorem X2_threshold_monotone (start_time : datetime)
    (satellites : list Satellite) (threshold1 threshold2 : Q)
    (duration_hours step_minutes : Z) (evs1 evs2 : list Event) :
  (threshold1 <= threshold2)%Q ->
  find_conjunctions start_time satellites threshold1 duration_hours
    step_minutes = Returns evs1 ->
  find_conjunctions start_time satellites threshold2 duration_hours
    step_minutes = Returns evs2 ->
  incl evs1 evs2.
Proof.
  intros Hle H1 H2 e He.
  apply (in_find_conjunctions _ _ _ _ _ _ e H1) in He
    as (step & a & b & pa & pb & Hstep & Hab & Ha & Hb & Hlt & ->).
  apply (in_find_conjunctions _ _ _ _ _ _ _ H2).
  exists step, a, b, pa, pb. cbv zeta.
  repeat (split; [assumption|]). split; [|reflexivity].
  eapply Qlt_le_trans; eassumption.
Qed.

(** X3.  With a positive duration and a positive step every event lies
    inside the horizon: its time is a grid instant, at or after the start
    and strictly before start + duration, and [time_from_now] is its offset
    from the start. *)
Theorem X3_events_within_horizon (start_time : datetime)
    (satellites : list Satellite) (threshold_km : Q)
    (duration_hours step_minutes : Z) (evs : list Event) (e : Event) :
  0 < duration_hours -> 0 < step_minutes ->
  find_conjunctions start_time satellites threshold_km duration_hours
    step_minutes = Returns evs ->
  In e evs ->
  start_time <= time e < start_time + duration_hours * 3600000000 /\
  time_from_now e = time e - start_time /\
  (exists i, 0 <= i /\ time e = start_time + i * step_minutes * 60000000).
Proof.
  intros Hd Hs Hrun Hin.
  apply (in_find_conjunctions _ _ _ _ _ _ e Hrun) in Hin
    as (step & a & b & pa & pb & Hstep & _ & _ & _ & _ & ->).
  cbn [time time_from_now]. unfold minutes.
  rewrite Z.quot_div_nonneg in Hstep by lia.
  pose proof (Z.mul_div_le (duration_hours * 60) step_minutes Hs) as Hfloor.
  split; [nia|]. split; [reflexivity|].
  exists step. split; [lia | reflexivity].
Qed.


Lemma pairs_of_length {A : Type} (l : list A) :
  (2 * List.length (pairs_of l)
   = List.length l * (List.length l - 1))%nat.
Proof.
  induction l as [|x l IH]; [reflexivity|].
  cbn [pairs_of List.length]. rewrite length_app, length_map. nia.
Qed.

Lemma flat_map_length_le {A B : Type} (f : A -> list B) (l : list A)
    (k : nat) :
  (forall x, (List.length (f x) <= k)%nat) ->
  (List.length (flat_map f l) <= List.length l * k)%nat.
Proof.
  intros H. induction l as [|x l IH]; [cbn; lia|].
  cbn [flat_map List.length]. rewrite length_app.
  specialize (H x). lia.
Qed.

Lemma emitted_length (start_time : datetime) (satellites : list Satellite)
    (threshold_km : Q) (steps step_minutes : Z) :
  (List.length (emitted start_time satellites threshold_km steps step_minutes)
   <= Z.to_nat steps * List.length (pairs_of satellites))%nat.
Proof.
  unfold emitted. rewrite <- (range_length steps).
  apply flat_map_length_le. intros step.
  rewrite step_events_candidates.
  rewrite <- (Nat.mul_1_r (List.length (pairs_of satellites))).
  apply flat_map_length_le. intros [a b]. apply candidate_length.
Qed.

(** X4.  A run over n objects and T time steps returns at most
    T * n * (n - 1) / 2 events; in particular none for fewer than two
    objects. *)
Theorem X4_event_count_bound (start_time : datetime)
    (satellites : list Satellite) (threshold_km : Q)
    (duration_hours step_minutes : Z) (evs : list Event) :
  find_conjunctions start_time satellites threshold_km duration_hours
    step_minutes = Returns evs ->
  (2 * List.length evs
   <= Z.to_nat (Z.quot (duration_hours * 60) step_minutes)
      * (List.length satellites * (List.length satellites - 1)))%nat /\
  ((List.length satellites <= 1)%nat -> evs = []).
Proof.
  intros Hrun. apply find_conjunctions_inv in Hrun as [_ ->].
  assert (Hlen : (2 * List.length
                        (sort_by distance_km
                           (emitted start_time satellites threshold_km
                              (Z.quot (duration_hours * 60) step_minutes)
                              step_minutes))
                  <= Z.to_nat (Z.quot (duration_hours * 60) step_minutes)
                     * (List.length satellites
                        * (List.length satellites - 1)))%nat).
  { rewrite (Permutation_length (sort_by_perm distance_km _)).
    pose proof (emitted_length start_time satellites threshold_km
                  (Z.quot (duration_hours * 60) step_minutes) step_minutes).
    pose proof (pairs_of_length satellites). nia. }
  split; [exact Hlen|].
  intros Hn. apply length_zero_iff_nil.
  assert (List.length satellites * (List.length satellites - 1) = 0)%nat
    by nia.
  nia.
Qed.

(** X5.  A run returns no event exactly when no two objects sampled at the
    same grid instant are closer than the threshold. *)
Theorem X5_no_event_iff_all_apart (start_time : datetime)
    (satellites : list Satellite) (threshold_km : Q)
    (duration_hours step_minutes : Z) (evs : list Event) :
  find_conjunctions start_time satellites threshold_km duration_hours
    step_minutes = Returns evs ->
  (evs = [] <->
   forall step a b pa pb,
     0 <= step < Z.quot (duration_hours * 60) step_minutes ->
     before a b satellites ->
     position_entry a (start_time + minutes (step * step_minutes)) = Some pa ->
     position_entry b (start_time + minutes (step * step_minutes)) = Some pb ->
     (threshold_km <= calculate_distance (pe_position pa) (pe_position pb))%Q).
Proof.
  intros Hrun. split.
  - intros -> step a b pa pb Hstep Hab Ha Hb.
    apply Qnot_lt_le. intros Hlt.
    eapply in_nil.
    apply (in_find_conjunctions _ _ _ _ _ _ _ Hrun).
    exists step, a, b, pa, pb. cbv zeta. now repeat split.
  - intros Hfar. destruct evs as [|e evs]; [reflexivity|]. exfalso.
    assert (Hin : In e (e :: evs)) by now left.
    apply (in_find_conjunctions _ _ _ _ _ _ e Hrun) in Hin
      as (step & a & b & pa & pb & Hstep & Hab & Ha & Hb & Hlt & _).
    apply (Qlt_not_le _ _ Hlt). now apply (Hfar step a b pa pb).
Qed.

(** The stored distance of an event does not exceed a threshold given in
    whole hundredths. *)
Lemma stored_distance_le_threshold (start_time : datetime)
    (satellites : list Satellite) (threshold_km : Q)
    (duration_hours step_minutes : Z) (evs : list Event) (e : Event) (k : Z) :
  find_conjunctions start_time satellites threshold_km duration_hours
    step_minutes = Returns evs ->
  In e evs -> (threshold_km == k # 100)%Q ->
  (distance_km e <= threshold_km)%Q.
Proof.
  intros Hrun Hin Hk.
  apply (in_find_conjunctions _ _ _ _ _ _ e Hrun) in Hin
    as (step & a & b & pa & pb & _ & _ & _ & _ & Hlt & ->).
  cbn [distance_km].
  apply (Qle_trans _ (py_round threshold_km 2)).
  - apply py_round_mono, Qlt_le_weak, Hlt.
  - rewrite (py_round_2_hundredths threshold_km k Hk). apply Qle_refl.
Qed.

(** X6.  Classifying the stored distance of an event, as the dashboard
    does, never gives a milder tier than classifying the threshold of the
    run, when the threshold is a whole number of hundredths: the score of
    the event is at least the score of the threshold. *)
Theorem X6_event_at_least_as_severe_as_threshold (start_time : datetime)
    (satellites : list Satellite) (threshold_km : Q)
    (duration_hours step_minutes : Z) (evs : list Event) (e : Event) (k : Z) :
  find_conjunctions start_time satellites threshold_km duration_hours
    step_minutes = Returns evs ->
  In e evs -> (threshold_km == k # 100)%Q ->
  risk_score (assess_collision_risk (Finite threshold_km))
  <= risk_score (assess_collision_risk (Finite (distance_km e))).
Proof.
  intros Hrun Hin Hk. apply risk_score_monotone. cbn [float_leb].
  apply Qle_bool_iff.
  exact (stored_distance_le_threshold _ _ _ _ _ _ e k Hrun Hin Hk).
Qed.


Lemma NoDup_flat_map {A B : Type} (f : A -> list B) (l : list A) :
  NoDup l ->
  (forall x, In x l -> NoDup (f x)) ->
  (forall x y z, In x l -> In y l -> x <> y -> In z (f x) -> ~ In z (f y)) ->
  NoDup (flat_map f l).
Proof.
  induction 1 as [|x l Hx Hl IH]; intros Hf Hdisj; cbn [flat_map];
    [constructor|].
  apply NoDup_app.
  - apply Hf. now left.
  - apply IH.
    + intros y Hy. apply Hf. now right.
    + intros y y' z Hy Hy'. apply Hdisj; now right.
  - intros z Hz Hz'. apply in_flat_map in Hz' as (y & Hy & Hz').
    apply (Hdisj x y z); [now left | now right | | exact Hz | exact Hz'].
    intros ->. contradiction.
Qed.

Lemma map_over_flat_map {A B C : Type} (g : B -> C) (f : A -> list B)
    (l : list A) :
  map g (flat_map f l) = flat_map (fun x => map g (f x)) l.
Proof.
  induction l as [|x l IH]; [reflexivity|].
  cbn [flat_map]. now rewrite map_app, IH.
Qed.

Lemma in_pairs_of_members {A : Type} (a b : A) (l : list A) :
  In (a, b) (pairs_of l) -> In a l /\ In b l.
Proof. intros H. now apply before_in, pairs_of_in. Qed.

Lemma NoDup_pairs_of {A : Type} (l : list A) :
  NoDup l -> NoDup (pairs_of l).
Proof.
  induction 1 as [|x l Hx Hl IH]; cbn [pairs_of]; [constructor|].
  apply NoDup_app.
  - apply NoDup_map_inj; [|exact Hl]. now intros y y' [= ->].
  - exact IH.
  - intros [a b] H1 H2. apply in_map_iff in H1 as (y & [= <- <-] & _).
    apply in_pairs_of_members in H2 as [H2 _]. contradiction.
Qed.

Lemma NoDup_map_injective {A B : Type} (f : A -> B) (l : list A) (a b : A) :
  NoDup (map f l) -> In a l -> In b l -> f a = f b -> a = b.
Proof.
  induction l as [|x l IH]; [easy|]. cbn [map]. intros Hnd Ha Hb E.
  apply NoDup_cons_iff in Hnd as [Hx Hnd].
  destruct Ha as [->|Ha], Hb as [->|Hb]; trivial.
  - exfalso. apply Hx. rewrite E. now apply in_map.
  - exfalso. apply Hx. rewrite <- E. now apply in_map.
  - now apply IH.
Qed.

Lemma NoDup_range (n : Z) : NoDup (range n).
Proof.
  unfold range. apply NoDup_map_inj; [|apply seq_NoDup].
  intros x y H. lia.
Qed.

Lemma NoDup_short {A : Type} (l : list A) :
  (List.length l <= 1)%nat -> NoDup l.
Proof.
  destruct l as [|x [|y l]]; cbn; intros H; try lia; repeat constructor.
  easy.
Qed.

Lemma candidate_names (threshold_km : Q) (start_time current_time : datetime)
    (a b : Satellite) (e : Event) :
  In e (candidate threshold_km start_time current_time a b) ->
  object1 e = name a /\ object2 e = name b.
Proof.
  intros H. apply in_candidate in H as (pa & pb & Ha & Hb & _ & ->).
  apply position_entry_some in Ha as (Na & _), Hb as (Nb & _).
  now split.
Qed.

(** X7.  When the objects carry distinct names, no event occurs twice in the
    output: two entries of the list differ in a participant or in the
    time. *)
Theorem X7_no_duplicate_events (start_time : datetime)
    (satellites : list Satellite) (threshold_km : Q)
    (duration_hours step_minutes : Z) (evs : list Event) :
  NoDup (map name satellites) ->
  find_conjunctions start_time satellites threshold_km duration_hours
    step_minutes = Returns evs ->
  NoDup evs /\
  NoDup (map (fun e => (object1 e, object2 e, time e)) evs).
Proof.
  intros Hnames Hrun. apply find_conjunctions_inv in Hrun as [Hs ->].
  set (raw := emitted start_time satellites threshold_km
                (Z.quot (duration_hours * 60) step_minutes) step_minutes).
  assert (Hraw : NoDup (map (fun e => (object1 e, object2 e, time e)) raw)).
  { unfold raw, emitted. rewrite map_over_flat_map. apply NoDup_flat_map.
    - apply NoDup_range.
    - intros step _. rewrite step_events_candidates, map_over_flat_map.
      apply NoDup_flat_map.
      + apply NoDup_pairs_of. eapply NoDup_map_inv, Hnames.
      + intros [a b] _. apply NoDup_short. rewrite length_map.
        apply candidate_length.
      + intros [a b] [a' b'] z Hab Hab' Hne Hz Hz'.
        apply in_map_iff in Hz as (e & <- & He).
        apply in_map_iff in Hz' as (e' & [= E1 E2 _] & He').
        apply candidate_names in He as [N1 N2], He' as [N1' N2'].
        apply in_pairs_of_members in Hab as [Ia Ib], Hab' as [Ia' Ib'].
        cbn [fst snd] in N1, N2, N1', N2'. apply Hne. f_equal.
        * apply (NoDup_map_injective name satellites); trivial. congruence.
        * apply (NoDup_map_injective name satellites); trivial. congruence.
    - intros step step' z _ _ Hne Hz Hz'.
      apply in_map_iff in Hz as (e & <- & He).
      apply in_map_iff in Hz' as (e' & [= _ _ Et] & He').
      apply step_events_time in He, He'. rewrite He, He' in Et.
      apply Hne. unfold minutes in Et. nia. }
  assert (Hperm : Permutation (sort_by distance_km raw) raw)
    by apply sort_by_perm.
  assert (Hkeys : NoDup (map (fun e => (object1 e, object2 e, time e))
                           (sort_by distance_km raw))).
  { eapply Permutation_NoDup; [|exact Hraw].
    apply Permutation_map. now symmetry. }
  split; [|exact Hkeys].
  eapply NoDup_map_inv, Hkeys.
Qed.

(** *** The distance and the order of the input *)

(** The square of a difference does not depend on its sign, as a fraction
    and not only as a number. *)
Lemma squared_difference_swap (a b : Q) : ((a - b) ^ 2 = (b - a) ^ 2)%Q.
Proof.
  destruct a as [an ad], b as [bn bd].
  unfold Qpower, Qpower_positive, pow_pos, Qminus, Qplus, Qopp, Qmult.
  cbn [Qnum Qden Pos.iter_op].
  f_equal; [lia | f_equal; apply Pos.mul_comm].
Qed.

Lemma squared_differences_swap (pos1 pos2 : list Q) :
  map (fun ab => ((fst ab - snd ab) ^ 2)%Q) (combine pos1 pos2)
  = map (fun ab => ((fst ab - snd ab) ^ 2)%Q) (combine pos2 pos1).
Proof.
  revert pos2. induction pos1 as [|a pos1 IH]; intros [|b pos2];
    cbn [combine map fst snd]; try reflexivity.
  now rewrite IH, squared_difference_swap.
Qed.

Lemma calculate_distance_swap (pos1 pos2 : list Q) :
  calculate_distance pos1 pos2 = calculate_distance pos2 pos1.
Proof.
  unfold calculate_distance. now rewrite squared_differences_swap.
Qed.

(** [zip] stops at the end of the shorter list. *)
Lemma combine_common {A B : Type} (l : list A) (l' : list B) :
  combine l l'
  = combine (firstn (Nat.min (List.length l) (List.length l')) l)
      (firstn (Nat.min (List.length l) (List.length l')) l').
Proof.
  revert l'. induction l as [|a l IH]; intros [|b l']; cbn; try reflexivity.
  now rewrite <- IH.
Qed.

(** X24.  [calculate_distance] is symmetric, whatever [numpy.sqrt] is, and
    it does not compare the lengths of the two positions: [zip] leaves the
    coordinates that one position has and the other lacks out of the sum,
    so that the distance is the distance of the positions cut to their
    common length. *)
Theorem X24_distance_symmetric_on_common_coordinates (pos1 pos2 : list Q) :
  calculate_distance pos1 pos2 = calculate_distance pos2 pos1 /\
  (let n := Nat.min (List.length pos1) (List.length pos2) in
   calculate_distance pos1 pos2
   = calculate_distance (firstn n pos1) (firstn n pos2)).
Proof.
  split; [apply calculate_distance_swap|].
  cbv zeta. unfold calculate_distance. now rewrite <- combine_common.
Qed.

Lemma before_cons {A : Type} (a b x : A) (l : list A) :
  before a b (x :: l) <-> (a = x /\ In b l) \/ before a b l.
Proof.
  split.
  - intros ([|y l1] & l2 & l3 & E); cbn [app] in E; injection E as E1 E2.
    + left. split; [congruence|]. rewrite E2. apply in_elt.
    + right. exists l1, l2, l3. exact E2.
  - intros [[-> Hb]|(l1 & l2 & l3 & ->)].
    + apply in_split in Hb as (l2 & l3 & ->). now exists [], l2, l3.
    + now exists (x :: l1), l2, l3.
Qed.

(** Two occurrences stay two occurrences when the list is reordered; which
    comes first may change. *)
Lemma before_Permutation {A : Type} (l l' : list A) :
  Permutation l l' ->
  forall a b, before a b l -> before a b l' \/ before b a l'.
Proof.
  induction 1 as [|x l l' HP IH|x y l|l l' l'' _ IH1 _ IH2]; intros a b H.
  - now destruct H as ([|? ?] & ? & ? & ?).
  - apply before_cons in H as [[-> Hb]|H].
    + left. apply before_cons. left. split; [reflexivity|].
      now apply (Permutation_in _ HP).
    + destruct (IH a b H) as [G|G]; [left|right]; apply before_cons;
        now right.
  - rewrite !before_cons in H. rewrite !before_cons. cbn [In] in *.
    intuition (subst; auto).
  - destruct (IH1 a b H) as [G|G].
    + apply IH2, G.
    + destruct (IH2 b a G) as [K|K]; [now right | now left].
Qed.

(** X25.  The order of the objects in the input decides only which of the
    two objects of an event is [object1]: every event of a run is an event
    of the run on the reordered input, as it is or with the two roles
    exchanged. *)
Theorem X25_input_order_only_exchanges_roles (start_time : datetime)
    (satellites satellites' : list Satellite) (threshold_km : Q)
    (duration_hours step_minutes : Z) (evs evs' : list Event) (e : Event) :
  Permutation satellites satellites' ->
  find_conjunctions start_time satellites threshold_km duration_hours
    step_minutes = Returns evs ->
  find_conjunctions start_time satellites' threshold_km duration_hours
    step_minutes = Returns evs' ->
  In e evs -> In e evs' \/ In (swapped e) evs'.
Proof.
  intros HP Hrun Hrun' He.
  apply (in_find_conjunctions _ _ _ _ _ _ _ Hrun) in He
    as (step & a & b & pa & pb & Hs & Hab & Ha & Hb & Hd & ->).
  destruct (before_Permutation _ _ HP a b Hab) as [G|G]; [left|right];
    apply (in_find_conjunctions _ _ _ _ _ _ _ Hrun').
  - exists step, a, b, pa, pb. repeat split; trivial; apply Hs.
  - exists step, b, a, pb, pa. cbv zeta.
    rewrite (calculate_distance_swap (pe_position pb) (pe_position pa)).
    repeat split; trivial; apply Hs.
Qed.

End ScreenerMore.

(** ** More on the sampler *)

Lemma range_sorted_lt (n : Z) : StronglySorted Z.lt (range n).
Proof.
  unfold range. generalize (Z.to_nat n) as m, 0%nat as k.
  induction m as [|m IH]; intros k; cbn [seq map]; constructor.
  - apply IH.
  - apply Forall_forall. intros x Hx.
    apply in_map_iff in Hx as (j & <- & Hj). apply in_seq in Hj. lia.
Qed.

Lemma StronglySorted_map {A B : Type} (R : A -> A -> Prop)
    (S : B -> B -> Prop) (f : A -> B) (l : list A) :
  (forall x y, R x y -> S (f x) (f y)) ->
  StronglySorted R l -> StronglySorted S (map f l).
Proof.
  intros Hf. induction 1 as [|x l Hl IH Hx]; cbn [map]; constructor.
  - exact IH.
  - apply Forall_map. eapply Forall_impl; [|exact Hx]. intros y. apply Hf.
Qed.

Lemma StronglySorted_filter {A : Type} (R : A -> A -> Prop) (p : A -> bool)
    (l : list A) :
  StronglySorted R l -> StronglySorted R (filter p l).
Proof.
  induction 1 as [|x l Hl IH Hx]; cbn [filter]; [constructor|].
  destruct (p x); [|exact IH].
  constructor; [exact IH|].
  apply Forall_forall. intros y Hy. apply filter_In in Hy as [Hy _].
  rewrite Forall_forall in Hx. now apply Hx.
Qed.

Lemma filter_length_le {A : Type} (p : A -> bool) (l : list A) :
  (List.length (filter p l) <= List.length l)%nat.
Proof.
  induction l as [|x l IH]; [cbn; lia|].
  cbn [filter]. destruct (p x); cbn [List.length]; lia.
Qed.

Section SamplerMore.

Context {ext : Externals}.

Lemma propagate_satellite_inv (now : datetime) (tle_data : Satellite)
    (start_time : option datetime) (duration_hours step_minutes : Z)
    (tr : Trajectory) :
  propagate_satellite now tle_data start_time duration_hours step_minutes
  = Returns tr ->
  step_minutes <> 0 /\
  exists satellite,
    twoline2rv (line1 tle_data) (line2 tle_data) = Returns satellite.
Proof.
  unfold propagate_satellite.
  destruct (twoline2rv (line1 tle_data) (line2 tle_data)) as [s|];
    cbn [bind]; [|discriminate].
  unfold step_count. destruct (Z.eqb_spec step_minutes 0) as [->|Hs];
    cbn [bind]; [discriminate|].
  intros _. split; [exact Hs|]. now exists s.
Qed.

(** X8.  A trajectory returned by the sampler has as many positions as
    times and at most as many as the grid has instants; every time is a
    grid instant of the requested horizon, and with a positive step the
    times are strictly ascending. *)
Theorem X8_trajectory_invariants (now : datetime) (tle_data : Satellite)
    (start_time : option datetime) (duration_hours step_minutes : Z)
    (tr : Trajectory) :
  propagate_satellite now tle_data start_time duration_hours step_minutes
  = Returns tr ->
  let t0 := match start_time with Some t => t | None => now end in
  let steps := Z.quot (duration_hours * 60) step_minutes in
  List.length (tr_positions tr) = List.length (tr_times tr) /\
  (List.length (tr_times tr) <= Z.to_nat steps)%nat /\
  (forall t, In t (tr_times tr) ->
     exists i, 0 <= i < steps /\ t = t0 + i * step_minutes * 60000000) /\
  (0 < step_minutes -> StronglySorted Z.lt (tr_times tr)).
Proof.
  intros Hrun t0 steps.
  destruct (propagate_satellite_inv _ _ _ _ _ _ Hrun) as (Hs & sat & Hp).
  rewrite (propagate_satellite_grid now tle_data start_time duration_hours
             step_minutes sat Hp Hs) in Hrun.
  injection Hrun as <-. cbn [tr_positions tr_times]. fold t0 steps.
  split; [now rewrite length_map|].
  split.
  { rewrite <- (time_grid_length t0 steps step_minutes).
    apply filter_length_le. }
  split.
  - intros t Ht. apply filter_In in Ht as [Ht _].
    unfold time_grid in Ht. apply in_map_iff in Ht as (i & <- & Hi).
    apply in_range in Hi. exists i. split; [exact Hi | reflexivity].
  - intros Hpos. apply StronglySorted_filter.
    unfold time_grid.
    apply (StronglySorted_map Z.lt); [|apply range_sorted_lt].
    intros x y Hxy. unfold minutes. nia.
Qed.

(** X9.  The sampler and the screener see the same positions: the k-th
    position of a trajectory is the position [get_current_position] returns
    for the same object at the k-th time, which is also the one the
    screener enters in its list. *)
Theorem X9_sampler_agrees_with_current_position (now now' : datetime)
    (tle_data : Satellite) (start_time : option datetime)
    (duration_hours step_minutes : Z) (tr : Trajectory) (k : nat)
    (t : datetime) (p : list Q) :
  propagate_satellite now tle_data start_time duration_hours step_minutes
  = Returns tr ->
  nth_error (tr_times tr) k = Some t ->
  nth_error (tr_positions tr) k = Some p ->
  (exists pos_data,
     get_current_position now' tle_data (Some t) = Returns (Some pos_data) /\
     pd_position pos_data = p /\ pd_time pos_data = t) /\
  (exists entry,
     position_entry tle_data t = Some entry /\ pe_position entry = p).
Proof.
  intros Hrun Ht Hp.
  destruct (propagate_satellite_inv _ _ _ _ _ _ Hrun) as (Hs & sat & Hparse).
  rewrite (propagate_satellite_grid now tle_data start_time duration_hours
             step_minutes sat Hparse Hs) in Hrun.
  injection Hrun as <-. cbn [tr_positions tr_times] in Ht, Hp.
  rewrite nth_error_map, Ht in Hp. cbn [option_map] in Hp.
  injection Hp as <-.
  apply nth_error_In, filter_In in Ht as [_ Hok].
  unfold sgp4_ok in Hok.
  unfold position_entry, get_current_position. rewrite Hparse. cbn [bind].
  destruct (sgp4_at sat t) as [[code pos] vel]. cbn [fst snd] in *.
  rewrite Hok. split; eexists; split; reflexivity || (split; reflexivity).
Qed.

Lemma propagate_satellite_given_start (now now' : datetime)
    (tle_data : Satellite) (t0 : datetime) (duration_hours step_minutes : Z) :
  propagate_satellite now tle_data (Some t0) duration_hours step_minutes
  = propagate_satellite now' tle_data (Some t0) duration_hours step_minutes.
Proof. reflexivity. Qed.

Lemma propagate_multiple_from_given_start (i j : nat)
    (now now' : nat -> datetime) (satellites : list Satellite)
    (t0 : datetime) (duration_hours step_minutes : Z) :
  propagate_multiple_from i now satellites (Some t0) duration_hours
    step_minutes
  = propagate_multiple_from j now' satellites (Some t0) duration_hours
      step_minutes.
Proof.
  revert i j. induction satellites as [|sat rest IH]; intros i j;
    [reflexivity|].
  cbn [propagate_multiple_from]. rewrite (IH (S i) (S j)).
  now rewrite (propagate_satellite_given_start (now i) (now' j)).
Qed.

Lemma propagate_multiple_from_app (i : nat) (now : nat -> datetime)
    (l1 l2 : list Satellite) (start_time : option datetime)
    (duration_hours step_minutes : Z) :
  propagate_multiple_from i now (l1 ++ l2) start_time duration_hours
    step_minutes
  = let '(r1, p1) :=
      propagate_multiple_from i now l1 start_time duration_hours
        step_minutes in
    let '(r2, p2) :=
      propagate_multiple_from (i + List.length l1) now l2 start_time
        duration_hours step_minutes in
    (r1 ++ r2, p1 ++ p2).
Proof.
  revert i. induction l1 as [|sat l1 IH]; intros i.
  - cbn [app List.length propagate_multiple_from]. rewrite Nat.add_0_r.
    now destruct (propagate_multiple_from i now l2 _ _ _).
  - cbn [app List.length propagate_multiple_from]. rewrite IH.
    replace (S i + List.length l1)%nat with (i + S (List.length l1))%nat
      by lia.
    destruct (propagate_multiple_from (S i) now l1 _ _ _) as [r1 p1].
    destruct (propagate_multiple_from (i + S (List.length l1)) now l2 _ _ _)
      as [r2 p2].
    destruct (propagate_satellite (now i) sat _ _ _) as [r|e];
      [destruct (tr_positions r)|]; reflexivity.
Qed.

(** X10.  With a zero step [propagate_multiple] does not raise, unlike the
    sampler it calls and unlike the screener: it returns no trajectory and
    prints one error per object, in the order of the input. *)
Theorem X10_propagate_multiple_zero_step (now : nat -> datetime)
    (satellites : list Satellite) (start_time : option datetime)
    (duration_hours : Z) :
  exists printed,
    propagate_multiple now satellites start_time duration_hours 0
    = ([], printed) /\
    map fst printed = map name satellites /\
    (forall sat satellite,
       In sat satellites ->
       twoline2rv (line1 sat) (line2 sat) = Returns satellite ->
       In (name sat, ZeroDivisionError) printed).
Proof.
  unfold propagate_multiple. generalize 0%nat as i.
  induction satellites as [|sat rest IH]; intros i.
  - exists []. now repeat split.
  - destruct (IH (S i)) as (printed & Hrun & Hnames & Hzero).
    cbn [propagate_multiple_from]. rewrite Hrun.
    assert (Hraise : exists e,
               propagate_satellite (now i) sat start_time duration_hours 0
               = Raises e /\
               (forall satellite,
                  twoline2rv (line1 sat) (line2 sat) = Returns satellite ->
                  e = ZeroDivisionError)).
    { unfold propagate_satellite.
      destruct (twoline2rv (line1 sat) (line2 sat)) as [s|e]; cbn [bind].
      - now exists ZeroDivisionError.
      - exists e. split; [reflexivity | discriminate]. }
    destruct Hraise as (e & -> & He).
    exists ((name sat, e) :: printed). split; [reflexivity|].
    split; [cbn [map fst]; now rewrite Hnames|].
    intros sat' s' [<-|Hin] Hp.
    + left. now rewrite (He s' Hp).
    + right. now apply (Hzero sat' s').
Qed.

(** X11.  Every trajectory [propagate_multiple] returns is non-empty and is
    what the sampler returns for one of the objects; an object yields a
    trajectory or a printed error or nothing, so trajectories and printed
    errors together are at most as many as the objects. *)
Theorem X11_propagate_multiple_results (now : nat -> datetime)
    (satellites : list Satellite) (start_time : option datetime)
    (duration_hours step_minutes : Z) :
  let '(results, printed) :=
    propagate_multiple now satellites start_time duration_hours
      step_minutes in
  (forall tr, In tr results ->
     tr_positions tr <> [] /\
     exists i sat,
       nth_error satellites i = Some sat /\
       propagate_satellite (now i) sat start_time duration_hours step_minutes
       = Returns tr) /\
  (forall n e, In (n, e) printed ->
     exists i sat,
       nth_error satellites i = Some sat /\ name sat = n /\
       propagate_satellite (now i) sat start_time duration_hours step_minutes
       = Raises e) /\
  (List.length results + List.length printed <= List.length satellites)%nat.
Proof.
  unfold propagate_multiple.
  assert (G : forall k,
            let '(results, printed) :=
              propagate_multiple_from k now satellites start_time
                duration_hours step_minutes in
            (forall tr, In tr results ->
               tr_positions tr <> [] /\
               exists i sat,
                 nth_error satellites i = Some sat /\
                 propagate_satellite (now (k + i)%nat) sat start_time
                   duration_hours step_minutes = Returns tr) /\
            (forall n e, In (n, e) printed ->
               exists i sat,
                 nth_error satellites i = Some sat /\ name sat = n /\
                 propagate_satellite (now (k + i)%nat) sat start_time
                   duration_hours step_minutes = Raises e) /\
            (List.length results + List.length printed
             <= List.length satellites)%nat).
  { induction satellites as [|sat rest IH]; intros k.
    - cbn. repeat split; intros; contradiction || lia.
    - cbn [propagate_multiple_from]. specialize (IH (S k)).
      destruct (propagate_multiple_from (S k) now rest _ _ _)
        as [results printed].
      destruct IH as (Hres & Hpr & Hlen).
      assert (Hres' : forall tr, In tr results ->
                 tr_positions tr <> [] /\
                 exists i sat0,
                   nth_error (sat :: rest) i = Some sat0 /\
                   propagate_satellite (now (k + i)%nat) sat0 start_time
                     duration_hours step_minutes = Returns tr).
      { intros tr Hin. destruct (Hres tr Hin) as (Hne & i & s0 & Hi & Hrun).
        split; [exact Hne|]. exists (S i), s0. split; [exact Hi|].
        now replace (k + S i)%nat with (S k + i)%nat by lia. }
      assert (Hpr' : forall n e, In (n, e) printed ->
                 exists i sat0,
                   nth_error (sat :: rest) i = Some sat0 /\ name sat0 = n /\
                   propagate_satellite (now (k + i)%nat) sat0 start_time
                     duration_hours step_minutes = Raises e).
      { intros n e Hin. destruct (Hpr n e Hin) as (i & s0 & Hi & Hn & Hrun).
        exists (S i), s0. split; [exact Hi|]. split; [exact Hn|].
        now replace (k + S i)%nat with (S k + i)%nat by lia. }
      destruct (propagate_satellite (now k) sat start_time duration_hours
                  step_minutes) as [r|e] eqn:E.
      + destruct (tr_positions r) as [|p ps] eqn:Ep.
        * split; [exact Hres'|]. split; [exact Hpr'|].
          cbn [List.length]. lia.
        * split; [|split; [exact Hpr'|cbn [List.length]; lia]].
          intros tr [<-|Hin]; [|now apply Hres'].
          split; [rewrite Ep; discriminate|].
          exists 0%nat, sat. split; [reflexivity|].
          now rewrite Nat.add_0_r.
      + split; [exact Hres'|]. split; [|cbn [List.length]; lia].
        intros n e' [[= <- <-]|Hin]; [|now apply Hpr'].
        exists 0%nat, sat. split; [reflexivity|]. split; [reflexivity|].
        now rewrite Nat.add_0_r. }
  exact (G 0%nat).
Qed.

(** X12.  An object whose lines parse but whose propagation reports an
    error at every instant disappears without a trace from
    [propagate_multiple]: with a non-zero step and a given start time, the
    trajectories and the printed errors are those of the run without it. *)
Theorem X12_propagate_multiple_silent_drop (now : nat -> datetime)
    (l1 l2 : list Satellite) (bad : Satellite) (satellite : Satrec)
    (t0 : datetime) (duration_hours step_minutes : Z) :
  twoline2rv (line1 bad) (line2 bad) = Returns satellite ->
  (forall t, fst (fst (sgp4_at satellite t)) <> 0) ->
  step_minutes <> 0 ->
  propagate_multiple now (l1 ++ bad :: l2) (Some t0) duration_hours
    step_minutes
  = propagate_multiple now (l1 ++ l2) (Some t0) duration_hours step_minutes.
Proof.
  intros Hp Hbad Hs. unfold propagate_multiple.
  rewrite !propagate_multiple_from_app.
  destruct (propagate_multiple_from 0 now l1 _ _ _) as [r1 p1].
  cbn [propagate_multiple_from].
  rewrite (propagate_multiple_from_given_start
             (S (0 + List.length l1)) (0 + List.length l1) now now l2).
  destruct (propagate_multiple_from (0 + List.length l1) now l2 _ _ _)
    as [r2 p2].
  rewrite (propagate_satellite_grid _ bad (Some t0) duration_hours
             step_minutes satellite Hp Hs).
  cbn [tr_positions].
  replace (filter (sgp4_ok satellite) _) with (@nil datetime); [reflexivity|].
  symmetry. apply length_zero_iff_nil.
  assert (G : forall l, List.length (filter (sgp4_ok satellite) l) = 0%nat).
  { induction l as [|t l IH]; [reflexivity|]. cbn [filter].
    unfold sgp4_ok at 1. specialize (Hbad t).
    now destruct (Z.eqb_spec (fst (fst (sgp4_at satellite t))) 0). }
  apply G.
Qed.

End SamplerMore.

(** ** The small-debris model *)

Module DebrisFacts.

Import DebrisDensity DebrisTerms.

#[local] Open Scope Q_scope.

Lemma zone_scan_step (zone_key : string) (zone : dict)
    (rest : list (string * dict)) (lo hi altitude_km : Q) :
  subscript zone "alt_min" = Ok (Num lo) ->
  subscript zone "alt_max" = Ok (Num hi) ->
  zone_scan ((zone_key, zone) :: rest) altitude_km
  = if Qle_bool lo altitude_km && Qltb altitude_km hi
    then Ok (zone_key, zone)
    else zone_scan rest altitude_km.
Proof.
  intros Hlo Hhi. cbn [zone_scan]. rewrite Hlo. cbn [and_then number].
  destruct (Qle_bool lo altitude_km); [|reflexivity].
  rewrite Hhi. cbn [and_then number andb]. reflexivity.
Qed.

Lemma in_band (lo hi x : Q) :
  (lo <= x < hi /\ Qle_bool lo x && Qltb x hi = true) \/
  ((x < lo \/ hi <= x) /\ Qle_bool lo x && Qltb x hi = false).
Proof.
  destruct (Qle_bool lo x) eqn:E1; cbn [andb].
  - apply Qle_bool_iff in E1. destruct (Qltb x hi) eqn:E2.
    + apply Qltb_true in E2. now left.
    + apply Qltb_false in E2. right. split; [now right | reflexivity].
  - right. split; [|reflexivity]. left. apply Qnot_le_lt.
    rewrite <- Qle_bool_iff, E1. discriminate.
Qed.

(** The zone of every altitude, band by band. *)
Lemma get_altitude_zone_bands (altitude_km : Q) :
  exists zk,
    get_altitude_zone altitude_km = Ok zk /\
    ((200 <= altitude_km < 600 /\ nth_error DEBRIS_ZONES 0 = Some zk) \/
     (700 <= altitude_km < 1000 /\ nth_error DEBRIS_ZONES 1 = Some zk) \/
     (1000 <= altitude_km < 2000 /\ nth_error DEBRIS_ZONES 2 = Some zk) \/
     (2000 <= altitude_km < 35786 /\ nth_error DEBRIS_ZONES 3 = Some zk) \/
     (35786 <= altitude_km < 50000 /\ nth_error DEBRIS_ZONES 4 = Some zk) \/
     ((altitude_km < 200 \/ 600 <= altitude_km < 700 \/
       50000 <= altitude_km) /\ zk = unknown_zone)).
Proof.
  unfold get_altitude_zone, DEBRIS_ZONES.
  repeat (erewrite zone_scan_step; [|reflexivity|reflexivity]).
  cbn [zone_scan].
  destruct (in_band 200 600 altitude_km) as [[H1 ->]|[H1 ->]];
    [eexists; split; [reflexivity|]; left; now split|].
  destruct (in_band 700 1000 altitude_km) as [[H2 ->]|[H2 ->]];
    [eexists; split; [reflexivity|]; right; left; now split|].
  destruct (in_band 1000 2000 altitude_km) as [[H3 ->]|[H3 ->]];
    [eexists; split; [reflexivity|]; do 2 right; left; now split|].
  destruct (in_band 2000 35786 altitude_km) as [[H4 ->]|[H4 ->]];
    [eexists; split; [reflexivity|]; do 3 right; left; now split|].
  destruct (in_band 35786 50000 altitude_km) as [[H5 ->]|[H5 ->]];
    [eexists; split; [reflexivity|]; do 4 right; left; now split|].
  eexists. split; [reflexivity|]. do 5 right. split; [|reflexivity].
  destruct H1 as [H1|H1]; [left; exact H1|].
  destruct H5 as [H5|H5]; [|right; right; exact H5].
  destruct H2 as [H2|H2]; [right; left; lra|].
  destruct H3 as [H3|H3]; [lra|].
  destruct H4 as [H4|H4]; lra.
Qed.

(** X13.  [get_altitude_zone] never fails.  It returns the zone of the
    table whose band [alt_min, alt_max) holds the altitude, and the
    "UNKNOWN" zone exactly for the altitudes no band holds: below 200 km,
    from 50000 km on, and in the gap from 600 km up to 700 km. *)
Theorem X13_altitude_zone_bands (altitude_km : Q) :
  exists zone_key zone,
    get_altitude_zone altitude_km = Ok (zone_key, zone) /\
    (zone_key = "UNKNOWN"%string <->
     altitude_km < 200 \/ 600 <= altitude_km < 700 \/ 50000 <= altitude_km) /\
    (zone_key <> "UNKNOWN"%string ->
     In (zone_key, zone) DEBRIS_ZONES /\
     exists lo hi,
       subscript zone "alt_min" = Ok (Num lo) /\
       subscript zone "alt_max" = Ok (Num hi) /\
       lo <= altitude_km < hi).
Proof.
  destruct (get_altitude_zone_bands altitude_km) as ([zone_key zone] & -> & H).
  exists zone_key, zone. split; [reflexivity|].
  destruct H as [[Hb E]|[[Hb E]|[[Hb E]|[[Hb E]|[[Hb E]|[Hb E]]]]]];
    [injection E as <- <- ..|
     unfold unknown_zone in E; injection E as -> ->;
     split; [now split | intros H; now contradiction H]].
  all: split;
    [split; [discriminate | lra]
    |intros _; split;
     [cbn; tauto | eexists; eexists; repeat split; apply Hb]].
Qed.

Lemma clusters_have_altitude : Forall has_altitude KNOWN_DEBRIS_CLUSTERS.
Proof. repeat constructor; eexists; eexists; split; reflexivity. Qed.

Lemma boost_term_bounds (d : Q) :
  0 <= d -> d < 100 -> 0 <= (100 - d) / 100 * 0.5 <= 0.5.
Proof.
  intros H0 H1.
  assert (E : (100 - d) / 100 * 0.5 == (100 - d) * (1 # 200)) by field.
  rewrite E. clear E. split; lra.
Qed.

(** The boost loop never fails on clusters that have an altitude, and every
    cluster adds between 0 and 0.5. *)
Lemma boost_loop_bounds (clusters : list dict) (altitude_km b : Q) :
  Forall has_altitude clusters ->
  exists b',
    boost_loop clusters altitude_km b = Ok b' /\
    b <= b' <= b + 0.5 * inject_Z (Z.of_nat (List.length clusters)).
Proof.
  intros H. revert b. induction H as [|c clusters (a & n & Ha & _) _ IH];
    intros b.
  - exists b. split; [reflexivity|].
    change (inject_Z (Z.of_nat (List.length (@nil dict)))) with 0. lra.
  - cbn [boost_loop]. rewrite Ha. cbn [and_then number].
    set (d := Qabs (altitude_km - a)).
    assert (Hd : 0 <= d) by apply Qabs_nonneg.
    assert (Hlen : inject_Z (Z.of_nat (List.length (c :: clusters)))
                   == inject_Z (Z.of_nat (List.length clusters)) + 1).
    { cbn [List.length]. rewrite Nat2Z.inj_succ, <- Z.add_1_r.
      now rewrite inject_Z_plus. }
    destruct (Qltb d 100) eqn:E.
    + apply Qltb_true in E.
      destruct (IH (b + (100 - d) / 100 * 0.5)) as (b' & -> & Hb').
      exists b'. split; [reflexivity|].
      pose proof (boost_term_bounds d Hd E). rewrite Hlen. lra.
    + destruct (IH b) as (b' & -> & Hb').
      exists b'. split; [reflexivity|]. rewrite Hlen. lra.
Qed.

(** No cluster within 100 km: no boost. *)
Lemma boost_loop_far (clusters : list dict) (altitude_km b : Q) :
  Forall (fun c => exists a, subscript c "altitude_km" = Ok (Num a) /\
                             a + 100 <= altitude_km) clusters ->
  boost_loop clusters altitude_km b = Ok b.
Proof.
  induction 1 as [|c clusters (a & Ha & Hfar) _ IH]; [reflexivity|].
  cbn [boost_loop]. rewrite Ha. cbn [and_then number].
  replace (Qltb (Qabs (altitude_km - a)) 100) with false; [exact IH|].
  symmetry. apply Qltb_false.
  apply (Qle_trans _ (altitude_km - a)); [lra | apply Qle_Qabs].
Qed.

Lemma nearby_loop_ok (clusters : list dict) (altitude_km : Q) :
  Forall has_altitude clusters ->
  exists names,
    nearby_loop clusters altitude_km = Ok names /\
    forall c a n,
      In c clusters ->
      subscript c "altitude_km" = Ok (Num a) ->
      subscript c "name" = Ok n ->
      Qabs (altitude_km - a) < 150 -> In n names.
Proof.
  induction 1 as [|c clusters (a & n & Ha & Hn) _ (names & IH & Hin)].
  - exists []. split; [reflexivity | contradiction].
  - cbn [nearby_loop]. rewrite Ha. cbn [and_then number].
    destruct (Qltb (Qabs (altitude_km - a)) 150) eqn:E.
    + rewrite Hn, IH. cbn [and_then]. exists (Str n :: names).
      split; [reflexivity|].
      intros c' a' n' [<-|Hc] Ha' Hn' Hnear.
      * left. congruence.
      * right. now apply (Hin c' a' n').
    + exists names. split; [exact IH|].
      intros c' a' n' [<-|Hc] Ha' Hn' Hnear.
      * exfalso. apply Qltb_false in E.
        rewrite Ha in Ha'. injection Ha' as <-.
        apply (Qlt_not_le _ _ Hnear E).
      * now apply (Hin c' a' n').
Qed.

(** What [calculate_small_debris_risk] returns, step by step. *)
Lemma calculate_small_debris_risk_ok (altitude_km cross_section_m2
    exposure_years : Q) :
  exists zone_key zone flux boost nearby r,
    get_altitude_zone altitude_km = Ok (zone_key, zone) /\
    subscript zone "small_debris_flux" = Ok (Num flux) /\
    0 < flux <= 0.00012 /\
    boost_loop KNOWN_DEBRIS_CLUSTERS altitude_km 1.0 = Ok boost /\
    1 <= boost <= 3 /\
    nearby_loop KNOWN_DEBRIS_CLUSTERS altitude_km = Ok nearby /\
    calculate_small_debris_risk altitude_km cross_section_m2 exposure_years
    = Ok r /\
    rd_altitude_km r = altitude_km /\
    rd_zone_key r = zone_key /\
    rd_collision_probability r
    = flux * cross_section_m2 * exposure_years * boost /\
    (rd_risk_level r, rd_risk_score r)
    = tier (flux * cross_section_m2 * exposure_years * boost) /\
    rd_nearby_clusters r = nearby /\
    rd_zone_description r
    = match subscript zone "description" with
      | Ok v => v
      | Err _ => Str ""
      end.
Proof.
  destruct (get_altitude_zone_bands altitude_km) as ([zone_key zone] & Hz & H).
  destruct (boost_loop_bounds KNOWN_DEBRIS_CLUSTERS altitude_km 1.0
              clusters_have_altitude) as (boost & Hb & Hbounds).
  destruct (nearby_loop_ok KNOWN_DEBRIS_CLUSTERS altitude_km
              clusters_have_altitude) as (nearby & Hn & _).
  assert (Hzone : exists flux n f,
             subscript zone "small_debris_flux" = Ok (Num flux) /\
             0 < flux <= 0.00012 /\
             subscript zone "name" = Ok (Str n) /\
             subscript zone "density_factor" = Ok (Num f)).
  { destruct H as [[_ E]|[[_ E]|[[_ E]|[[_ E]|[[_ E]|[_ E]]]]]];
      [injection E as <- <- ..| unfold unknown_zone in E; injection E as -> ->];
      eexists; eexists; eexists;
      (split; [reflexivity|]); (split; [split; reflexivity || discriminate|]);
      split; reflexivity. }
  destruct Hzone as (flux & n & f & Hflux & Hfb & Hname & Hdens).
  exists zone_key, zone, flux, boost, nearby.
  unfold calculate_small_debris_risk. rewrite Hz. cbn [and_then].
  rewrite Hflux. cbn [and_then number].
  rewrite Hb. cbn [and_then].
  rewrite Hname, Hdens, Hn. cbn [and_then].
  set (p := flux * cross_section_m2 * exposure_years * boost).
  assert (Hb3 : 1 <= boost <= 3).
  { change (inject_Z (Z.of_nat (List.length KNOWN_DEBRIS_CLUSTERS)))
      with 4 in Hbounds.
    lra. }
  unfold tier.
  destruct (Qltb 0.01 p); [|destruct (Qltb 0.001 p);
    [|destruct (Qltb 0.0001 p); [|destruct (Qltb 0.00001 p)]]];
    eexists; repeat (split; [reflexivity || assumption|]); reflexivity.
Qed.

Ltac split_tier :=
  unfold tier;
  repeat match goal with
    | |- context [Qltb ?a ?b] =>
        let E := fresh "E" in
        destruct (Qltb a b) eqn:E;
        [apply Qltb_true in E | apply Qltb_false in E]
    end.

Lemma tier_high (p : Q) :
  0.001 < p -> p <= 0.01 -> tier p = ("HIGH"%string, 70%Z).
Proof. intros H1 H2. split_tier; reflexivity || (exfalso; lra). Qed.

Lemma tier_below_high (p : Q) :
  p <= 0.001 ->
  fst (tier p) <> "HIGH"%string /\ fst (tier p) <> "CRITICAL"%string.
Proof.
  intros H. split_tier; cbn [fst]; (split; discriminate) || (exfalso; lra).
Qed.

Lemma tier_has_colour (p : Q) :
  get_risk_color (fst (tier p)) <> "#FFFFFF"%string.
Proof. split_tier; cbn; discriminate. Qed.

(** X14.  [calculate_small_debris_risk] never raises, whatever the
    altitude: every key it subscripts is present in every zone it can
    meet, also in the "UNKNOWN" zone, whose missing description is read with
    a default and comes out as the empty string. *)
Theorem X14_small_debris_risk_never_fails (altitude_km cross_section_m2
    exposure_years : Q) :
  exists r,
    calculate_small_debris_risk altitude_km cross_section_m2 exposure_years
    = Ok r /\
    rd_altitude_km r = altitude_km /\
    (rd_zone_key r = "UNKNOWN"%string <->
     altitude_km < 200 \/ 600 <= altitude_km < 700 \/ 50000 <= altitude_km) /\
    (rd_zone_key r = "UNKNOWN"%string -> rd_zone_description r = Str "").
Proof.
  destruct (calculate_small_debris_risk_ok altitude_km cross_section_m2
              exposure_years)
    as (zone_key & zone & flux & boost & nearby & r & Hz & _ & _ & _ & _ & _
        & Hr & Ha & Hk & _ & _ & _ & Hd).
  exists r. split; [exact Hr|]. split; [exact Ha|]. rewrite Hk, Hd.
  destruct (get_altitude_zone_bands altitude_km) as (zk & Hz' & H).
  rewrite Hz in Hz'. injection Hz' as <-.
  destruct H as [[Hb E]|[[Hb E]|[[Hb E]|[[Hb E]|[[Hb E]|[Hb E]]]]]];
    [injection E as <- <- ..|
     unfold unknown_zone in E; injection E as -> ->;
     split; [now split | reflexivity]].
  all: split; [|discriminate].
  all: split; [discriminate|].
  all: intros [H|[H|H]]; exfalso; clear - Hb H; lra.
Qed.

Lemma clusters_below_965 :
  Forall (fun c => exists a, subscript c "altitude_km" = Ok (Num a) /\
                             a <= 865) KNOWN_DEBRIS_CLUSTERS.
Proof. repeat constructor; eexists; (split; [reflexivity | discriminate]). Qed.

Lemma no_boost_from_1000 (altitude_km b : Q) :
  1000 <= altitude_km ->
  boost_loop KNOWN_DEBRIS_CLUSTERS altitude_km b = Ok b.
Proof.
  intros H. apply boost_loop_far.
  eapply Forall_impl; [|exact clusters_below_965].
  intros c (a & Ha & Hle). exists a. split; [exact Ha | lra].
Qed.

(** X16.  With the default cross-section of 10 m2 and one year of exposure,
    the level is "HIGH" exactly in the Critical LEO band, from 700 km up to
    1000 km, and it is "CRITICAL" at no altitude. *)
Theorem X16_default_level_high_iff_critical_leo (altitude_km : Q)
    (r : RiskData) :
  calculate_small_debris_risk altitude_km 10 1 = Ok r ->
  (rd_risk_level r = "HIGH"%string <-> 700 <= altitude_km < 1000) /\
  rd_risk_level r <> "CRITICAL"%string.
Proof.
  intros Hr.
  destruct (calculate_small_debris_risk_ok altitude_km 10 1)
    as (zone_key & zone & flux & boost & nearby & r' & Hz & Hflux & _ & Hb
        & Hb3 & _ & Hr' & _ & _ & _ & Ht & _).
  rewrite Hr in Hr'. injection Hr' as <-.
  assert (Hl : rd_risk_level r = fst (tier (flux * 10 * 1 * boost)))
    by now rewrite <- Ht.
  rewrite Hl. clear Hl Ht Hr.
  destruct (get_altitude_zone_bands altitude_km) as (zk & Hz' & H).
  rewrite Hz in Hz'. injection Hz' as <-.
  destruct H as [[Hband E]|[[Hband E]|[[Hband E]|[[Hband E]|[[Hband E]
                |[Hband E]]]]]];
    [injection E as <- <- ..|
     unfold unknown_zone in E; injection E as -> ->];
    cbv in Hflux; injection Hflux as <-; clear Hz.
  - (* Low LEO *)
    match goal with
    | |- context [tier ?p] =>
        destruct (tier_below_high p) as [H1 H2]; [clear - Hb3; lra|]
    end.
    split; [split; [contradiction | clear - Hband; lra] | exact H2].
  - (* Critical LEO *)
    match goal with
    | |- context [tier ?p] =>
        rewrite (tier_high p); [|clear - Hb3; lra|clear - Hb3; lra]
    end.
    cbn [fst]. split; [now split | discriminate].
  - (* High LEO *)
    rewrite no_boost_from_1000 in Hb by (clear - Hband; lra).
    injection Hb as <-.
    split; [split; [discriminate | clear - Hband; lra] | discriminate].
  - (* MEO *)
    match goal with
    | |- context [tier ?p] =>
        destruct (tier_below_high p) as [H1 H2]; [clear - Hb3; lra|]
    end.
    split; [split; [contradiction | clear - Hband; lra] | exact H2].
  - (* GEO *)
    match goal with
    | |- context [tier ?p] =>
        destruct (tier_below_high p) as [H1 H2]; [clear - Hb3; lra|]
    end.
    split; [split; [contradiction | clear - Hband; lra] | exact H2].
  - (* no band *)
    match goal with
    | |- context [tier ?p] =>
        destruct (tier_below_high p) as [H1 H2]; [clear - Hb3; lra|]
    end.
    split; [split; [contradiction|] | exact H2].
    intros Hc. exfalso. clear - Hband Hc.
    destruct Hband as [H|[H|H]]; lra.
Qed.

(** X17.  Every cluster close enough to raise the probability, less than
    100 km from the altitude, is named in [nearby_clusters]. *)
Theorem X17_boosting_clusters_are_listed (altitude_km cross_section_m2
    exposure_years : Q) (r : RiskData) (c : dict) (a : Q) (n : value) :
  calculate_small_debris_risk altitude_km cross_section_m2 exposure_years
  = Ok r ->
  In c KNOWN_DEBRIS_CLUSTERS ->
  subscript c "altitude_km" = Ok (Num a) ->
  subscript c "name" = Ok n ->
  Qabs (altitude_km - a) < 100 ->
  In n (rd_nearby_clusters r).
Proof.
  intros Hr Hc Ha Hn Hnear.
  destruct (calculate_small_debris_risk_ok altitude_km cross_section_m2
              exposure_years)
    as (zone_key & zone & flux & boost & nearby & r' & _ & _ & _ & _ & _
        & Hnearby & Hr' & _ & _ & _ & _ & Hlist & _).
  rewrite Hr in Hr'. injection Hr' as <-. rewrite Hlist.
  destruct (nearby_loop_ok KNOWN_DEBRIS_CLUSTERS altitude_km
              clusters_have_altitude) as (names & Hnames & Hin).
  rewrite Hnearby in Hnames. injection Hnames as <-.
  apply (Hin c a n Hc Ha Hn). lra.
Qed.

(** X19.  Every risk level [calculate_small_debris_risk] returns has a
    colour of its own in the [get_risk_color] of the same module: the
    lookup never falls back to white. *)
Theorem X19_debris_level_has_colour (altitude_km cross_section_m2
    exposure_years : Q) (r : RiskData) :
  calculate_small_debris_risk altitude_km cross_section_m2 exposure_years
  = Ok r ->
  get_risk_color (rd_risk_level r) <> "#FFFFFF"%string.
Proof.
  intros Hr.
  destruct (calculate_small_debris_risk_ok altitude_km cross_section_m2
              exposure_years)
    as (zone_key & zone & flux & boost & nearby & r' & _ & _ & _ & _ & _
        & _ & Hr' & _ & _ & _ & Ht & _).
  rewrite Hr in Hr'. injection Hr' as <-.
  assert (Hl : rd_risk_level r
               = fst (tier (flux * cross_section_m2 * exposure_years
                            * boost)))
    by now rewrite <- Ht.
  rewrite Hl. apply tier_has_colour.
Qed.

End DebrisFacts.

(** ** The element-set fetcher *)

Module TleFacts.

Import TleFetcher.

Lemma firstn_length_le {A : Type} (n : nat) (l : list A) :
  (List.length (firstn n l) <= n)%nat.
Proof. rewrite length_firstn. lia. Qed.

Lemma get_fallback_data_catalog (catalog_name : string) (limit : Z) :
  Forall (fun sat => catalog sat = Some catalog_name)
    (get_fallback_data catalog_name limit).
Proof.
  unfold get_fallback_data. apply Forall_map, Forall_forall.
  intros sat _. reflexivity.
Qed.

Lemma slice_to_nonempty {A : Type} (x : A) (l : list A) (limit : Z) :
  1 <= limit -> slice_to (x :: l) limit <> [].
Proof.
  intros H. unfold slice_to. destruct (Z.ltb_spec limit 0); [lia|].
  destruct (Z.to_nat limit) eqn:E; [lia|]. discriminate.
Qed.

(** With a limit of at least 1 there is always a fallback record. *)
Lemma get_fallback_data_nonempty (catalog_name : string) (limit : Z) :
  1 <= limit -> get_fallback_data catalog_name limit <> [].
Proof.
  intros H. unfold get_fallback_data. cbv zeta.
  assert (Hrow : exists x l,
             dict_get FALLBACK_TLE_DATA
               (dict_get
                  [ ("stations", "stations"); ("starlink", "starlink");
                    ("cosmos-2251-debris", "debris");
                    ("iridium-33-debris", "debris");
                    ("fengyun-1c-debris", "debris");
                    ("debris", "debris") ]%string catalog_name
                  "stations"%string) []
             = x :: l).
  { unfold dict_get at 2. cbn [find fst snd].
    repeat match goal with
      | |- context [String.eqb ?a catalog_name] =>
          destruct (String.eqb a catalog_name)
      end; eexists; eexists; reflexivity. }
  destruct Hrow as (x & l & ->).
  intros E. apply map_eq_nil in E. now apply slice_to_nonempty in E.
Qed.

(** X20.  The fallback records always carry the catalogue name that was
    asked for, and a name the table of aliases does not know is served
    the records of the stations, under that name.  A limit that is not
    negative bounds the number of records, and a limit of at least 1 always
    yields a record. *)
Theorem X20_fallback_data (catalog_name : string) (limit : Z) :
  Forall (fun sat => catalog sat = Some catalog_name)
    (get_fallback_data catalog_name limit) /\
  (0 <= limit ->
   (List.length (get_fallback_data catalog_name limit) <= Z.to_nat limit)%nat)
  /\
  (1 <= limit -> get_fallback_data catalog_name limit <> []) /\
  (~ In catalog_name
       [ "stations"; "starlink"; "cosmos-2251-debris"; "iridium-33-debris";
         "fengyun-1c-debris"; "debris" ]%string ->
   map (fun sat => (name sat, line1 sat, line2 sat))
     (get_fallback_data catalog_name limit)
   = map (fun sat => (name sat, line1 sat, line2 sat))
       (get_fallback_data "stations" limit)).
Proof.
  split; [apply get_fallback_data_catalog|]. split; [|split].
  - intros Hl. unfold get_fallback_data, slice_to.
    rewrite length_map. destruct (Z.ltb_spec limit 0); [lia|].
    apply firstn_length_le.
  - apply get_fallback_data_nonempty.
  - intros Hnot. unfold get_fallback_data. rewrite !map_map.
    cbn [name line1 line2].
    replace (dict_get _ catalog_name "stations"%string)
      with "stations"%string; [reflexivity|].
    unfold dict_get. cbn [find fst snd].
    repeat match goal with
      | |- context [String.eqb ?a catalog_name] =>
          destruct (String.eqb_spec a catalog_name) as [E|_];
          [exfalso; apply Hnot; rewrite <- E; cbn; tauto|]
      end.
    reflexivity.
Qed.

Section FetchFacts.

Context {net : Network}.

Lemma fetch_from_tle_api_catalog (catalog_name : string) (limit : Z)
    (sats : list Satellite) :
  fetch_from_tle_api catalog_name limit = inr sats ->
  Forall (fun sat => catalog sat = Some catalog_name) sats.
Proof.
  unfold fetch_from_tle_api.
  destruct (requests_get_json _) as [e|data]; [discriminate|].
  intros [= <-]. apply Forall_map, Forall_forall. intros item _. reflexivity.
Qed.

(** The satellites and the flag that [fetch_tle_data] returns do not depend
    on the state it starts from. *)
Lemma fetch_tle_data_state (st st' : State) (catalog_name : string)
    (limit : Z) :
  fst (fst (fetch_tle_data st catalog_name limit))
  = fst (fst (fetch_tle_data st' catalog_name limit)) /\
  using_fallback (snd (fst (fetch_tle_data st catalog_name limit)))
  = using_fallback (snd (fst (fetch_tle_data st' catalog_name limit))).
Proof.
  unfold fetch_tle_data.
  destruct (fetch_from_tle_api catalog_name limit) as [e|[|sat rest]];
    split; reflexivity.
Qed.

(** X21.  Whichever source [fetch_tle_data] uses, every record it returns
    carries the catalogue name that was asked for, and with a limit of at
    least 1 it never returns an empty list: an empty or failed answer of the
    service is replaced by fallback records, the stations' if the name is
    unknown. *)
Theorem X21_fetch_tle_data_result (st : State) (catalog_name : string)
    (limit : Z) :
  Forall (fun sat => catalog sat = Some catalog_name)
    (fst (fst (fetch_tle_data st catalog_name limit))) /\
  (1 <= limit -> fst (fst (fetch_tle_data st catalog_name limit)) <> []).
Proof.
  unfold fetch_tle_data.
  destruct (fetch_from_tle_api catalog_name limit) as [e|[|sat rest]] eqn:E;
    cbn [fall_back fst snd].
  - split; [apply get_fallback_data_catalog|].
    apply get_fallback_data_nonempty.
  - split; [apply get_fallback_data_catalog|].
    apply get_fallback_data_nonempty.
  - split; [exact (fetch_from_tle_api_catalog _ limit _ E) | discriminate].
Qed.

Lemma fetch_each_app (st : State) (l1 l2 : list string) (limit : Z) :
  fetch_each st (l1 ++ l2) limit
  = let '(s1, st1, p1) := fetch_each st l1 limit in
    let '(s2, st2, p2) := fetch_each st1 l2 limit in
    (s1 ++ s2, st2, p1 ++ p2).
Proof.
  revert st. induction l1 as [|c l1 IH]; intros st.
  - cbn [app fetch_each]. now destruct (fetch_each st l2 limit) as [[s2 st2] p2].
  - cbn [app fetch_each].
    destruct (fetch_tle_data st c limit) as [[s0 st0] p0].
    rewrite IH.
    destruct (fetch_each st0 l1 limit) as [[s1 st1] p1].
    destruct (fetch_each st1 l2 limit) as [[s2 st2] p2].
    now rewrite !app_assoc.
Qed.

Lemma fetch_each_satellites (st : State) (catalogs : list string)
    (limit : Z) :
  fst (fst (fetch_each st catalogs limit))
  = flat_map
      (fun c => fst (fst (fetch_tle_data initial_state c limit))) catalogs.
Proof.
  revert st. induction catalogs as [|c rest IH]; intros st; [reflexivity|].
  cbn [fetch_each flat_map].
  pose proof (fetch_tle_data_state st initial_state c limit) as [Hs _].
  destruct (fetch_tle_data st c limit) as [[s0 st0] p0].
  specialize (IH st0).
  destruct (fetch_each st0 rest limit) as [[s1 st1] p1].
  cbn [fst snd] in *. now rewrite <- Hs, IH.
Qed.

(** X22.  [fetch_multiple_catalogs] returns the records of the catalogues
    one after the other, in the order asked for.  The fallback flag it
    leaves behind tells about the last catalogue only: it is the flag a
    fetch of that catalogue alone would leave, whatever happened to the
    catalogues before it. *)
Theorem X22_flag_tells_last_catalogue_only (st st' : State)
    (catalogs : list string) (last : string) (limit : Z) :
  let '(sats, final, _) :=
    fetch_multiple_catalogs st (Some (catalogs ++ [last])) limit in
  sats
  = flat_map (fun c => fst (fst (fetch_tle_data initial_state c limit)))
      (catalogs ++ [last]) /\
  is_using_fallback final
  = is_using_fallback (snd (fst (fetch_tle_data st' last limit))).
Proof.
  unfold fetch_multiple_catalogs.
  pose proof (fetch_each_satellites st (catalogs ++ [last]) limit) as Hs.
  rewrite fetch_each_app in *.
  destruct (fetch_each st catalogs limit) as [[s1 st1] p1].
  cbn [fetch_each] in *.
  pose proof (fetch_tle_data_state st1 st' last limit) as [_ Hf].
  destruct (fetch_tle_data st1 last limit) as [[s2 st2] p2].
  cbn [fst snd] in *. rewrite app_nil_r in *. split; [exact Hs | exact Hf].
Qed.

(** X23.  After a call of [fetch_tle_data] the three accessors agree on
    the source: [get_data_source] is never "Unknown" again, it names the
    cached data exactly when [is_using_fallback] holds, and live data
    clears the error.  A fall-back on an empty answer, with no exception,
    leaves [get_last_error] as it was: it then reports the error of an
    earlier call, or none. *)
Theorem X23_accessors_after_fetch (st : State) (catalog_name : string)
    (limit : Z) :
  let st' := snd (fst (fetch_tle_data st catalog_name limit)) in
  (get_data_source st' = "TLE API (live data)"%string \/
   get_data_source st' = "Cached demo data"%string) /\
  (is_using_fallback st' = true <->
   get_data_source st' = "Cached demo data"%string) /\
  (is_using_fallback st' = false -> get_last_error st' = None) /\
  (forall e, fetch_from_tle_api catalog_name limit = inl e ->
     is_using_fallback st' = true /\ get_last_error st' = Some e) /\
  (fetch_from_tle_api catalog_name limit = inr [] ->
   is_using_fallback st' = true /\ get_last_error st' = get_last_error st).
Proof.
  cbv zeta. unfold fetch_tle_data.
  destruct (fetch_from_tle_api catalog_name limit) as [e|[|sat rest]];
    cbn; repeat split; auto; try discriminate; try (intros; congruence).
Qed.

End FetchFacts.

(** With the service above, stations fall back and debris are live: the
    list starts with fallback records and the flag says live data. *)
Lemma X22_flag_tells_last_catalogue_only_witness :
  exists sats final printed,
    fetch_multiple_catalogs (net := TleToy.debris_only) initial_state
      (Some (["stations"%string] ++ ["debris"%string])%list) 5
    = (sats, final, printed) /\
    map name sats = ["ISS (ZARYA)"; "TIANGONG"; "COSMOS 2251 DEB"]%string /\
    map catalog sats
    = [Some "stations"; Some "stations"; Some "debris"]%string /\
    is_using_fallback final = false.
Proof.
  pose proof (X22_flag_tells_last_catalogue_only (net := TleToy.debris_only)
                initial_state initial_state ["stations"%string]
                "debris"%string 5) as H.
  destruct (fetch_multiple_catalogs initial_state
              (Some (["stations"%string] ++ ["debris"%string])%list) 5)
    as [[sats final] printed].
  destruct H as [Hs Hf].
  exists sats, final, printed. split; [reflexivity|].
  rewrite Hs, Hf. repeat split; vm_compute; reflexivity.
Defined.


End TleFacts.

(** ** The further properties on the catalogue *)

Lemma run_a_events :
  run_a = Returns [event_ac; event_ab_late; event_ab_early].
Proof. vm_compute. reflexivity. Qed.

Lemma X2_threshold_monotone_witness :
  (5 <= 125 # 10)%Q /\ incl [event_ac; event_ab_late]
                          [event_ac; event_ab_late; event_ab_early].
Proof.
  split; [discriminate|].
  apply (X2_threshold_monotone (ext := Toy.externals) 0
           [Toy.sat "A" "1 A"; Toy.sat "B" "1 B"; Toy.sat "C" "1 C"]
           5 (125 # 10) 1 30).
  - discriminate.
  - vm_compute. reflexivity.
  - exact run_a_events.
Defined.

Lemma X3_events_within_horizon_witness :
  0 <= time event_ab_late < 0 + 1 * 3600000000 /\
  time_from_now event_ab_late = time event_ab_late - 0.
Proof.
  pose proof (X3_events_within_horizon (ext := Toy.externals) 0
                [Toy.sat "A" "1 A"; Toy.sat "B" "1 B"; Toy.sat "C" "1 C"]
                (125 # 10) 1 30 _ event_ab_late ltac:(lia) ltac:(lia)
                run_a_events ltac:(right; left; reflexivity))
    as (H1 & H2 & _).
  split; assumption.
Defined.

Lemma X4_event_count_bound_witness :
  (2 * List.length [event_ac; event_ab_late; event_ab_early]
   <= Z.to_nat (Z.quot (1 * 60) 30) * (3 * (3 - 1)))%nat.
Proof.
  exact (proj1 (X4_event_count_bound (ext := Toy.externals) 0
                  [Toy.sat "A" "1 A"; Toy.sat "B" "1 B"; Toy.sat "C" "1 C"]
                  (125 # 10) 1 30 _ run_a_events)).
Defined.

Lemma X5_no_event_iff_all_apart_witness :
  find_conjunctions (ext := Toy.externals) 0
    [Toy.sat "A" "1 A"; Toy.sat "B" "1 B"] 1 1 30 = Returns [] /\
  (1 <= calculate_distance (ext := Toy.externals) [7000; 0; 0]
          [70123 # 10; 0; 0])%Q.
Proof.
  assert (Hrun : find_conjunctions (ext := Toy.externals) 0
                   [Toy.sat "A" "1 A"; Toy.sat "B" "1 B"] 1 1 30
                 = Returns []) by (vm_compute; reflexivity).
  split; [exact Hrun|].
  exact (proj1 (X5_no_event_iff_all_apart (ext := Toy.externals) 0
                  [Toy.sat "A" "1 A"; Toy.sat "B" "1 B"] 1 1 30 [] Hrun)
           eq_refl 0 (Toy.sat "A" "1 A") (Toy.sat "B" "1 B")
           {| pe_name := "A"; pe_catalog := "debris";
              pe_position := [7000; 0; 0]%Q; pe_altitude_km := 629%Q;
              pe_time := 0 |}
           {| pe_name := "B"; pe_catalog := "debris";
              pe_position := [70123 # 10; 0; 0]%Q;
              pe_altitude_km := (6413 # 10)%Q; pe_time := 0 |}
           ltac:(split; [discriminate | reflexivity])
           ltac:(exists [], [], []; reflexivity)
           eq_refl eq_refl).
Defined.

Lemma X6_event_at_least_as_severe_as_threshold_witness :
  risk_score (assess_collision_risk (Finite (125 # 10)))
  <= risk_score (assess_collision_risk (Finite (distance_km event_ab_late))).
Proof.
  apply (X6_event_at_least_as_severe_as_threshold (ext := Toy.externals) 0
           [Toy.sat "A" "1 A"; Toy.sat "B" "1 B"; Toy.sat "C" "1 C"]
           (125 # 10) 1 30 _ event_ab_late 1250 run_a_events).
  - right. left. reflexivity.
  - reflexivity.
Defined.

Lemma X7_no_duplicate_events_witness :
  NoDup [event_ac; event_ab_late; event_ab_early].
Proof.
  apply (X7_no_duplicate_events (ext := Toy.externals) 0
           [Toy.sat "A" "1 A"; Toy.sat "B" "1 B"; Toy.sat "C" "1 C"]
           (125 # 10) 1 30).
  - cbn [map name Toy.sat]. repeat constructor; cbn; intuition discriminate.
  - exact run_a_events.
Defined.

Lemma trajectory_a_run :
  propagate_satellite (ext := Toy.externals) 5 (Toy.sat "A" "1 A") None 1 30
  = Returns trajectory_a.
Proof. vm_compute. reflexivity. Qed.

Lemma X8_trajectory_invariants_witness :
  List.length (tr_positions trajectory_a) = List.length (tr_times trajectory_a)
  /\ StronglySorted Z.lt (tr_times trajectory_a).
Proof.
  pose proof (X8_trajectory_invariants (ext := Toy.externals) 5
                (Toy.sat "A" "1 A") None 1 30 _ trajectory_a_run)
    as (H1 & _ & _ & H2).
  split; [exact H1 | apply H2; reflexivity].
Defined.

Lemma X9_sampler_agrees_with_current_position_witness :
  exists entry,
    position_entry (ext := Toy.externals) (Toy.sat "A" "1 A") 1800000005
    = Some entry /\ pe_position entry = [7000; 0; 0]%Q.
Proof.
  exact (proj2 (X9_sampler_agrees_with_current_position
                  (ext := Toy.externals) 5 0 (Toy.sat "A" "1 A") None 1 30
                  _ 1 1800000005 [7000; 0; 0]%Q trajectory_a_run
                  eq_refl eq_refl)).
Defined.

Lemma X12_propagate_multiple_silent_drop_witness :
  propagate_multiple (ext := Toy.externals) (fun _ => 0)
    [Toy.sat "A" "1 A"; Toy.sat "E" "1 E"; Toy.sat "D" "1 D"] (Some 0) 1 30
  = propagate_multiple (ext := Toy.externals) (fun _ => 0)
      [Toy.sat "A" "1 A"; Toy.sat "D" "1 D"] (Some 0) 1 30.
Proof.
  apply (X12_propagate_multiple_silent_drop (ext := Toy.externals)
           (fun _ => 0) [Toy.sat "A" "1 A"] [Toy.sat "D" "1 D"]
           (Toy.sat "E" "1 E") (Toy.Failing 1) 0 1 30).
  - reflexivity.
  - intros t. discriminate.
  - discriminate.
Defined.

Lemma X16_default_level_high_iff_critical_leo_witness :
  exists r,
    DebrisDensity.calculate_small_debris_risk 850 10 1
    = DebrisDensity.Ok r /\
    (DebrisDensity.rd_risk_level r = "HIGH"%string
     <-> (700 <= 850 < 1000)%Q).
Proof.
  eexists. split; [vm_compute; reflexivity|].
  apply (DebrisFacts.X16_default_level_high_iff_critical_leo 850).
  vm_compute. reflexivity.
Defined.

Lemma X17_boosting_clusters_are_listed_witness :
  exists r,
    DebrisDensity.calculate_small_debris_risk 850 10 1
    = DebrisDensity.Ok r /\
    In (DebrisDensity.Str "Fengyun-1C ASAT Test")
      (DebrisDensity.rd_nearby_clusters r).
Proof.
  assert (Hrun : exists r,
             DebrisDensity.calculate_small_debris_risk 850 10 1
             = DebrisDensity.Ok r)
    by (eexists; vm_compute; reflexivity).
  destruct Hrun as (r & Hrun). exists r. split; [exact Hrun|].
  apply (DebrisFacts.X17_boosting_clusters_are_listed 850 10 1 r
           (nth 1 DebrisDensity.KNOWN_DEBRIS_CLUSTERS []) 865 _ Hrun).
  - right. left. reflexivity.
  - reflexivity.
  - reflexivity.
  - reflexivity.
Defined.

Lemma X19_debris_level_has_colour_witness :
  exists r,
    DebrisDensity.calculate_small_debris_risk 850 10 1
    = DebrisDensity.Ok r /\
    DebrisDensity.get_risk_color (DebrisDensity.rd_risk_level r)
    <> "#FFFFFF"%string.
Proof.
  assert (H1 : exists r,
             DebrisDensity.calculate_small_debris_risk 850 10 1
             = DebrisDensity.Ok r)
    by (eexists; vm_compute; reflexivity).
  destruct H1 as (r & H1). exists r. split; [exact H1|].
  exact (DebrisFacts.X19_debris_level_has_colour 850 10 1 r H1).
Defined.

Lemma X25_input_order_only_exchanges_roles_witness :
  exists evs',
    find_conjunctions (ext := Toy.externals) 0
      (rev [Toy.sat "A" "1 A"; Toy.sat "B" "1 B"; Toy.sat "C" "1 C"])
      (125 # 10) 1 30 = Returns evs' /\
    (In event_ab_late evs' \/ In (swapped event_ab_late) evs').
Proof.
  assert (Hrun : exists evs',
             find_conjunctions (ext := Toy.externals) 0
               (rev [Toy.sat "A" "1 A"; Toy.sat "B" "1 B"; Toy.sat "C" "1 C"])
               (125 # 10) 1 30 = Returns evs')
    by (eexists; vm_compute; reflexivity).
  destruct Hrun as (evs' & Hrun). exists evs'. split; [exact Hrun|].
  apply (X25_input_order_only_exchanges_roles (ext := Toy.externals) 0
           [Toy.sat "A" "1 A"; Toy.sat "B" "1 B"; Toy.sat "C" "1 C"]
           (rev [Toy.sat "A" "1 A"; Toy.sat "B" "1 B"; Toy.sat "C" "1 C"])
           (125 # 10) 1 30 _ evs' event_ab_late
           (Permutation_rev _) run_a_events Hrun).
  right. left. reflexivity.
Defined.
